(** * pi-data-pipeline dashboard client: a shallow embedding of [docs/js/app.js]

    The source file holds two listings of [class DashboardApp]:
    - the current client (first listing): custom time ranges, CSV export,
      replace-on-change live feed; embedded in [Module App1];
    - the earlier client (second listing): push readings prepended to the
      live feed, heat intensity divided by 100; embedded in [Module App2].

    The network, the DOM and the host library ([Date], [toLocaleString]) are
    made explicit: a response is an argument of the method that awaits it,
    the DOM elements the code reads or writes are fields of [World], and the
    host functions are the fields of [Class Host]. *)

From Stdlib Require Import List String Ascii ZArith QArith Bool Lia.
Import ListNotations.
Local Open Scope string_scope.
Local Open Scope Z_scope.

(** ** JavaScript values carried by the JSON payloads *)

(** An optional float of the data model as the client sees it after
    [response.json()]: the property is missing, is [null], or is a number.
    JSON has no NaN and no infinities, so a number is a rational here. *)
Inductive jsval : Type :=
| JUndefined
| JNull
| JNum (q : Q).

(** [!v] is [negb (truthy v)]: 0 is falsy, like [null] and [undefined]. *)
Definition truthy (v : jsval) : bool :=
  match v with
  | JNum q => negb (Qeq_bool q 0)
  | JUndefined | JNull => false
  end.

(** [v !== null && v !== undefined] *)
Definition present (v : jsval) : bool :=
  match v with
  | JNum _ => true
  | JUndefined | JNull => false
  end.

(** [v || 0] on a number-or-absent value. *)
Definition or_zero (v : jsval) : Q :=
  if truthy v then match v with JNum q => q | _ => 0%Q end else 0%Q.

(** *** Arithmetic on Numbers

    A Number is an IEEE 754 double; a finite one is the rational it
    denotes. The source computes with Numbers once, in [intensity / 100] of
    the second listing. *)

(** The integer nearest to [x], the even one of two that are equally near. *)
Definition round_half_even (x : Q) : Z :=
  let d := Zpos (Qden x) in
  let f := Qnum x / d in
  match 2 * (Qnum x mod d) ?= d with
  | Lt => f
  | Gt => f + 1
  | Eq => if Z.even f then f else f + 1
  end.

(** The exponent of the power of two at or below [a], for [0 < a]. *)
Definition floor_log2 (a : Q) : Z :=
  let e := Z.log2 (Qnum a) - Z.log2 (Zpos (Qden a)) in
  if Qle_bool (Qpower 2 e) a then e else e - 1.

(** The Number for a rational within the range of the doubles: the nearest
    double, ties to the even significand. It has 53 significant bits, or
    is a multiple of 2^-1074 below 2^-1022. A double is its own Number;
    the decimal literal of a JSON text becomes a Number this way. *)
Definition Number_of (q : Q) : Q :=
  if Qeq_bool q 0 then 0%Q
  else
    let a := if Qle_bool 0 q then q else Qopp q in
    let ulp := Qpower 2 (Z.max (floor_log2 a - 52) (-1074)) in
    let m := inject_Z (round_half_even (a / ulp)) in
    Qred (if Qle_bool 0 q then m * ulp else Qopp (m * ulp))%Q.

(** [x / 100] on Numbers: the exact quotient, rounded to a Number. *)
Definition divide_by_100 (x : Q) : Q := Number_of (Number_of x / 100).

(** A string-valued property that may be [null] ([None]); the empty string
    is falsy. *)
Definition truthy_str (s : option string) : bool :=
  match s with
  | Some s => negb (s =? "")%string
  | None => false
  end.

(** ** Data model (rows of the backend API) *)

Record Reading : Type := mkReading {
  r_node_id : string;
  timestamp : string;
  temperature : jsval;
  relative_humidity : jsval;
  soil_moisture : jsval;
  lux : jsval;
  voltage : jsval
}.

Record NodeSummary : Type := mkNodeSummary {
  ns_node_id : string;
  last_seen : string;
  reading_count : Z;
  ns_avg_temp : jsval;
  ns_avg_humidity : jsval;
  ns_avg_voltage : jsval
}.

Record Decision : Type := mkDecision {
  d_node_id : string;
  d_timestamp : string;
  decision : string;
  action : string;
  confidence : Q
}.

Record NodeLocation : Type := mkNodeLocation {
  l_node_id : string;
  name : option string;
  lat : jsval;
  lon : jsval;
  l_avg_temp : jsval;
  l_avg_humidity : jsval;
  l_avg_soil_moisture : jsval;
  l_avg_lux : jsval;
  l_avg_voltage : jsval
}.

Record TimeSeriesPoint : Type := mkPoint {
  node_id : string;
  p_timestamp : string;
  avg_temp : jsval;
  avg_humidity : jsval;
  avg_soil_moisture : jsval;
  avg_lux : jsval;
  avg_voltage : jsval
}.

(** [location[`avg_${m}`]]: the only properties of a location whose name
    starts with [avg_] are the five averages. *)
Definition loc_avg (l : NodeLocation) (m : string) : jsval :=
  if (m =? "temp")%string then l_avg_temp l
  else if (m =? "humidity")%string then l_avg_humidity l
  else if (m =? "soil_moisture")%string then l_avg_soil_moisture l
  else if (m =? "lux")%string then l_avg_lux l
  else if (m =? "voltage")%string then l_avg_voltage l
  else JUndefined.

(** ** Rendering sinks *)

(** A child element of [#liveDataContainer]: the [<p class="loading">]
    placeholder or a rendered reading. *)
Inductive Child : Type :=
| Loading
| Item (r : Reading).

(** The LiveFeedBuffer: the readings shown, top first. *)
Fixpoint feed (c : list Child) : list Reading :=
  match c with
  | [] => []
  | Loading :: c' => feed c'
  | Item r :: c' => r :: feed c'
  end.

(** A Leaflet marker: its position and the location its popup shows. *)
Record Marker : Type := mkMarker {
  m_lat : jsval;
  m_lon : jsval;
  m_popup : NodeLocation
}.

(** A heat sample [[lat, lon, intensity]]. *)
Definition HeatPoint : Type := (jsval * jsval * jsval)%type.

(** A chart dataset as the sink contract has it; [backgroundColor],
    [tension] and [fill] are styling and left out. *)
Record Dataset : Type := mkDataset {
  label : string;
  data : list jsval;
  borderColor : string
}.

Record ChartData : Type := mkChartData {
  labels : list string;
  datasets : list Dataset
}.

(** [L.marker([lat, lon]).addTo(map)] of Leaflet 1.x on a map that has a
    view, with the exception it throws. For a [lat] that is [null] the
    array is not read as a position ([typeof null] is ['object']), the
    marker has no position and [addTo] throws a TypeError when it projects
    it. Otherwise [LatLng] throws "Invalid LatLng object" when a coordinate
    is NaN as a number, which [undefined] is and [null] (read as 0) is not.
    The marker keeps the coordinates it was given. *)
Definition L_marker (node : NodeLocation) : Marker + string :=
  match lat node, lon node with
  | JNull, _ => inr "TypeError"
  | JUndefined, _ => inr "Error"
  | JNum _, JUndefined => inr "Error"
  | JNum _, _ => inl (mkMarker (lat node) (lon node) node)
  end.

(** ** Configuration ([docs/js/config.js]) *)

Module CONFIG.
Definition API_BASE_URL : string := "https://mirror-nuke-lcd-ethical.trycloudflare.com".
Definition CHART_COLORS : list (string * string) :=
  [ ("temperature", "rgba(239, 68, 68, 1)");
    ("humidity", "rgba(59, 130, 246, 1)");
    ("soil_moisture", "rgba(16, 185, 129, 1)");
    ("lux", "rgba(245, 158, 11, 1)");
    ("voltage", "rgba(124, 58, 237, 1)") ].
Definition FEATURES_heatMap : bool := true.
Definition FEATURES_serverSentEvents : bool := true.
Definition FEATURES_autoRefresh : bool := true.
(** Periods in milliseconds. *)
Definition REFRESH_INTERVALS : list (string * Z) :=
  [ ("liveData", 5000); ("nodeStats", 10000); ("decisions", 8000);
    ("map", 15000); ("charts", 30000) ].
End CONFIG.

(** ** The world the client acts on *)

Record World : Type := mkWorld {
  (* fields of [this] *)
  isConnected : bool;
  customTimeRange : option string * option string;
  isCustomRange : bool;
  lastLiveDataTimestamp : option string;
  markers : list Marker;
  heatLayer : option (list HeatPoint);
  charts : list (string * ChartData);
  (* the Leaflet map: is [this.heatLayer] currently one of its layers *)
  heatOnMap : bool;
  (* DOM controls read by the code *)
  timeRange : string;
  startTime : string;
  endTime : string;
  heatmapMetric : string;
  (* DOM containers written by the code *)
  liveDataContainer : list Child;
  nodeStatsContainer : list NodeSummary;
  decisionsContainer : list Decision;
  (* effects: URLs handed to [fetch] and messages handed to [alert],
     oldest first *)
  fetched : list string;
  alerts : list string
}.

Definition set_isConnected (b : bool) (w : World) : World :=
  mkWorld b (customTimeRange w) (isCustomRange w) (lastLiveDataTimestamp w)
    (markers w) (heatLayer w) (charts w) (heatOnMap w) (timeRange w)
    (startTime w) (endTime w) (heatmapMetric w) (liveDataContainer w)
    (nodeStatsContainer w) (decisionsContainer w) (fetched w) (alerts w).

Definition set_customTimeRange (r : option string * option string) (w : World) : World :=
  mkWorld (isConnected w) r (isCustomRange w) (lastLiveDataTimestamp w)
    (markers w) (heatLayer w) (charts w) (heatOnMap w) (timeRange w)
    (startTime w) (endTime w) (heatmapMetric w) (liveDataContainer w)
    (nodeStatsContainer w) (decisionsContainer w) (fetched w) (alerts w).

Definition set_isCustomRange (b : bool) (w : World) : World :=
  mkWorld (isConnected w) (customTimeRange w) b (lastLiveDataTimestamp w)
    (markers w) (heatLayer w) (charts w) (heatOnMap w) (timeRange w)
    (startTime w) (endTime w) (heatmapMetric w) (liveDataContainer w)
    (nodeStatsContainer w) (decisionsContainer w) (fetched w) (alerts w).

Definition set_lastLiveDataTimestamp (t : option string) (w : World) : World :=
  mkWorld (isConnected w) (customTimeRange w) (isCustomRange w) t
    (markers w) (heatLayer w) (charts w) (heatOnMap w) (timeRange w)
    (startTime w) (endTime w) (heatmapMetric w) (liveDataContainer w)
    (nodeStatsContainer w) (decisionsContainer w) (fetched w) (alerts w).

Definition set_map (ms : list Marker) (h : option (list HeatPoint)) (on : bool)
    (w : World) : World :=
  mkWorld (isConnected w) (customTimeRange w) (isCustomRange w)
    (lastLiveDataTimestamp w) ms h (charts w) on (timeRange w)
    (startTime w) (endTime w) (heatmapMetric w) (liveDataContainer w)
    (nodeStatsContainer w) (decisionsContainer w) (fetched w) (alerts w).

Definition set_charts (cs : list (string * ChartData)) (w : World) : World :=
  mkWorld (isConnected w) (customTimeRange w) (isCustomRange w)
    (lastLiveDataTimestamp w) (markers w) (heatLayer w) cs (heatOnMap w)
    (timeRange w) (startTime w) (endTime w) (heatmapMetric w)
    (liveDataContainer w) (nodeStatsContainer w) (decisionsContainer w)
    (fetched w) (alerts w).

Definition set_timeRange (v : string) (w : World) : World :=
  mkWorld (isConnected w) (customTimeRange w) (isCustomRange w)
    (lastLiveDataTimestamp w) (markers w) (heatLayer w) (charts w)
    (heatOnMap w) v (startTime w) (endTime w) (heatmapMetric w)
    (liveDataContainer w) (nodeStatsContainer w) (decisionsContainer w)
    (fetched w) (alerts w).

Definition set_liveDataContainer (c : list Child) (w : World) : World :=
  mkWorld (isConnected w) (customTimeRange w) (isCustomRange w)
    (lastLiveDataTimestamp w) (markers w) (heatLayer w) (charts w)
    (heatOnMap w) (timeRange w) (startTime w) (endTime w) (heatmapMetric w)
    c (nodeStatsContainer w) (decisionsContainer w) (fetched w) (alerts w).

Definition set_nodeStatsContainer (c : list NodeSummary) (w : World) : World :=
  mkWorld (isConnected w) (customTimeRange w) (isCustomRange w)
    (lastLiveDataTimestamp w) (markers w) (heatLayer w) (charts w)
    (heatOnMap w) (timeRange w) (startTime w) (endTime w) (heatmapMetric w)
    (liveDataContainer w) c (decisionsContainer w) (fetched w) (alerts w).

Definition set_decisionsContainer (c : list Decision) (w : World) : World :=
  mkWorld (isConnected w) (customTimeRange w) (isCustomRange w)
    (lastLiveDataTimestamp w) (markers w) (heatLayer w) (charts w)
    (heatOnMap w) (timeRange w) (startTime w) (endTime w) (heatmapMetric w)
    (liveDataContainer w) (nodeStatsContainer w) c (fetched w) (alerts w).

(** [fetch(url)] *)
Definition fetch (url : string) (w : World) : World :=
  mkWorld (isConnected w) (customTimeRange w) (isCustomRange w)
    (lastLiveDataTimestamp w) (markers w) (heatLayer w) (charts w)
    (heatOnMap w) (timeRange w) (startTime w) (endTime w) (heatmapMetric w)
    (liveDataContainer w) (nodeStatsContainer w) (decisionsContainer w)
    (fetched w ++ [url])%list (alerts w).

(** [alert(msg)] *)
Definition alert (msg : string) (w : World) : World :=
  mkWorld (isConnected w) (customTimeRange w) (isCustomRange w)
    (lastLiveDataTimestamp w) (markers w) (heatLayer w) (charts w)
    (heatOnMap w) (timeRange w) (startTime w) (endTime w) (heatmapMetric w)
    (liveDataContainer w) (nodeStatsContainer w) (decisionsContainer w)
    (fetched w) (alerts w ++ [msg])%list.

(** What the [await]ed request came back with: a 2xx response whose body
    parsed to [payload], or anything that lands in the [catch] of
    [fetchAPI] (a rejected [fetch], a status that is not ok, a body that is
    not JSON). *)
Inductive Response (A : Type) : Type :=
| Ok (payload : A)
| Failed.
Arguments Ok {A} payload.
Arguments Failed {A}.

(** ** The host: the browser functions the client calls *)

Class Host : Type := {
  (** [new Date(s).getTime()]; [None] is NaN, an invalid date *)
  Date_getTime : string -> option Z;
  (** [new Date(ms).toISOString()] of a valid time value *)
  Date_toISOString : Z -> string;
  (** [Number(s)], the coercion behind [hours * 60 * 60 * 1000]; [None] is NaN *)
  ToNumber : string -> option Q;
  (** [new Date(s).toLocaleString(undefined, {month, day, hour, minute})] *)
  toLocaleString : string -> string;
  (** [new Date(s).toLocaleTimeString(undefined, {hour, minute})] *)
  toLocaleTimeString : string -> string
}.

(** [new Date(a) >= new Date(b)]: a comparison with NaN is false. *)
Definition Date_ge `{Host} (a b : string) : bool :=
  match Date_getTime a, Date_getTime b with
  | Some x, Some y => y <=? x
  | _, _ => false
  end.

(** *** Percent-encoding, on the UTF-8 bytes of a string *)

Definition hex_digit (n : N) : ascii :=
  nth (N.to_nat n) (list_ascii_of_string "0123456789ABCDEF") "0"%char.

Definition pct_encode (c : ascii) : string :=
  let n := N_of_ascii c in
  String "%" (String (hex_digit (n / 16)) (String (hex_digit (n mod 16)) EmptyString)).

Definition is_alnum (c : ascii) : bool :=
  let n := N_of_ascii c in
  ((48 <=? n) && (n <=? 57) || (65 <=? n) && (n <=? 90) || (97 <=? n) && (n <=? 122))%N.

Definition one_of (cs : string) (c : ascii) : bool :=
  existsb (Ascii.eqb c) (list_ascii_of_string cs).

Fixpoint encodeURIComponent (s : string) : string :=
  match s with
  | EmptyString => EmptyString
  | String c s' =>
      (if is_alnum c || one_of "-_.!~*'()" c then String c EmptyString
       else pct_encode c) ++ encodeURIComponent s'
  end.

(** The serializer of [URLSearchParams.prototype.toString]. *)
Fixpoint form_urlencode (s : string) : string :=
  match s with
  | EmptyString => EmptyString
  | String c s' =>
      (if is_alnum c || one_of "*-._" c then String c EmptyString
       else if Ascii.eqb c " " then "+"
       else pct_encode c) ++ form_urlencode s'
  end.

Fixpoint URLSearchParams_toString (params : list (string * string)) : string :=
  match params with
  | [] => ""
  | [(k, v)] => form_urlencode k ++ "=" ++ form_urlencode v
  | (k, v) :: rest =>
      form_urlencode k ++ "=" ++ form_urlencode v ++ "&" ++ URLSearchParams_toString rest
  end.

(** ** Grouping by node: the object [nodeData] of [updateCharts] *)

(** Names that resolve on [Object.prototype]: for such a [node_id] the test
    [!nodeData[point.node_id]] finds the inherited value, creates no array,
    and [.push] is not a function. *)
Definition inherited_names : list string :=
  [ "constructor"; "__proto__"; "hasOwnProperty"; "isPrototypeOf";
    "propertyIsEnumerable"; "toLocaleString"; "toString"; "valueOf";
    "__defineGetter__"; "__defineSetter__"; "__lookupGetter__";
    "__lookupSetter__" ].

Definition inherited (k : string) : bool :=
  existsb (String.eqb k) inherited_names.

(** An object with string keys, own properties in insertion order. *)
Definition JsObject (A : Type) : Type := list (string * A).

Fixpoint get_own {A} (o : JsObject A) (k : string) : option A :=
  match o with
  | [] => None
  | (k', v) :: o' => if (k =? k')%string then Some v else get_own o' k
  end.

(** [o[k].push(x)] on an own array property. *)
Fixpoint push_at {A} (o : JsObject (list A)) (k : string) (x : A) : JsObject (list A) :=
  match o with
  | [] => []
  | (k', v) :: o' =>
      if (k =? k')%string then (k', (v ++ [x])%list) :: o' else (k', v) :: push_at o' k x
  end.

(** One turn of [timeSeriesData.forEach(point => ...)]; [None] is the
    TypeError. An empty array is truthy, so an own key is never reset. *)
Definition group_step (acc : option (JsObject (list TimeSeriesPoint)))
    (point : TimeSeriesPoint) : option (JsObject (list TimeSeriesPoint)) :=
  match acc with
  | None => None
  | Some nodeData =>
      let k := node_id point in
      match get_own nodeData k with
      | Some _ => Some (push_at nodeData k point)
      | None =>
          if inherited k then None
          else Some (push_at (nodeData ++ [(k, [])])%list k point)
      end
  end.

Definition group_by_node (timeSeriesData : list TimeSeriesPoint)
    : option (JsObject (list TimeSeriesPoint)) :=
  fold_left group_step timeSeriesData (Some []).

(** [nodeData[nodeId]] for a key the object owns. *)
Definition points_of (nodeData : JsObject (list TimeSeriesPoint)) (nodeId : string)
    : list TimeSeriesPoint :=
  match get_own nodeData nodeId with
  | Some ps => ps
  | None => []
  end.

(** *** [Object.keys]: array indices ascending, then the other keys in
    insertion order *)

Definition digit_of (c : ascii) : option N :=
  let n := N_of_ascii c in
  if ((48 <=? n) && (n <=? 57))%N then Some (n - 48)%N else None.

Fixpoint parse_digits (acc : N) (s : string) : option N :=
  match s with
  | EmptyString => Some acc
  | String c s' =>
      match digit_of c with
      | Some d => parse_digits (acc * 10 + d)%N s'
      | None => None
      end
  end.

(** The array index a key denotes, if it is the canonical decimal form of
    an integer below 2^32 - 1. *)
Definition array_index (k : string) : option N :=
  match k with
  | EmptyString => None
  | String c s' =>
      if Ascii.eqb c "0" && negb (s' =? "")%string then None
      else match parse_digits 0%N k with
           | Some n => if (n <? 4294967295)%N then Some n else None
           | None => None
           end
  end.

Fixpoint insert_index (n : N) (k : string) (l : list (N * string)) : list (N * string) :=
  match l with
  | [] => [(n, k)]
  | (m, k') :: l' =>
      if (n <=? m)%N then (n, k) :: l else (m, k') :: insert_index n k l'
  end.

Definition Object_keys {A} (o : JsObject A) : list string :=
  let idx := fold_right (fun kv acc =>
               match array_index (fst kv) with
               | Some n => insert_index n (fst kv) acc
               | None => acc
               end) [] o in
  let named := filter (fun k => match array_index k with Some _ => false | None => true end)
                 (map fst o) in
  (map snd idx ++ named)%list.

(** [a.indexOf(v)], with the length of [a] standing for -1. *)
Fixpoint indexOf (a : list string) (v : string) : nat :=
  match a with
  | [] => 0
  | x :: a' => if (x =? v)%string then 0%nat else S (indexOf a' v)
  end.

(** [[...new Set(a)]]: the distinct elements, in first-occurrence order. *)
Fixpoint Set_spread (seen : list string) (a : list string) : list string :=
  match a with
  | [] => []
  | x :: a' =>
      if existsb (String.eqb x) seen then Set_spread seen a'
      else x :: Set_spread (x :: seen) a'
  end.

(** [a.filter((v, i, a) => a.indexOf(v) === i)] *)
Fixpoint filter_first_from (a : list string) (i : nat) (rest : list string) : list string :=
  match rest with
  | [] => []
  | v :: rest' =>
      if Nat.eqb (indexOf a v) i then v :: filter_first_from a (S i) rest'
      else filter_first_from a (S i) rest'
  end.

Definition filter_first (a : list string) : list string := filter_first_from a 0 a.

(** ** Control flow *)

(** How a method ends: it returns, or an exception leaves it. Either way
    the world is the one reached at that point. *)
Inductive Completion : Type :=
| Normal (w : World)
| Throw (e : string) (w : World).

Definition world_of (c : Completion) : World :=
  match c with
  | Normal w => w
  | Throw _ w => w
  end.

(** The body of a push-stream message under [JSON.parse]. *)
Inductive SseBody (A : Type) : Type :=
| Parsed (payload : A)
| Unparseable.
Arguments Parsed {A} payload.
Arguments Unparseable {A}.

(** [s + ':00'] where [s] may be [null]. *)
Definition str_plus (o : option string) (suffix : string) : string :=
  match o with
  | Some s => s ++ suffix
  | None => "null" ++ suffix
  end.

(** The constructor's state, on a page whose feed shows its placeholder. *)
Definition initial (hours metric : string) : World :=
  mkWorld false (None, None) false None [] None [] false
    hours "" "" metric [Loading] [] [] [] [].

(** * The current client (first listing) *)

Module App1.
Section WithHost.
Context `{Host}.

(** ** Data fetching *)

Definition updateConnectionStatus (connected : bool) (w : World) : World :=
  set_isConnected connected w.

(** [fetchAPI] up to its [await]: the request leaves. *)
Definition fetchAPI_send (endpoint : string) (w : World) : World :=
  fetch (CONFIG.API_BASE_URL ++ "/api" ++ endpoint) w.

(** [fetchAPI] from its [await] on: the value it resolves to ([None] is
    [null]) and the world it leaves. *)
Definition fetchAPI_recv {A : Type} (r : Response A) (w : World) : option A * World :=
  match r with
  | Ok payload => (Some payload, w)
  | Failed => (None, updateConnectionStatus false w)
  end.

Definition updateLiveDataFeed (dataArray : list Reading) (w : World) : World :=
  match dataArray with
  | [] => set_liveDataContainer [Loading] w
  | _ :: _ => set_liveDataContainer (map Item (firstn 10 dataArray)) w
  end.

Definition fetchLiveData_recv (r : Response (list Reading)) (w : World) : World :=
  let (data, w) := fetchAPI_recv r w in
  match data with
  | Some ((d0 :: _) as data) =>
      if match lastLiveDataTimestamp w with
         | None => true
         | Some t => negb (timestamp d0 =? t)%string
         end
      then updateLiveDataFeed data
             (set_lastLiveDataTimestamp (Some (timestamp d0)) w)
      else w
  | Some [] => updateLiveDataFeed [] w
  | None => w
  end.

Definition fetchLiveData (r : Response (list Reading)) (w : World) : World :=
  fetchLiveData_recv r (fetchAPI_send "/latest?limit=10" w).

Definition updateNodeStats (statsArray : list NodeSummary) (w : World) : World :=
  set_nodeStatsContainer statsArray w.

Definition fetchNodeStats (r : Response (list NodeSummary)) (w : World) : World :=
  let (data, w) := fetchAPI_recv r (fetchAPI_send "/nodes" w) in
  match data with
  | Some data => updateNodeStats data w
  | None => w
  end.

Definition updateDecisions (decisionsArray : list Decision) (w : World) : World :=
  set_decisionsContainer decisionsArray w.

Definition fetchDecisions (r : Response (list Decision)) (w : World) : World :=
  let (data, w) := fetchAPI_recv r (fetchAPI_send "/decisions" w) in
  match data with
  | Some data => updateDecisions data w
  | None => w
  end.

(** ** Map *)

(** One turn of [locations.forEach(location => ...)] over the markers and
    the heat points collected so far. Past the test both coordinates are
    numbers, so [L.marker] returns. *)
Definition map_step (heatMetric : string) (acc : list Marker * list HeatPoint)
    (location : NodeLocation) : list Marker * list HeatPoint :=
  if negb (truthy (lat location)) || negb (truthy (lon location)) then acc
  else
    let marker := mkMarker (lat location) (lon location) location in
    let metricValue := loc_avg location heatMetric in
    ((fst acc ++ [marker])%list,
     if present metricValue
     then (snd acc ++ [(lat location, lon location, metricValue)])%list
     else snd acc).

(** The arrays [this.markers] and [heatPoints] when the loop is over. *)
Definition map_layers (heatMetric : string) (locations : list NodeLocation)
    : list Marker * list HeatPoint :=
  fold_left (map_step heatMetric) locations ([], []).

Definition updateMap (locations : list NodeLocation) (w : World) : World :=
  match locations with
  | [] => w
  | _ :: _ =>
      let heatMetric := heatmapMetric w in
      let (ms, heatPoints) := map_layers heatMetric locations in
      if CONFIG.FEATURES_heatMap && (0 <? List.length heatPoints)%nat
      then set_map ms (Some heatPoints) true w
      else set_map ms (heatLayer w) false w
  end.

Definition fetchNodeLocations (r : Response (list NodeLocation)) (w : World) : World :=
  let (data, w) := fetchAPI_recv r (fetchAPI_send "/nodes/locations" w) in
  match data with
  | Some data => updateMap data w
  | None => w
  end.

(** ** Charts *)

Definition colorPalette : list string :=
  [ "rgba(59, 130, 246, 1)"; "rgba(239, 68, 68, 1)"; "rgba(16, 185, 129, 1)";
    "rgba(245, 158, 11, 1)"; "rgba(124, 58, 237, 1)" ].

Definition nodeColors_of (keys : list string) : JsObject string :=
  map (fun ki => (fst ki, nth (snd ki mod List.length colorPalette) colorPalette ""))
      (combine keys (seq 0 (List.length keys))).

Definition color_of (nodeColors : JsObject string) (nodeId : string) : string :=
  match get_own nodeColors nodeId with
  | Some c => c
  | None => ""
  end.

(** [Object.keys(nodeData).map(nodeId => ({label, data, borderColor}))] *)
Definition datasets_for (nodeData : JsObject (list TimeSeriesPoint))
    (metric : TimeSeriesPoint -> jsval) : list Dataset :=
  let keys := Object_keys nodeData in
  let nodeColors := nodeColors_of keys in
  map (fun nodeId =>
         mkDataset nodeId (map metric (points_of nodeData nodeId))
                   (color_of nodeColors nodeId))
      keys.

Definition chart_labels (timeSeriesData : list TimeSeriesPoint) : list string :=
  Set_spread [] (map (fun d => toLocaleString (p_timestamp d)) timeSeriesData).

Definition updateCharts (timeSeriesData : list TimeSeriesPoint) (w : World) : Completion :=
  match timeSeriesData with
  | [] => Normal w
  | _ :: _ =>
      match group_by_node timeSeriesData with
      | None => Throw "TypeError" w
      | Some nodeData =>
          let labels := chart_labels timeSeriesData in
          Normal (set_charts
            [ ("soilMoisture", mkChartData labels (datasets_for nodeData avg_soil_moisture));
              ("temperature", mkChartData labels (datasets_for nodeData avg_temp));
              ("humidity", mkChartData labels (datasets_for nodeData avg_humidity));
              ("lux", mkChartData labels (datasets_for nodeData avg_lux));
              ("voltage", mkChartData labels (datasets_for nodeData avg_voltage)) ] w)
      end
  end.

(** The endpoint [fetchTimeSeriesData] asks for; [None] is its early
    [return] when "custom" is selected but not applied. *)
Definition timeSeriesEndpoint (w : World) : option string :=
  let (cstart, cend) := customTimeRange w in
  if isCustomRange w && truthy_str cstart && truthy_str cend then
    let start := str_plus cstart ":00" in
    let end_ := str_plus cend ":00" in
    Some ("/timeseries?start=" ++ encodeURIComponent start
            ++ "&end=" ++ encodeURIComponent end_)
  else
    let hours := timeRange w in
    if (hours =? "custom")%string then None
    else Some ("/timeseries?hours=" ++ hours).

Definition fetchTimeSeriesData_send (w : World) : World :=
  match timeSeriesEndpoint w with
  | Some endpoint => fetchAPI_send endpoint w
  | None => w
  end.

Definition fetchTimeSeriesData_recv (r : Response (list TimeSeriesPoint)) (w : World)
    : Completion :=
  let (data, w) := fetchAPI_recv r w in
  match data with
  | Some data => updateCharts data w
  | None => Normal w
  end.

(** A whole round trip; the response is looked at only if a request left. *)
Definition fetchTimeSeriesData (r : Response (list TimeSeriesPoint)) (w : World)
    : Completion :=
  match timeSeriesEndpoint w with
  | Some endpoint => fetchTimeSeriesData_recv r (fetchAPI_send endpoint w)
  | None => Normal w
  end.

(** The five responses of one [fetchAllData]. *)
Record Responses : Type := mkResponses {
  res_live : Response (list Reading);
  res_stats : Response (list NodeSummary);
  res_decisions : Response (list Decision);
  res_locations : Response (list NodeLocation);
  res_series : Response (list TimeSeriesPoint)
}.

(** [fetchAllData], with the five round trips completing in the order they
    are listed. [Promise.all] rejects only if [updateCharts] threw, and then
    the last line is not reached. *)
Definition fetchAllData (rs : Responses) (w : World) : Completion :=
  let w := fetchLiveData (res_live rs) w in
  let w := fetchNodeStats (res_stats rs) w in
  let w := fetchDecisions (res_decisions rs) w in
  let w := fetchNodeLocations (res_locations rs) w in
  match fetchTimeSeriesData (res_series rs) w with
  | Normal w => Normal (updateConnectionStatus true w)
  | Throw e w => Throw e w
  end.

(** ** Auto refresh *)

(** A callback of one of the five timers of [setupAutoRefresh], together
    with the response its request gets. *)
Inductive Timer : Type :=
| liveData (r : Response (list Reading))
| nodeStats (r : Response (list NodeSummary))
| decisions (r : Response (list Decision))
| map_ (r : Response (list NodeLocation))
| charts_ (r : Response (list TimeSeriesPoint)).

Definition tick (t : Timer) (w : World) : World :=
  match t with
  | liveData r => fetchLiveData r w
  | nodeStats r => fetchNodeStats r w
  | decisions r => fetchDecisions r w
  | map_ r => fetchNodeLocations r w
  | charts_ r => world_of (fetchTimeSeriesData r w)
  end.

(** ** Server-sent events: the two handlers [initSSE] installs *)

Definition onmessage {A : Type} (body : SseBody A) (w : World) : World :=
  match body with
  | Parsed _ => updateConnectionStatus true (fetchTimeSeriesData_send w)
  | Unparseable => w
  end.

Definition onerror (w : World) : World := updateConnectionStatus false w.

(** ** Event listeners *)

(** The [change] listener of [#timeRange]; [value] is [e.target.value],
    which the control already holds. *)
Definition timeRange_change (value : string) (w : World) : World :=
  let w := set_timeRange value w in
  if (value =? "custom")%string then set_isCustomRange true w
  else fetchTimeSeriesData_send (set_isCustomRange false w).

(** The [click] listener of [#applyCustomRange]. *)
Definition applyCustomRange_click (w : World) : World :=
  let start := startTime w in
  let end_ := endTime w in
  if (start =? "")%string || (end_ =? "")%string then
    alert "Please select both start and end times" w
  else if Date_ge start end_ then
    alert "Start time must be before end time" w
  else
    fetchTimeSeriesData_send
      (set_isCustomRange true (set_customTimeRange (Some start, Some end_) w)).

(** ** CSV download *)

(** [new Date(t)] for a number [t]: the time value, or [None] out of range. *)
Definition TimeClip (t : Q) : option Z :=
  let ms := Z.quot (Qnum t) (Zpos (Qden t)) in
  if Z.abs ms <=? 8640000000000000 then Some ms else None.

(** The query parameters of the export; [None] is the RangeError of
    [toISOString] on an invalid date. [now_end] and [now_start] are the two
    readings of the clock. *)
Definition export_params (now_end now_start : Z) (w : World)
    : option (list (string * string)) :=
  let (cstart, cend) := customTimeRange w in
  if isCustomRange w && truthy_str cstart && truthy_str cend then
    Some [ ("start", str_plus cstart ":00"); ("end", str_plus cend ":00") ]
  else
    let hours := timeRange w in
    if negb (hours =? "custom")%string then
      let end_ := Date_toISOString now_end in
      match ToNumber hours with
      | Some h =>
          match TimeClip (inject_Z now_start - h * 60 * 60 * 1000)%Q with
          | Some t => Some [ ("start", Date_toISOString t); ("end", end_) ]
          | None => None
          end
      | None => None
      end
    else Some [].

(** [downloadCSV] up to its [await fetch(url)]. *)
Definition downloadCSV_send (now_end now_start : Z) (w : World) : Completion :=
  let url := CONFIG.API_BASE_URL ++ "/api/export/csv" in
  match export_params now_end now_start w with
  | None => Throw "RangeError" w
  | Some params =>
      let q := URLSearchParams_toString params in
      let url := if (q =? "")%string then url else url ++ "?" ++ q in
      Normal (fetch url w)
  end.

(** [downloadCSV] from its [await] on; a blob that arrived is saved by the
    browser, outside the world modelled here. *)
Definition downloadCSV_recv (r : Response unit) (w : World) : World :=
  match r with
  | Ok _ => w
  | Failed => alert "Failed to download CSV. Please try again." w
  end.

End WithHost.
End App1.

(** * The earlier client (second listing) *)

Module App2.
Section WithHost.
Context `{Host}.

Definition updateConnectionStatus (connected : bool) (w : World) : World :=
  set_isConnected connected w.

Definition fetchAPI_send (endpoint : string) (w : World) : World :=
  fetch (CONFIG.API_BASE_URL ++ "/api" ++ endpoint) w.

Definition fetchAPI_recv {A : Type} (r : Response A) (w : World) : option A * World :=
  match r with
  | Ok payload => (Some payload, w)
  | Failed => (None, updateConnectionStatus false w)
  end.

(** No [slice] here: the whole batch is rendered. *)
Definition updateLiveDataFeed (dataArray : list Reading) (w : World) : World :=
  match dataArray with
  | [] => set_liveDataContainer [Loading] w
  | _ :: _ => set_liveDataContainer (map Item dataArray) w
  end.

Definition fetchLiveData (r : Response (list Reading)) (w : World) : World :=
  let (data, w) := fetchAPI_recv r (fetchAPI_send "/latest?limit=10" w) in
  match data with
  | Some data => updateLiveDataFeed data w
  | None => w
  end.

(** [container.querySelector('.loading')] followed by [loading.remove()]:
    the first placeholder goes. *)
Fixpoint remove_loading (c : list Child) : list Child :=
  match c with
  | [] => []
  | Loading :: c' => c'
  | Item r :: c' => Item r :: remove_loading c'
  end.

(** [while (container.children.length > 10) container.removeChild(container.lastChild)];
    every turn removes a child, so [fuel] turns are enough when [fuel] is
    the number of children. *)
Fixpoint evict (fuel : nat) (c : list Child) : list Child :=
  match fuel with
  | O => c
  | S fuel' =>
      if (10 <? List.length c)%nat then evict fuel' (removelast c) else c
  end.

Definition addToLiveDataFeed (data : Reading) (w : World) : World :=
  let c := remove_loading (liveDataContainer w) in
  let c := Item data :: c in
  set_liveDataContainer (evict (List.length c) c) w.

(** [handleRealtimeUpdate]; the two refreshes it starts are left at their
    [await]. *)
Definition handleRealtimeUpdate (data : Reading) (w : World) : World :=
  let w := addToLiveDataFeed data w in
  let w := fetchAPI_send "/nodes" w in
  fetchAPI_send "/decisions" w.

(** [onmessage] has no [try]: a body that [JSON.parse] rejects throws out
    of the handler before anything else runs. *)
Definition onmessage (body : SseBody Reading) (w : World) : Completion :=
  match body with
  | Parsed data => Normal (updateConnectionStatus true (handleRealtimeUpdate data w))
  | Unparseable => Throw "SyntaxError" w
  end.

Definition onerror (w : World) : World := updateConnectionStatus false w.

(** ** Map *)

(** The [switch (metric)] of [updateMap]: [intensity] before the division. *)
Definition intensity_of (metric : string) (node : NodeLocation) : Q :=
  if (metric =? "temperature")%string then or_zero (l_avg_temp node)
  else if (metric =? "humidity")%string then or_zero (l_avg_humidity node)
  else if (metric =? "soil_moisture")%string then or_zero (l_avg_soil_moisture node)
  else if (metric =? "lux")%string then or_zero (l_avg_lux node)
  else 0%Q.

(** [nodesData.forEach(node => ...)] from the markers and the heat data
    collected so far; the last component is the exception of [L.marker],
    if it threw, which ends the loop. *)
Fixpoint map_loop (metric : string) (nodesData : list NodeLocation)
    (acc : list Marker * list HeatPoint)
    : list Marker * list HeatPoint * option string :=
  match nodesData with
  | [] => (acc, None)
  | node :: rest =>
      match L_marker node with
      | inr e => (acc, Some e)
      | inl marker =>
          let intensity := intensity_of metric node in
          map_loop metric rest
            ((fst acc ++ [marker])%list,
             (snd acc ++ [(lat node, lon node, JNum (divide_by_100 intensity))])%list)
      end
  end.

Definition updateMap (nodesData : list NodeLocation) (w : World) : Completion :=
  match nodesData with
  | [] => Normal (set_map [] (heatLayer w) false w)
  | _ :: _ =>
      match map_loop (heatmapMetric w) nodesData ([], []) with
      | (ms, heatData, None) =>
          if CONFIG.FEATURES_heatMap && (0 <? List.length heatData)%nat
          then Normal (set_map ms (Some heatData) true w)
          else Normal (set_map ms (heatLayer w) false w)
      | (ms, _, Some e) => Throw e (set_map ms (heatLayer w) false w)
      end
  end.

Definition fetchNodeLocations (r : Response (list NodeLocation)) (w : World) : Completion :=
  let (data, w) := fetchAPI_recv r (fetchAPI_send "/nodes/locations" w) in
  match data with
  | Some data => updateMap data w
  | None => Normal w
  end.

(** ** Charts *)

Definition chart_color (k : string) : string :=
  match get_own CONFIG.CHART_COLORS k with
  | Some c => c
  | None => ""
  end.

Definition chart_labels (timeSeriesData : list TimeSeriesPoint) : list string :=
  filter_first (map (fun d => toLocaleTimeString (p_timestamp d)) timeSeriesData).

Definition tempHumidityDatasets (nodeData : JsObject (list TimeSeriesPoint)) : list Dataset :=
  let keys := Object_keys nodeData in
  let colors := map snd CONFIG.CHART_COLORS in
  flat_map (fun ki =>
      let nodeId := fst ki in
      let color := nth (snd ki mod List.length colors) colors "" in
      [ mkDataset (nodeId ++ " - Temp") (map avg_temp (points_of nodeData nodeId)) color;
        mkDataset (nodeId ++ " - Humidity") (map avg_humidity (points_of nodeData nodeId))
                  (chart_color "humidity") ])
    (combine keys (seq 0 (List.length keys))).

Definition soilSunDatasets (nodeData : JsObject (list TimeSeriesPoint)) : list Dataset :=
  flat_map (fun nodeId =>
      [ mkDataset (nodeId ++ " - Soil Moisture")
                  (map avg_soil_moisture (points_of nodeData nodeId))
                  (chart_color "soil_moisture");
        mkDataset (nodeId ++ " - Light") (map avg_lux (points_of nodeData nodeId))
                  (chart_color "lux") ])
    (Object_keys nodeData).

Definition voltageDatasets (nodeData : JsObject (list TimeSeriesPoint)) : list Dataset :=
  map (fun nodeId =>
      mkDataset (nodeId ++ " - Voltage") (map avg_voltage (points_of nodeData nodeId))
                (chart_color "voltage"))
    (Object_keys nodeData).

Definition updateCharts (timeSeriesData : list TimeSeriesPoint) (w : World) : Completion :=
  match timeSeriesData with
  | [] => Normal w
  | _ :: _ =>
      match group_by_node timeSeriesData with
      | None => Throw "TypeError" w
      | Some nodeData =>
          let labels := chart_labels timeSeriesData in
          Normal (set_charts
            [ ("tempHumidity", mkChartData labels (tempHumidityDatasets nodeData));
              ("soilSun", mkChartData labels (soilSunDatasets nodeData));
              ("battery", mkChartData labels (voltageDatasets nodeData)) ] w)
      end
  end.

Definition fetchTimeSeriesData (r : Response (list TimeSeriesPoint)) (w : World)
    : Completion :=
  let hours := timeRange w in
  let (data, w) := fetchAPI_recv r (fetchAPI_send ("/timeseries?hours=" ++ hours) w) in
  match data with
  | Some data => updateCharts data w
  | None => Normal w
  end.

End WithHost.
End App2.

(** * Vocabulary of the properties *)

Section Vocabulary.
Context `{Host}.

(** [a] is at least as new as [b]. *)
Definition newer_eq (a b : Reading) : bool := Date_ge (timestamp a) (timestamp b).

(** Newest first: every entry is at least as new as the one below it. *)
Fixpoint newest_first (l : list Reading) : bool :=
  match l with
  | [] => true
  | a :: l' =>
      match l' with
      | [] => true
      | b :: _ => newer_eq a b && newest_first l'
      end
  end.

(** The remembered timestamp is that of the top entry of the feed, when the
    feed shows one. *)
Definition remembers_top (w : World) : Prop :=
  match feed (liveDataContainer w) with
  | [] => True
  | top :: _ => lastLiveDataTimestamp w = Some (timestamp top)
  end.

(** The request of the callback is not answered by a 2xx JSON response. *)
Definition failed (t : App1.Timer) : bool :=
  match t with
  | App1.liveData Failed | App1.nodeStats Failed | App1.decisions Failed
  | App1.map_ Failed | App1.charts_ Failed => true
  | _ => false
  end.

(** The callback hands a request to [fetch]: all do, except the chart
    refresh while "custom" is selected and no range is applied. *)
Definition requests (t : App1.Timer) (w : World) : bool :=
  match t with
  | App1.charts_ _ =>
      match App1.timeSeriesEndpoint w with Some _ => true | None => false end
  | _ => true
  end.


(** The coordinate is the number zero. *)
Definition is_zero (v : jsval) : bool :=
  match v with
  | JNum q => Qeq_bool q 0
  | JUndefined | JNull => false
  end.

(** Both coordinates pass the test [!location.lat || !location.lon]. *)
Definition has_coords (l : NodeLocation) : bool :=
  truthy (lat l) && truthy (lon l).

(** The location passes both tests of the first listing for metric [m]. *)
Definition sampled (m : string) (l : NodeLocation) : bool :=
  has_coords l && present (loc_avg l m).

(** The values of one metric over the input rows of one node, in input
    order. *)
Definition node_values (metric : TimeSeriesPoint -> jsval)
    (timeSeriesData : list TimeSeriesPoint) (nodeId : string) : list jsval :=
  map metric (filter (fun p => (node_id p =? nodeId)%string) timeSeriesData).

(** The five averages of a row. *)
Definition metrics : list (TimeSeriesPoint -> jsval) :=
  [avg_temp; avg_humidity; avg_soil_moisture; avg_lux; avg_voltage].

(** [L.marker] of the second listing takes the coordinates: [lat] is a
    number and [lon] is a number or [null]. *)
Definition placeable (l : NodeLocation) : bool :=
  match lat l, lon l with
  | JNum _, JNum _ | JNum _, JNull => true
  | _, _ => false
  end.

(** The exception a location that is not placeable ends [updateMap] with. *)
Definition refusal (l : NodeLocation) : string :=
  match lat l with
  | JNull => "TypeError"
  | _ => "Error"
  end.

(** The average the selector of the second listing names: one of four,
    and none for any other value. *)
Definition selected_average (m : string) (l : NodeLocation) : jsval :=
  if (m =? "temperature")%string then l_avg_temp l
  else if (m =? "humidity")%string then l_avg_humidity l
  else if (m =? "soil_moisture")%string then l_avg_soil_moisture l
  else if (m =? "lux")%string then l_avg_lux l
  else JUndefined.

(** A hundredth of the selected average, and 0 when there is none. *)
Definition scaled_intensity (m : string) (l : NodeLocation) : Q :=
  match selected_average m l with
  | JNum q => divide_by_100 q
  | JUndefined | JNull => 0%Q
  end.

(** The location with both coordinates missing. *)
Definition without_coords (l : NodeLocation) : NodeLocation :=
  mkNodeLocation (l_node_id l) (name l) JUndefined JUndefined (l_avg_temp l)
    (l_avg_humidity l) (l_avg_soil_moisture l) (l_avg_lux l) (l_avg_voltage l).

End Vocabulary.

(** A host for running the model on examples: dates are
    [YYYY-MM-DDTHH:MM] in a zone with no offset, labels are the timestamps
    themselves. *)
Module ExampleHost.

Definition digits (s : string) : option Z :=
  match s with
  | EmptyString => None
  | _ => option_map Z.of_N (parse_digits 0%N s)
  end.

(** Days from 1970-01-01 to a civil date. *)
Definition days_from_civil (y m d : Z) : Z :=
  let y := if m <=? 2 then y - 1 else y in
  let era := y / 400 in
  let yoe := y - era * 400 in
  let mp := (m + 9) mod 12 in
  let doy := (153 * mp + 2) / 5 + d - 1 in
  let doe := yoe * 365 + yoe / 4 - yoe / 100 + doy in
  era * 146097 + doe - 719468.

Definition getTime (s : string) : option Z :=
  match digits (substring 0 4 s), digits (substring 5 2 s), digits (substring 8 2 s),
        digits (substring 11 2 s), digits (substring 14 2 s) with
  | Some y, Some m, Some d, Some hh, Some mm =>
      if (String.length s =? 16)%nat
         && (substring 4 1 s =? "-")%string && (substring 7 1 s =? "-")%string
         && (substring 10 1 s =? "T")%string && (substring 13 1 s =? ":")%string
         && (1 <=? m) && (m <=? 12) && (1 <=? d) && (d <=? 31)
         && (hh <=? 23) && (mm <=? 59)
      then Some (((days_from_civil y m d * 24 + hh) * 60 + mm) * 60000)
      else None
  | _, _, _, _, _ => None
  end.

(** The civil date of a day count from 1970-01-01. *)
Definition civil_from_days (z : Z) : Z * Z * Z :=
  let z := z + 719468 in
  let era := z / 146097 in
  let doe := z - era * 146097 in
  let yoe := (doe - doe / 1460 + doe / 36524 - doe / 146096) / 365 in
  let doy := doe - (365 * yoe + yoe / 4 - yoe / 100) in
  let mp := (5 * doy + 2) / 153 in
  let d := doy - (153 * mp + 2) / 5 + 1 in
  let m := if mp <? 10 then mp + 3 else mp - 9 in
  (if m <=? 2 then yoe + era * 400 + 1 else yoe + era * 400, m, d).

Definition dec (n : Z) : string :=
  String (ascii_of_N (48 + Z.to_N (n mod 10))) EmptyString.

Definition pad2 (n : Z) : string := dec (n / 10) ++ dec n.
Definition pad3 (n : Z) : string := dec (n / 100) ++ pad2 n.
Definition pad4 (n : Z) : string := dec (n / 1000) ++ pad3 n.

(** [toISOString] for the years 0 to 9999. *)
Definition toISOString (ms : Z) : string :=
  let '(y, m, d) := civil_from_days (ms / 86400000) in
  let t := ms mod 86400000 in
  pad4 y ++ "-" ++ pad2 m ++ "-" ++ pad2 d ++ "T" ++ pad2 (t / 3600000) ++ ":"
    ++ pad2 (t / 60000 mod 60) ++ ":" ++ pad2 (t / 1000 mod 60) ++ "."
    ++ pad3 (t mod 1000) ++ "Z".

Definition host : Host :=
  {| Date_getTime := getTime;
     Date_toISOString := toISOString;
     ToNumber := fun s => option_map inject_Z (digits s);
     toLocaleString := fun s => s;
     toLocaleTimeString := fun s => s |}.

End ExampleHost.

(** * The page of the first listing: start-up, events, decision cards *)

(** The user types into [#startTime] and [#endTime]. *)
Definition set_range_inputs (start end_ : string) (w : World) : World :=
  mkWorld (isConnected w) (customTimeRange w) (isCustomRange w)
    (lastLiveDataTimestamp w) (markers w) (heatLayer w) (charts w)
    (heatOnMap w) (timeRange w) start end_ (heatmapMetric w)
    (liveDataContainer w) (nodeStatsContainer w) (decisionsContainer w)
    (fetched w) (alerts w).

(** The user picks an option of [#heatmapMetric]. *)
Definition set_heatmapMetric (v : string) (w : World) : World :=
  mkWorld (isConnected w) (customTimeRange w) (isCustomRange w)
    (lastLiveDataTimestamp w) (markers w) (heatLayer w) (charts w)
    (heatOnMap w) (timeRange w) (startTime w) (endTime w) v
    (liveDataContainer w) (nodeStatsContainer w) (decisionsContainer w)
    (fetched w) (alerts w).

Module Page1.
Section WithHost.
Context `{Host}.

(** [initCharts]: five line charts, each with no label and no dataset. *)
Definition initCharts (w : World) : World :=
  set_charts
    [ ("soilMoisture", mkChartData [] []); ("temperature", mkChartData [] []);
      ("humidity", mkChartData [] []); ("lux", mkChartData [] []);
      ("voltage", mkChartData [] []) ] w.

(** The page: the world, and what start-up registers with the browser. *)
Record Page : Type := mkPage {
  world : World;
  (* [this.eventSource]: the URL of the stream it holds, if any *)
  eventSource : option string;
  (* how many [EventSource]s are open *)
  openStreams : nat;
  (* the [setInterval] registrations: method called, period in ms *)
  intervals : list (string * Z);
  (* the [addEventListener] registrations: element id, event type *)
  listeners : list (string * string)
}.

Definition with_world (w : World) (p : Page) : Page :=
  mkPage w (eventSource p) (openStreams p) (intervals p) (listeners p).

(** [initSSE]: a stream already held is closed before the new one opens. *)
Definition initSSE (p : Page) : Page :=
  let still_open :=
    match eventSource p with
    | Some _ => Nat.pred (openStreams p)
    | None => openStreams p
    end in
  mkPage (world p) (Some (CONFIG.API_BASE_URL ++ "/api/stream")) (S still_open)
    (intervals p) (listeners p).

Definition interval_of (k : string) : Z :=
  match get_own CONFIG.REFRESH_INTERVALS k with
  | Some ms => ms
  | None => 0
  end.

Definition setupAutoRefresh (p : Page) : Page :=
  mkPage (world p) (eventSource p) (openStreams p)
    (intervals p ++
     [ ("fetchLiveData", interval_of "liveData");
       ("fetchNodeStats", interval_of "nodeStats");
       ("fetchDecisions", interval_of "decisions");
       ("fetchNodeLocations", interval_of "map");
       ("fetchTimeSeriesData", interval_of "charts") ])%list
    (listeners p).

Definition setupEventListeners (p : Page) : Page :=
  mkPage (world p) (eventSource p) (openStreams p) (intervals p)
    (listeners p ++
     [ ("timeRange", "change"); ("applyCustomRange", "click");
       ("downloadCsvBtn", "click"); ("heatmapMetric", "change") ])%list.

(** The page before the constructor runs [init]. *)
Definition blank (hours metric : string) : Page :=
  mkPage (initial hours metric) None 0 [] [].

(** [init], with the answers to the five start-up requests. [initMap] only
    draws. When [fetchAllData] throws, the promise of [init] rejects at its
    [await] and the lines after it never run. *)
Definition init (rs : App1.Responses) (p : Page) : Page :=
  let w := initCharts (world p) in
  match App1.fetchAllData rs w with
  | Throw _ w' => with_world w' p
  | Normal w' =>
      let p := with_world w' p in
      let p := if CONFIG.FEATURES_serverSentEvents then initSSE p else p in
      let p := if CONFIG.FEATURES_autoRefresh then setupAutoRefresh p else p in
      setupEventListeners p
  end.

(** ** What can happen on the page after start-up *)

(** A chart request answered at once: [after] is the world once the
    handler that sent it has returned. *)
Definition answer_series (sent : bool) (r : Response (list TimeSeriesPoint))
    (after : World) : World :=
  if sent then world_of (App1.fetchTimeSeriesData_recv r after) else after.

Definition is_some {A : Type} (o : option A) : bool :=
  match o with Some _ => true | None => false end.

(** The click on "apply" passes both tests of its listener. *)
Definition accepted (w : World) : bool :=
  negb ((startTime w =? "")%string || (endTime w =? "")%string
        || Date_ge (startTime w) (endTime w)).

(** An event of the page, with the response to the request its handler may
    send. Each request is answered before the next event; responses that
    overtake later events are not modelled. *)
Inductive Event : Type :=
| Tick (t : App1.Timer)
| Message (parses : bool) (r : Response (list TimeSeriesPoint))
| StreamError
| SelectRange (value : string) (r : Response (list TimeSeriesPoint))
| EditRange (start end_ : string)
| ApplyRange (r : Response (list TimeSeriesPoint))
| SelectMetric (value : string) (r : Response (list NodeLocation))
| Download (now_end now_start : Z) (r : Response unit).

(** The handler of an event, run on the world. *)
Definition step (e : Event) (w : World) : World :=
  match e with
  | Tick t => App1.tick t w
  | Message parses r =>
      if parses
      then answer_series (is_some (App1.timeSeriesEndpoint w)) r
             (App1.onmessage (Parsed tt) w)
      else App1.onmessage (@Unparseable unit) w
  | StreamError => App1.onerror w
  | SelectRange value r =>
      answer_series (negb (value =? "custom")%string) r
        (App1.timeRange_change value w)
  | EditRange start end_ => set_range_inputs start end_ w
  | ApplyRange r => answer_series (accepted w) r (App1.applyCustomRange_click w)
  | SelectMetric value r => App1.fetchNodeLocations r (set_heatmapMetric value w)
  | Download now_end now_start r =>
      match App1.downloadCSV_send now_end now_start w with
      | Normal w' => App1.downloadCSV_recv r w'
      | Throw _ w' => w'
      end
  end.

(** The method a timer callback calls. *)
Definition method_of (t : App1.Timer) : string :=
  match t with
  | App1.liveData _ => "fetchLiveData"
  | App1.nodeStats _ => "fetchNodeStats"
  | App1.decisions _ => "fetchDecisions"
  | App1.map_ _ => "fetchNodeLocations"
  | App1.charts_ _ => "fetchTimeSeriesData"
  end.

Definition calls (method : string) (p : Page) : bool :=
  existsb (fun x => (fst x =? method)%string) (intervals p).

Definition listens (id type : string) (p : Page) : bool :=
  existsb (fun x => (fst x =? id)%string && (snd x =? type)%string) (listeners p).

(** The browser calls a handler only if start-up registered it. *)
Definition enabled (e : Event) (p : Page) : bool :=
  match e with
  | Tick t => calls (method_of t) p
  | Message _ _ | StreamError => is_some (eventSource p)
  | SelectRange _ _ => listens "timeRange" "change" p
  | EditRange _ _ => true
  | ApplyRange _ => listens "applyCustomRange" "click" p
  | SelectMetric _ _ => listens "heatmapMetric" "change" p
  | Download _ _ _ => listens "downloadCsvBtn" "click" p
  end.

(** An event on the page. Editing the range inputs changes the controls
    whether or not anything listens; a pick in a select changes the control
    too. *)
Definition dispatch (e : Event) (p : Page) : Page :=
  if enabled e p then with_world (step e (world p)) p
  else match e with
       | SelectRange value _ => with_world (set_timeRange value (world p)) p
       | SelectMetric value _ => with_world (set_heatmapMetric value (world p)) p
       | _ => p
       end.

Definition run (events : list Event) (w : World) : World :=
  fold_left (fun w e => step e w) events w.

Definition run_page (events : list Event) (p : Page) : Page :=
  fold_left (fun p e => dispatch e p) events p.

End WithHost.
End Page1.

(** ** Decision cards *)

(** [s.includes(sub)] *)
Definition includes (s sub : string) : bool :=
  match index 0 sub s with
  | Some _ => true
  | None => false
  end.

(** [s.replace(/_/g, ' ')] *)
Fixpoint replace_all_underscores (s : string) : string :=
  match s with
  | EmptyString => EmptyString
  | String c s' =>
      String (if Ascii.eqb c "_" then " "%char else c) (replace_all_underscores s')
  end.

(** [s.replace('_', ' ')]: the first occurrence only. *)
Fixpoint replace_first_underscore (s : string) : string :=
  match s with
  | EmptyString => EmptyString
  | String c s' =>
      if Ascii.eqb c "_" then String " " s'
      else String c (replace_first_underscore s')
  end.

(** [card.className] in [updateDecisions], the same in both listings. *)
Definition cardClass (d : Decision) : string :=
  if negb (action d =? "none")%string then
    "decision-card"
      ++ (if includes (action d) "warning" || includes (action d) "battery"
          then " warning" else " alert")
  else "decision-card".

(** The text of the action line of a card, if the card has one. *)
Definition actionLine1 (d : Decision) : option string :=
  if negb (action d =? "none")%string
  then Some ("Action: " ++ replace_all_underscores (action d))
  else None.

Definition actionLine2 (d : Decision) : option string :=
  Some ("Action: " ++ replace_first_underscore (action d)).

(** How many underscores a string has. *)
Fixpoint underscores (s : string) : nat :=
  match s with
  | EmptyString => 0
  | String c s' => ((if Ascii.eqb c "_" then 1 else 0) + underscores s')%nat
  end.

(** ** More vocabulary *)

Section Vocabulary2.
Context `{Host}.

(** The stored custom range is unset, or is a pair of non-empty values
    that the test [new Date(start) >= new Date(end)] of the listener did
    not refuse. The test refuses nothing that does not parse as a date. *)
Definition range_ok (w : World) : Prop :=
  match customTimeRange w with
  | (None, None) => True
  | (Some s, Some e) => s <> "" /\ e <> "" /\ Date_ge s e = false
  | _ => False
  end.

(** What holds of the feed and the range in every state the page reaches. *)
Definition page_inv (w : World) : Prop :=
  remembers_top w
  /\ (List.length (feed (liveDataContainer w)) <= 10)%nat
  /\ range_ok w.

(** The endpoint a timer callback asks for in a world, if it asks. *)
Definition endpoint_of (t : App1.Timer) (w : World) : option string :=
  match t with
  | App1.liveData _ => Some "/latest?limit=10"
  | App1.nodeStats _ => Some "/nodes"
  | App1.decisions _ => Some "/decisions"
  | App1.map_ _ => Some "/nodes/locations"
  | App1.charts_ _ => App1.timeSeriesEndpoint w
  end.

(** The URLs of a list of endpoints. *)
Definition urls (endpoints : list string) : list string :=
  map (fun e => CONFIG.API_BASE_URL ++ "/api" ++ e) endpoints.

Definition opt_list {A : Type} (o : option A) : list A :=
  match o with Some a => [a] | None => [] end.

(** No child of the container is the placeholder. *)
Definition no_placeholder (c : list Child) : bool :=
  forallb (fun x => match x with Item _ => true | Loading => false end) c.

(** The readings pushed one after the other, oldest push first. *)
Definition push_all (rs : list Reading) (w : World) : World :=
  fold_left (fun w r => App2.addToLiveDataFeed r w) rs w.

(** The distinct node ids of the rows, in order of first appearance. *)
Definition node_ids (timeSeriesData : list TimeSeriesPoint) : list string :=
  Set_spread [] (map node_id timeSeriesData).

(** A series of a chart: the text its labels add to the node id, and the
    average it plots. *)
Definition Series : Type := (string * (TimeSeriesPoint -> jsval))%type.

(** The charts of the first listing, each with its one series. *)
Definition series1 : list (string * list Series) :=
  [ ("soilMoisture", [("", avg_soil_moisture)]); ("temperature", [("", avg_temp)]);
    ("humidity", [("", avg_humidity)]); ("lux", [("", avg_lux)]);
    ("voltage", [("", avg_voltage)]) ].

(** The charts of the second listing and their series. *)
Definition series2 : list (string * list Series) :=
  [ ("tempHumidity", [(" - Temp", avg_temp); (" - Humidity", avg_humidity)]);
    ("soilSun", [(" - Soil Moisture", avg_soil_moisture); (" - Light", avg_lux)]);
    ("battery", [(" - Voltage", avg_voltage)]) ].

(** The datasets are those of the series over the input. Every dataset
    belongs to a node of the input and a series: its label is the node id
    followed by the text of the series, and its data are the values of the
    average of the series over the rows of that node, in input order.
    Every node and series has such a dataset, and there is one dataset
    per node and series. *)
Definition plots (timeSeriesData : list TimeSeriesPoint) (series : list Series)
    (ds : list Dataset) : Prop :=
  (forall d, In d ds ->
     exists nodeId text metric,
       In nodeId (map node_id timeSeriesData) /\ In (text, metric) series
       /\ label d = (nodeId ++ text)%string
       /\ data d = node_values metric timeSeriesData nodeId)
  /\ (forall nodeId text metric,
        In nodeId (map node_id timeSeriesData) -> In (text, metric) series ->
        exists d, In d ds /\ label d = (nodeId ++ text)%string
                  /\ data d = node_values metric timeSeriesData nodeId)
  /\ List.length ds
     = (List.length (node_ids timeSeriesData) * List.length series)%nat.

(** The URLs the handler of an event hands to [fetch] in a world. The
    response the event carries plays no part. *)
Definition requests_of (e : Page1.Event) (w : World) : list string :=
  match e with
  | Page1.Tick t => urls (opt_list (endpoint_of t w))
  | Page1.Message parses _ =>
      if parses then urls (opt_list (App1.timeSeriesEndpoint w)) else []
  | Page1.StreamError => []
  | Page1.SelectRange value _ =>
      if (value =? "custom")%string then [] else urls ["/timeseries?hours=" ++ value]
  | Page1.EditRange _ _ => []
  | Page1.ApplyRange _ =>
      if Page1.accepted w
      then urls ["/timeseries?start=" ++ encodeURIComponent (startTime w ++ ":00")
                   ++ "&end=" ++ encodeURIComponent (endTime w ++ ":00")]
      else []
  | Page1.SelectMetric _ _ => urls ["/nodes/locations"]
  | Page1.Download now_end now_start _ =>
      match App1.export_params now_end now_start w with
      | Some params =>
          let q := URLSearchParams_toString params in
          [if (q =? "")%string then CONFIG.API_BASE_URL ++ "/api/export/csv"
           else (CONFIG.API_BASE_URL ++ "/api/export/csv") ++ "?" ++ q]
      | None => []
      end
  end.

(** The URL asks for time series. *)
Definition is_series_url (u : string) : bool :=
  prefix (CONFIG.API_BASE_URL ++ "/api/timeseries") u.

(** The event neither picks an option of [#timeRange] nor clicks "apply". *)
Definition leaves_range (e : Page1.Event) : bool :=
  match e with
  | Page1.SelectRange _ _ | Page1.ApplyRange _ => false
  | _ => true
  end.

(** What the window of the next requests is read from. *)
Definition selection (w : World) : (option string * option string) * bool * string :=
  (customTimeRange w, isCustomRange w, timeRange w).

(** The fields a response handler never writes. *)
Definition untouched (w w' : World) : Prop :=
  selection w' = selection w /\ startTime w' = startTime w /\ endTime w' = endTime w
  /\ heatmapMetric w' = heatmapMetric w /\ fetched w' = fetched w
  /\ alerts w' = alerts w.

(** The endpoint of the next chart request, read from the selection. *)
Definition window_of (sel : (option string * option string) * bool * string)
    : option string :=
  let '((cstart, cend), custom, hours) := sel in
  if custom && truthy_str cstart && truthy_str cend then
    Some ("/timeseries?start=" ++ encodeURIComponent (str_plus cstart ":00")
            ++ "&end=" ++ encodeURIComponent (str_plus cend ":00"))
  else if (hours =? "custom")%string then None
  else Some ("/timeseries?hours=" ++ hours).

(** The chart response of the start-up round cannot make [updateCharts]
    throw: it failed, or none of its rows has a [node_id] that names a
    property of [Object.prototype]. *)
Definition series_ok (rs : App1.Responses) : bool :=
  match App1.res_series rs with
  | Ok pts => forallb (fun p => negb (inherited (node_id p))) pts
  | Failed => true
  end.

(** What the handler of an event says about the connection: [Some false]
    when a request it sent through [fetchAPI] failed, [Some true] when it
    parsed a push message and the chart request that followed, if any, was
    answered, and [None] when it leaves the flag alone. *)
Definition verdict (e : Page1.Event) (w : World) : option bool :=
  let lost {A : Type} (sent : bool) (r : Response A) : bool :=
    sent && match r with Failed => true | Ok _ => false end in
  match e with
  | Page1.Tick t => if failed t && requests t w then Some false else None
  | Page1.Message parses r =>
      if parses
      then Some (negb (lost (Page1.is_some (App1.timeSeriesEndpoint w)) r))
      else None
  | Page1.StreamError => Some false
  | Page1.SelectRange value r =>
      if lost (negb (value =? "custom")%string) r then Some false else None
  | Page1.EditRange _ _ => None
  | Page1.ApplyRange r => if lost (Page1.accepted w) r then Some false else None
  | Page1.SelectMetric _ r => if lost true r then Some false else None
  | Page1.Download _ _ _ => None
  end.

(** The messages the handler of an event hands to [alert]. *)
Definition alerts_of (e : Page1.Event) (w : World) : list string :=
  match e with
  | Page1.ApplyRange _ =>
      if (startTime w =? "")%string || (endTime w =? "")%string
      then ["Please select both start and end times"]
      else if Date_ge (startTime w) (endTime w)
           then ["Start time must be before end time"]
           else []
  | Page1.Download now_end now_start r =>
      match App1.export_params now_end now_start w, r with
      | Some _, Failed => ["Failed to download CSV. Please try again."]
      | _, _ => []
      end
  | _ => []
  end.

(** The array index two keys denote is in ascending order. *)
Definition index_le (k1 k2 : string) : Prop :=
  match array_index k1, array_index k2 with
  | Some a, Some b => (a <= b)%N
  | _, _ => False
  end.

(** What a user sees and what left for the network. *)
Definition shown (w : World) :=
  (liveDataContainer w, nodeStatsContainer w, decisionsContainer w, markers w,
   charts w, isConnected w, fetched w, alerts w).

End Vocabulary2.

(** Sample rows for running the model. *)
Definition reading (node ts : string) : Reading :=
  mkReading node ts (JNum 21) (JNum 40) JNull JNull (JNum 4).

Definition point (node ts : string) (v : Q) : TimeSeriesPoint :=
  mkPoint node ts (JNum v) JNull JNull JNull JNull.

Definition location (node : string) (la lo temp : jsval) : NodeLocation :=
  mkNodeLocation node None la lo temp JNull JNull JNull JNull.

(** A page that has loaded: every request of the start-up round answered. *)
Definition loaded : World :=
  world_of (App1.fetchAllData (H := ExampleHost.host)
    (App1.mkResponses
       (Ok [reading "n1" "2024-01-01T10:05"]) (Ok []) (Ok [])
       (Ok [location "n1" (JNum (417 # 10)) (JNum (-862 # 10)) (JNum 21)])
       (Ok [point "n1" "2024-01-01T10:00" 21]))
    (initial "24" "temp")).

(** Three rows: node A at 10:00 and 11:00, node B at 11:00 only. *)
Definition three_rows : list TimeSeriesPoint :=
  [ point "A" "2024-01-01T10:00" 20; point "A" "2024-01-01T11:00" 21;
    point "B" "2024-01-01T11:00" 30 ].

(** Seven nodes, one row each. *)
Definition seven_nodes : list TimeSeriesPoint :=
  map (fun n => point n "2024-01-01T10:00" 20) ["a"; "b"; "c"; "d"; "e"; "f"; "g"].

(** * Properties *)

(** ** Live feed, replace-on-change (first listing) *)

Lemma feed_map_Item (l : list Reading) : feed (map Item l) = l.
Proof.
  induction l as [| r l IH]; simpl; [reflexivity | now rewrite IH].
Qed.

Lemma firstn_all_le {A : Type} (n : nat) (l : list A) :
  (List.length l <= n)%nat -> firstn n l = l.
Proof.
  revert n; induction l as [| x l IH]; intros [| n] Hl; simpl in *;
    try reflexivity; try lia.
  f_equal. apply IH. lia.
Qed.

Lemma fetchLiveData_empty (w : World) :
  liveDataContainer (App1.fetchLiveData (Ok []) w) = [Loading]
  /\ lastLiveDataTimestamp (App1.fetchLiveData (Ok []) w) = lastLiveDataTimestamp w.
Proof. split; reflexivity. Qed.

Lemma fetchLiveData_same (d0 : Reading) (B : list Reading) (w : World) :
  lastLiveDataTimestamp w = Some (timestamp d0) ->
  liveDataContainer (App1.fetchLiveData (Ok (d0 :: B)) w) = liveDataContainer w
  /\ lastLiveDataTimestamp (App1.fetchLiveData (Ok (d0 :: B)) w) = lastLiveDataTimestamp w.
Proof.
  intros Hlast.
  unfold App1.fetchLiveData, App1.fetchLiveData_recv, App1.fetchAPI_recv,
    App1.fetchAPI_send.
  cbn [fetch lastLiveDataTimestamp]. rewrite Hlast, String.eqb_refl.
  cbn. now rewrite Hlast.
Qed.

Lemma fetchLiveData_changed (d0 : Reading) (B : list Reading) (w : World) :
  lastLiveDataTimestamp w <> Some (timestamp d0) ->
  liveDataContainer (App1.fetchLiveData (Ok (d0 :: B)) w) = map Item (firstn 10 (d0 :: B))
  /\ lastLiveDataTimestamp (App1.fetchLiveData (Ok (d0 :: B)) w) = Some (timestamp d0).
Proof.
  intros Hlast.
  unfold App1.fetchLiveData, App1.fetchLiveData_recv, App1.fetchAPI_recv,
    App1.fetchAPI_send.
  cbn [fetch lastLiveDataTimestamp].
  destruct (lastLiveDataTimestamp w) as [t |] eqn:E.
  - destruct (String.eqb_spec (timestamp d0) t) as [Heq | Hne].
    + congruence.
    + split; reflexivity.
  - split; reflexivity.
Qed.

(** On the page as the constructor leaves it, and after every live-data
    round trip from there, the remembered timestamp is the one on top of
    the feed. *)
Lemma remembers_top_initial (hours metric : string) : remembers_top (initial hours metric).
Proof. exact I. Qed.

Lemma remembers_top_fetchLiveData (r : Response (list Reading)) (w : World) :
  remembers_top w -> remembers_top (App1.fetchLiveData r w).
Proof.
  intros Hinv. destruct r as [[| d0 B] |].
  - exact I.
  - assert (Hdec : lastLiveDataTimestamp w = Some (timestamp d0)
                   \/ lastLiveDataTimestamp w <> Some (timestamp d0)).
    { destruct (lastLiveDataTimestamp w) as [t |]; [| right; discriminate].
      destruct (string_dec t (timestamp d0)) as [-> | Hn];
        [now left | right; congruence]. }
    destruct Hdec as [Heq | Hne].
    + destruct (fetchLiveData_same d0 B w Heq) as [Hc Hl].
      unfold remembers_top. rewrite Hc, Hl. exact Hinv.
    + destruct (fetchLiveData_changed d0 B w Hne) as [Hc Hl].
      unfold remembers_top. rewrite Hc, feed_map_Item. exact Hl.
  - exact Hinv.
Qed.

(** C1, as the code has it: an empty batch clears the feed; a batch whose
    first timestamp equals the remembered one ([lastLiveDataTimestamp]),
    which is the displayed newest timestamp whenever the feed shows an
    entry, leaves the display as it is; a batch whose first timestamp
    differs from the remembered one, or that arrives when none is
    remembered, replaces the display with its first ten entries (the batch
    itself when it has at most ten) and is remembered. *)
Theorem C1_replace_on_change (B : list Reading) (w : World) :
  let w' := App1.fetchLiveData (Ok B) w in
  match B with
  | [] => feed (liveDataContainer w') = []
  | d0 :: _ =>
      (lastLiveDataTimestamp w = Some (timestamp d0) ->
         liveDataContainer w' = liveDataContainer w
         /\ lastLiveDataTimestamp w' = lastLiveDataTimestamp w)
      /\ (forall top rest, remembers_top w ->
            feed (liveDataContainer w) = top :: rest ->
            timestamp d0 = timestamp top ->
            liveDataContainer w' = liveDataContainer w)
      /\ (lastLiveDataTimestamp w <> Some (timestamp d0) ->
            feed (liveDataContainer w') = firstn 10 B
            /\ ((List.length B <= 10)%nat -> feed (liveDataContainer w') = B)
            /\ lastLiveDataTimestamp w' = Some (timestamp d0))
  end.
Proof.
  destruct B as [| d0 B]; [reflexivity |].
  split; [| split].
  - apply fetchLiveData_same.
  - intros top rest Hinv Hfeed Hts. unfold remembers_top in Hinv.
    rewrite Hfeed in Hinv. apply fetchLiveData_same. now rewrite Hts.
  - intros Hne. destruct (fetchLiveData_changed d0 B w Hne) as [Hc Hl].
    rewrite Hc, feed_map_Item. split; [reflexivity | split; [| exact Hl]].
    intros Hlen. now apply firstn_all_le.
Qed.

(** C1 at a batch of two readings arriving on the fresh page: both are shown. *)
Lemma C1_replace_on_change_witness :
  let B := [reading "n1" "2024-01-01T10:05"; reading "n2" "2024-01-01T10:00"] in
  let w := initial "24" "temp" in
  feed (liveDataContainer (App1.fetchLiveData (Ok B) w)) = B.
Proof.
  intros B w.
  assert (Hne : lastLiveDataTimestamp w <> Some (timestamp (reading "n1" "2024-01-01T10:05")))
    by discriminate.
  assert (Hlen : (List.length B <= 10)%nat) by (simpl; lia).
  exact (proj1 (proj2 (proj2 (proj2 (C1_replace_on_change B w)) Hne)) Hlen).
Defined.

(** C1 as stated fails: the feed was emptied by an empty batch, the next
    batch is not empty, and it does not replace the view. *)
Lemma C1_counterexample :
  let B := [reading "n1" "2024-01-01T10:05"] in
  let w := App1.fetchLiveData (Ok []) (App1.fetchLiveData (Ok B) (initial "24" "temp")) in
  feed (liveDataContainer w) = []
  /\ feed (liveDataContainer (App1.fetchLiveData (Ok B) w)) <> B.
Proof.
  split; [reflexivity | discriminate].
Qed.

(** C9: once a batch with newest timestamp T has been displayed and an empty
    batch has cleared the feed, T is still remembered, so a batch whose first
    timestamp is T is skipped and the feed stays cleared. *)
Theorem C9_clear_keeps_timestamp (w : World) (d1 d2 : Reading) (B1 B2 : list Reading) :
  lastLiveDataTimestamp w <> Some (timestamp d1) ->
  timestamp d2 = timestamp d1 ->
  let w1 := App1.fetchLiveData (Ok (d1 :: B1)) w in
  let w2 := App1.fetchLiveData (Ok []) w1 in
  let w3 := App1.fetchLiveData (Ok (d2 :: B2)) w2 in
  feed (liveDataContainer w1) = firstn 10 (d1 :: B1)
  /\ liveDataContainer w2 = [Loading]
  /\ lastLiveDataTimestamp w2 = Some (timestamp d1)
  /\ liveDataContainer w3 = [Loading]
  /\ feed (liveDataContainer w3) = [].
Proof.
  intros Hne Hts w1 w2 w3.
  destruct (fetchLiveData_changed d1 B1 w Hne) as [Hc1 Hl1].
  destruct (fetchLiveData_empty w1) as [Hc2 Hl2].
  assert (Hl : lastLiveDataTimestamp w2 = Some (timestamp d2)).
  { unfold w2. rewrite Hl2. unfold w1. rewrite Hl1. now rewrite Hts. }
  destruct (fetchLiveData_same d2 B2 w2 Hl) as [Hc3 _].
  fold w3 in Hc3.
  assert (Hc : liveDataContainer w3 = [Loading]) by (rewrite Hc3; exact Hc2).
  split; [| split; [| split; [| split]]].
  - unfold w1. rewrite Hc1. apply feed_map_Item.
  - exact Hc2.
  - rewrite Hl. now rewrite Hts.
  - exact Hc.
  - now rewrite Hc.
Qed.

(** C9 on the fresh page: shown, cleared, and not restored. *)
Lemma C9_clear_keeps_timestamp_witness :
  let d := reading "n1" "2024-01-01T10:05" in
  let w := initial "24" "temp" in
  let w3 := App1.fetchLiveData (Ok [d])
              (App1.fetchLiveData (Ok []) (App1.fetchLiveData (Ok [d]) w)) in
  liveDataContainer w3 = [Loading].
Proof.
  intros d w.
  assert (Hne : lastLiveDataTimestamp w <> Some (timestamp d)) by discriminate.
  exact (proj1 (proj2 (proj2 (proj2
           (C9_clear_keeps_timestamp w d d [] [] Hne eq_refl))))).
Defined.

(** ** Sanity runs of the model on the scenarios of the specification *)

Example custom_endpoint :
  App1.timeSeriesEndpoint
    (set_isCustomRange true
       (set_customTimeRange (Some "2024-01-01T09:00", Some "2024-01-01T10:00")
          (initial "custom" "temp")))
  = Some "/timeseries?start=2024-01-01T09%3A00%3A00&end=2024-01-01T10%3A00%3A00".
Proof. reflexivity. Qed.

Example preset_export_bounds :
  let now := 1704153600000 in
  App1.downloadCSV_send (H := ExampleHost.host) now now (initial "24" "temp")
  = Normal (fetch (CONFIG.API_BASE_URL
      ++ "/api/export/csv?start=2024-01-01T00%3A00%3A00.000Z&end=2024-01-02T00%3A00%3A00.000Z")
      (initial "24" "temp")).
Proof. vm_compute. reflexivity. Qed.

(** ** Connection state *)

Lemma updateLiveDataFeed_isConnected (B : list Reading) (w : World) :
  isConnected (App1.updateLiveDataFeed B w) = isConnected w.
Proof. destruct B; reflexivity. Qed.

Lemma updateMap_isConnected (locations : list NodeLocation) (w : World) :
  isConnected (App1.updateMap locations w) = isConnected w.
Proof.
  unfold App1.updateMap. destruct locations as [| l ls]; [reflexivity |].
  destruct (App1.map_layers (heatmapMetric w) (l :: ls)) as [ms hp].
  destruct (CONFIG.FEATURES_heatMap && (0 <? List.length hp)%nat); reflexivity.
Qed.

Lemma updateCharts_isConnected `{Host} (pts : list TimeSeriesPoint) (w : World) :
  isConnected (world_of (App1.updateCharts pts w)) = isConnected w.
Proof.
  unfold App1.updateCharts. destruct pts as [| p ps]; [reflexivity |].
  destruct (group_by_node (p :: ps)); reflexivity.
Qed.

(** What a timer callback and its response do to the connection state. *)
Lemma tick_isConnected `{Host} (t : App1.Timer) (w : World) :
  isConnected (App1.tick t w) = if failed t && requests t w then false else isConnected w.
Proof.
  destruct t as [r | r | r | r | r]; destruct r as [payload |]; try reflexivity.
  - (* live data, answered *)
    unfold App1.tick, App1.fetchLiveData, App1.fetchLiveData_recv. cbn.
    destruct payload as [| d0 B]; [reflexivity |].
    destruct (lastLiveDataTimestamp w) as [t |]; [| reflexivity].
    destruct (negb (timestamp d0 =? t)%string); reflexivity.
  - (* map, answered *)
    unfold App1.tick, App1.fetchNodeLocations. cbn.
    now rewrite updateMap_isConnected.
  - (* charts, answered *)
    unfold App1.tick, App1.fetchTimeSeriesData, requests. cbn [failed andb].
    destruct (App1.timeSeriesEndpoint w); [| reflexivity].
    unfold App1.fetchTimeSeriesData_recv. cbn.
    now rewrite updateCharts_isConnected.
  - (* charts, failed *)
    unfold App1.tick, App1.fetchTimeSeriesData, requests. cbn [failed andb].
    destruct (App1.timeSeriesEndpoint w); reflexivity.
Qed.




(** ** Push-stream messages *)

(** C5, as the code has it: a message whose body [JSON.parse] rejects
    changes nothing, in either listing: the feed is as it was, and so is the
    connection state, which is not set to Connected. *)
Theorem C5_keepalive_changes_nothing (w : World) :
  (forall A : Type, App1.onmessage (@Unparseable A) w = w)
  /\ world_of (App2.onmessage Unparseable w) = w
  /\ (forall A : Type,
        liveDataContainer (App1.onmessage (@Unparseable A) w) = liveDataContainer w
        /\ isConnected (App1.onmessage (@Unparseable A) w) = isConnected w)
  /\ liveDataContainer (world_of (App2.onmessage Unparseable w)) = liveDataContainer w
  /\ isConnected (world_of (App2.onmessage Unparseable w)) = isConnected w.
Proof.
  repeat split.
Qed.

(** C5 as stated fails: after a stream error the client shows Disconnected,
    and a keepalive that does not parse leaves it so, in both listings. *)
Lemma C5_counterexample :
  isConnected (App1.onmessage (@Unparseable Reading) (App1.onerror loaded)) <> true
  /\ isConnected (world_of (App2.onmessage Unparseable (App2.onerror loaded))) <> true.
Proof. split; discriminate. Qed.

(** ** Custom time range *)

Lemma app_one_neq {A : Type} (l : list A) (x : A) : (l ++ [x])%list <> l.
Proof.
  intros Heq. apply (f_equal (@List.length A)) in Heq.
  rewrite length_app in Heq. simpl in Heq. lia.
Qed.

Lemma eqb_empty_false (s : string) : s <> "" -> (s =? "")%string = false.
Proof. intros Hs. now apply String.eqb_neq. Qed.

(** C3: the click on "apply" is refused, with an alert and without a
    request, exactly when the start is missing, the end is missing, or
    [new Date(start) >= new Date(end)]; a refusal leaves the stored range,
    the range mode and every other field used for fetching as they were; an
    accepted range is stored and requested. *)
Theorem C3_custom_range_validation `{Host} (w : World) :
  let w' := App1.applyCustomRange_click w in
  let invalid :=
    startTime w = "" \/ endTime w = "" \/ Date_ge (startTime w) (endTime w) = true in
  (alerts w' <> alerts w <-> invalid)
  /\ (fetched w' = fetched w <-> invalid)
  /\ (invalid ->
        exists msg, w' = alert msg w
        /\ customTimeRange w' = customTimeRange w
        /\ isCustomRange w' = isCustomRange w)
  /\ (~ invalid ->
        customTimeRange w' = (Some (startTime w), Some (endTime w))
        /\ isCustomRange w' = true
        /\ alerts w' = alerts w
        /\ fetched w' =
           (fetched w ++
            [(CONFIG.API_BASE_URL ++ "/api" ++ "/timeseries?start="
                ++ encodeURIComponent (startTime w ++ ":00")
                ++ "&end=" ++ encodeURIComponent (endTime w ++ ":00"))%string])%list).
Proof.
  intros w' invalid. subst w' invalid. unfold App1.applyCustomRange_click.
  destruct (String.eqb_spec (startTime w) "") as [Hs | Hs].
  { (* no start *)
    cbn [orb]. split; [| split; [| split]].
    - split; [auto | intros _; apply app_one_neq].
    - split; [auto | reflexivity].
    - intros _. eexists. repeat split.
    - intros Hv. exfalso. apply Hv. auto. }
  destruct (String.eqb_spec (endTime w) "") as [He | He].
  { (* no end *)
    cbn [orb]. split; [| split; [| split]].
    - split; [auto | intros _; apply app_one_neq].
    - split; [auto | reflexivity].
    - intros _. eexists. repeat split.
    - intros Hv. exfalso. apply Hv. auto. }
  cbn [orb].
  destruct (Date_ge (startTime w) (endTime w)) eqn:Hge.
  { (* start not before end *)
    split; [| split; [| split]].
    - split; [auto | intros _; apply app_one_neq].
    - split; [auto | reflexivity].
    - intros _. eexists. repeat split.
    - intros Hv. exfalso. apply Hv. auto. }
  (* accepted *)
  assert (Hvalid : ~ (startTime w = "" \/ endTime w = "" \/ false = true)).
  { intros [Hx | [Hx | Hx]]; [now apply Hs | now apply He | discriminate]. }
  unfold App1.fetchTimeSeriesData_send, App1.timeSeriesEndpoint.
  cbn [customTimeRange isCustomRange set_isCustomRange set_customTimeRange
       truthy_str andb negb].
  rewrite (eqb_empty_false _ Hs), (eqb_empty_false _ He). cbn [negb andb str_plus].
  split; [| split; [| split]].
  - split; [intros Hne; now elim Hne | intros Hx; now elim Hvalid].
  - split; [intros Heq; exfalso; revert Heq; apply app_one_neq
           | intros Hx; now elim Hvalid].
  - intros Hx. now elim Hvalid.
  - intros _. repeat split.
Qed.

(** C3 on the scenario of the specification: a start an hour after the end
    is refused, nothing is requested and the stored range is untouched. *)
Lemma C3_custom_range_validation_witness :
  let w := mkWorld true (None, None) true None [] None [] false "custom"
             "2024-01-01T10:00" "2024-01-01T09:00" "temp" [] [] [] [] [] in
  let w' := App1.applyCustomRange_click (H := ExampleHost.host) w in
  fetched w' = [] /\ customTimeRange w' = (None, None)
  /\ alerts w' = ["Start time must be before end time"].
Proof.
  intros w w'.
  assert (Hinv : startTime w = "" \/ endTime w = ""
                 \/ Date_ge (H := ExampleHost.host) (startTime w) (endTime w) = true)
    by (right; right; reflexivity).
  split; [| split].
  - exact (proj2 (proj1 (proj2 (C3_custom_range_validation (H := ExampleHost.host) w))) Hinv).
  - destruct (proj1 (proj2 (proj2 (C3_custom_range_validation (H := ExampleHost.host) w))) Hinv)
      as [msg [_ [Hr _]]]. exact Hr.
  - reflexivity.
Defined.

(** ** CSV export *)

(** C6, as the code has it: with "custom" selected and no range applied,
    the export is not skipped and nobody is alerted; the request goes to the
    export endpoint with no [start] and no [end], which asks for the whole
    data set. *)
Theorem C6_export_without_range `{Host} (now_end now_start : Z) (w : World) :
  timeRange w = "custom" ->
  isCustomRange w && truthy_str (fst (customTimeRange w))
    && truthy_str (snd (customTimeRange w)) = false ->
  App1.downloadCSV_send now_end now_start w
  = Normal (fetch (CONFIG.API_BASE_URL ++ "/api/export/csv") w)
  /\ alerts (world_of (App1.downloadCSV_send now_end now_start w)) = alerts w.
Proof.
  intros Hsel Hnone.
  assert (Hsend : App1.downloadCSV_send now_end now_start w
                  = Normal (fetch (CONFIG.API_BASE_URL ++ "/api/export/csv") w)).
  { unfold App1.downloadCSV_send, App1.export_params.
    destruct (customTimeRange w) as [cstart cend]. cbn [fst snd] in Hnone.
    rewrite Hnone, Hsel. reflexivity. }
  split; [exact Hsend | now rewrite Hsend].
Qed.

(** "custom" has just been chosen on the loaded page; nothing was applied. *)
Lemma C6_export_without_range_witness :
  let w := App1.timeRange_change "custom" loaded in
  App1.downloadCSV_send (H := ExampleHost.host) 1704153600000 1704153600000 w
  = Normal (fetch "https://mirror-nuke-lcd-ethical.trycloudflare.com/api/export/csv" w).
Proof.
  intros w.
  exact (proj1 (C6_export_without_range (H := ExampleHost.host)
                  1704153600000 1704153600000 w eq_refl eq_refl)).
Defined.

(** C6 as stated fails: in that state the download button does hand a
    request to [fetch]. *)
Lemma C6_counterexample :
  let w := App1.timeRange_change "custom" loaded in
  fetched (world_of (App1.downloadCSV_send (H := ExampleHost.host)
                       1704153600000 1704153600000 w))
  <> fetched w.
Proof. vm_compute. discriminate. Qed.

(** ** Map markers and heat samples *)

(** The loop of the first listing, as two filters. *)
Lemma map_step1_fold (m : string) (locations : list NodeLocation)
    (acc : list Marker * list HeatPoint) :
  fold_left (App1.map_step m) locations acc
  = ((fst acc ++ map (fun l => mkMarker (lat l) (lon l) l)
                     (filter has_coords locations))%list,
     (snd acc ++ map (fun l => (lat l, lon l, loc_avg l m))
                     (filter (sampled m) locations))%list).
Proof.
  revert acc. induction locations as [| l ls IH]; intros [ms hp].
  - cbn. now rewrite !app_nil_r.
  - cbn [fold_left]. rewrite IH. unfold App1.map_step, sampled, has_coords.
    cbn [filter fst snd].
    destruct (truthy (lat l)); [destruct (truthy (lon l)) |].
    + cbn [negb orb andb fst snd].
      destruct (present (loc_avg l m)); cbn [map]; now rewrite <- !app_assoc.
    + reflexivity.
    + reflexivity.
Qed.

Lemma divide_by_100_or_zero (v : jsval) :
  divide_by_100 (or_zero v)
  = match v with JNum q => divide_by_100 q | JUndefined | JNull => 0%Q end.
Proof.
  destruct v as [| | q]; [reflexivity | reflexivity |].
  unfold or_zero, truthy. destruct (Qeq_bool q 0) eqn:E; [| reflexivity].
  cbn [negb]. unfold divide_by_100. unfold Number_of at 2 4. now rewrite E.
Qed.

Lemma intensity_of_scaled (m : string) (l : NodeLocation) :
  divide_by_100 (App2.intensity_of m l) = scaled_intensity m l.
Proof.
  unfold App2.intensity_of, scaled_intensity, selected_average.
  destruct (m =? "temperature")%string; [apply divide_by_100_or_zero |].
  destruct (m =? "humidity")%string; [apply divide_by_100_or_zero |].
  destruct (m =? "soil_moisture")%string; [apply divide_by_100_or_zero |].
  destruct (m =? "lux")%string; [apply divide_by_100_or_zero | reflexivity].
Qed.

Lemma placeable_marker (l : NodeLocation) :
  placeable l = true -> L_marker l = inl (mkMarker (lat l) (lon l) l).
Proof.
  unfold placeable, L_marker. destruct (lat l), (lon l); congruence.
Qed.

Lemma refused_marker (l : NodeLocation) :
  placeable l = false -> L_marker l = inr (refusal l).
Proof.
  unfold placeable, L_marker, refusal. destruct (lat l), (lon l); congruence.
Qed.

(** The loop of the second listing over placeable locations: one marker
    and one sample per location. *)
Lemma map_loop2_all (m : string) (nodesData : list NodeLocation)
    (acc : list Marker * list HeatPoint) :
  forallb placeable nodesData = true ->
  App2.map_loop m nodesData acc
  = ((fst acc ++ map (fun l => mkMarker (lat l) (lon l) l) nodesData)%list,
     (snd acc ++ map (fun l => (lat l, lon l, JNum (scaled_intensity m l))) nodesData)%list,
     None).
Proof.
  revert acc. induction nodesData as [| l ls IH]; intros [ms hp] Hok.
  - cbn. now rewrite !app_nil_r.
  - cbn [forallb] in Hok. apply andb_true_iff in Hok. destruct Hok as [Hl Hls].
    cbn [App2.map_loop]. rewrite (placeable_marker l Hl), (IH _ Hls).
    cbn [fst snd map]. now rewrite <- !app_assoc, intensity_of_scaled.
Qed.

(** The loop ends at the first location that is not placeable. *)
Lemma map_loop2_refused (m : string) (pre post : list NodeLocation) (l : NodeLocation)
    (acc : list Marker * list HeatPoint) :
  forallb placeable pre = true -> placeable l = false ->
  App2.map_loop m (pre ++ l :: post) acc
  = ((fst acc ++ map (fun l => mkMarker (lat l) (lon l) l) pre)%list,
     (snd acc ++ map (fun l => (lat l, lon l, JNum (scaled_intensity m l))) pre)%list,
     Some (refusal l)).
Proof.
  revert acc. induction pre as [| p pre IH]; intros [ms hp] Hok Hl.
  - cbn [app App2.map_loop]. rewrite (refused_marker l Hl). cbn. now rewrite !app_nil_r.
  - cbn [forallb] in Hok. apply andb_true_iff in Hok. destruct Hok as [Hp Hpre].
    cbn [app App2.map_loop]. rewrite (placeable_marker p Hp), (IH _ Hpre Hl).
    cbn [fst snd map]. now rewrite <- !app_assoc, intensity_of_scaled.
Qed.

Lemma truthy_present (v : jsval) : truthy v = true -> present v = true.
Proof. destruct v; [discriminate | discriminate | reflexivity]. Qed.

(** C7, as the code has it. In the first listing (raw intensity) the heat
    samples are those of the locations whose [lat] and [lon] are truthy and
    whose average for the metric is neither [null] nor missing, so every
    sample comes from a location with all three present. The second listing
    (intensity divided by 100) excludes nothing silently. When every
    location has a number as [lat] and a number or [null] as [lon], each
    one yields a marker and a sample, whose intensity is a hundredth of the
    selected average and 0 when that average is absent. At the first
    location whose [lat] is missing or [null], or whose [lon] is missing,
    the marker call throws: the markers of the locations before it stay,
    and no sample of the response reaches the heat layer. *)
Theorem C7_heat_samples (m : string) (locations : list NodeLocation) :
  snd (App1.map_layers m locations)
  = map (fun l => (lat l, lon l, loc_avg l m)) (filter (sampled m) locations)
  /\ (forall s, In s (snd (App1.map_layers m locations)) ->
        exists l, In l locations /\ s = (lat l, lon l, loc_avg l m)
                  /\ present (lat l) = true /\ present (lon l) = true
                  /\ present (loc_avg l m) = true)
  /\ (forall w l ls, locations = l :: ls ->
        snd (App1.map_layers (heatmapMetric w) locations) <> [] ->
        heatLayer (App1.updateMap locations w)
        = Some (snd (App1.map_layers (heatmapMetric w) locations)))
  /\ (forall w, locations <> [] -> forallb placeable locations = true ->
        exists w', App2.updateMap locations w = Normal w'
          /\ markers w' = map (fun l => mkMarker (lat l) (lon l) l) locations
          /\ heatLayer w'
             = Some (map (fun l => (lat l, lon l, JNum (scaled_intensity (heatmapMetric w) l)))
                         locations)
          /\ heatOnMap w' = true)
  /\ (forall w pre l post, locations = (pre ++ l :: post)%list ->
        forallb placeable pre = true -> placeable l = false ->
        exists w', App2.updateMap locations w = Throw (refusal l) w'
          /\ markers w' = map (fun l => mkMarker (lat l) (lon l) l) pre
          /\ heatLayer w' = heatLayer w
          /\ heatOnMap w' = false).
Proof.
  assert (H1 : snd (App1.map_layers m locations)
               = map (fun l => (lat l, lon l, loc_avg l m)) (filter (sampled m) locations)).
  { unfold App1.map_layers. now rewrite map_step1_fold. }
  split; [exact H1 | split; [| split; [| split]]].
  - intros s Hs. rewrite H1 in Hs. apply in_map_iff in Hs.
    destruct Hs as [l [<- Hl]]. apply filter_In in Hl. destruct Hl as [Hin Hok].
    unfold sampled, has_coords in Hok.
    apply andb_true_iff in Hok. destruct Hok as [Hc Hp].
    apply andb_true_iff in Hc. destruct Hc as [Hlat Hlon].
    exists l. repeat split; auto using truthy_present.
  - intros w l ls -> Hne. unfold App1.updateMap.
    destruct (App1.map_layers (heatmapMetric w) (l :: ls)) as [ms hp].
    cbn [snd] in *. destruct hp as [| p hp]; [now elim Hne | reflexivity].
  - intros w Hne Hok. destruct locations as [| l ls]; [now elim Hne |].
    unfold App2.updateMap. rewrite (map_loop2_all _ _ _ Hok).
    cbn [fst snd app map List.length Nat.ltb Nat.leb andb CONFIG.FEATURES_heatMap].
    eexists. split; [reflexivity |]. cbn [markers heatLayer heatOnMap set_map]. tauto.
  - intros w pre l post -> Hok Hl. unfold App2.updateMap.
    destruct (pre ++ l :: post)%list as [| x xs] eqn:E;
      [now destruct pre |].
    rewrite <- E, (map_loop2_refused _ _ _ _ _ Hok Hl). cbn [fst snd app].
    eexists. split; [reflexivity |]. cbn [markers heatLayer heatOnMap set_map]. tauto.
Qed.

(** C7 on two locations, the second with no reading of the metric: one
    sample, from the first, in the first listing; two samples in the
    second, of intensity 21/100 as a Number and 0. *)
Lemma C7_heat_samples_witness :
  let a := location "n1" (JNum (417 # 10)) (JNum (-862 # 10)) (JNum 21) in
  let b := location "n2" (JNum (418 # 10)) (JNum (-863 # 10)) JNull in
  heatLayer (App1.updateMap [a; b] (initial "24" "temp"))
  = Some (snd (App1.map_layers "temp" [a; b]))
  /\ exists w', App2.updateMap [a; b] (initial "24" "temperature") = Normal w'
       /\ heatLayer w'
          = Some [ (JNum (417 # 10), JNum (-862 # 10),
                    JNum (7566047373982433 # 36028797018963968));
                   (JNum (418 # 10), JNum (-863 # 10), JNum 0) ].
Proof.
  intros a b. split.
  - refine (proj1 (proj2 (proj2 (C7_heat_samples "temp" [a; b])))
              (initial "24" "temp") a [b] eq_refl _).
    discriminate.
  - assert (Hne : [a; b] <> []) by discriminate.
    assert (Hok : forallb placeable [a; b] = true) by reflexivity.
    destruct (proj1 (proj2 (proj2 (proj2 (C7_heat_samples "temperature" [a; b]))))
                (initial "24" "temperature") Hne Hok) as [w' [Hrun [_ [Hheat _]]]].
    exists w'. split; [exact Hrun |]. etransitivity; [exact Hheat |].
    vm_compute. reflexivity.
Defined.

(** C7 as stated fails in the second listing. A location with no average
    for the selected metric yields a sample, of intensity 0; and a location
    with no [lat] is not excluded silently: the update throws, and the
    sample of the location before it never reaches the heat layer. *)
Lemma C7_counterexample :
  let a := location "n1" (JNum (417 # 10)) (JNum (-862 # 10)) (JNum (143 # 10)) in
  let b := location "n2" (JNum (418 # 10)) (JNum (-863 # 10)) JNull in
  let c := location "n3" JNull (JNum (-864 # 10)) (JNum 21) in
  present (l_avg_temp b) = false
  /\ App2.updateMap [b] (initial "24" "temperature")
     = Normal (set_map [mkMarker (JNum (418 # 10)) (JNum (-863 # 10)) b]
                 (Some [(JNum (418 # 10), JNum (-863 # 10), JNum 0)]) true
                 (initial "24" "temperature"))
  /\ present (lat c) = false
  /\ App2.updateMap [a; c] (initial "24" "temperature")
     = Throw "TypeError"
         (set_map [mkMarker (JNum (417 # 10)) (JNum (-862 # 10)) a] None false
            (initial "24" "temperature")).
Proof. repeat split; reflexivity. Qed.

Lemma zero_not_truthy (v : jsval) : is_zero v = true -> truthy v = false.
Proof. destruct v; cbn; [discriminate | discriminate | now intros ->]. Qed.

Lemma filter_middle_out {A : Type} (f : A -> bool) (pre post : list A) (x : A) :
  f x = false -> filter f (pre ++ x :: post) = filter f (pre ++ post).
Proof.
  intros Hx. rewrite !filter_app. cbn [filter]. now rewrite Hx.
Qed.

Lemma filter_middle_swap {A : Type} (f : A -> bool) (pre post : list A) (x y : A) :
  f x = false -> f y = false ->
  filter f (pre ++ x :: post) = filter f (pre ++ y :: post).
Proof.
  intros Hx Hy. now rewrite (filter_middle_out f pre post x), (filter_middle_out f pre post y).
Qed.

(** C10: a location whose [lat] is 0 or whose [lon] is 0 gets no marker and
    no heat sample: the markers and samples are those of the list without
    it, and those of the list where its coordinates are missing. *)
Theorem C10_zero_coordinate_excluded (m : string) (pre post : list NodeLocation)
    (l : NodeLocation) (w : World) :
  is_zero (lat l) = true \/ is_zero (lon l) = true ->
  App1.map_layers m (pre ++ l :: post) = App1.map_layers m (pre ++ post)
  /\ App1.map_layers m (pre ++ l :: post)
     = App1.map_layers m (pre ++ without_coords l :: post)
  /\ markers (App1.updateMap (pre ++ l :: post) w)
     = fst (App1.map_layers (heatmapMetric w) (pre ++ post))
  /\ (forall mk, In mk (markers (App1.updateMap (pre ++ l :: post) w)) ->
        In (m_popup mk) (pre ++ post)).
Proof.
  intros Hzero.
  assert (Hc : has_coords l = false).
  { unfold has_coords. destruct Hzero as [Hz | Hz]; rewrite (zero_not_truthy _ Hz);
      [reflexivity | apply andb_false_r]. }
  assert (Hs : forall m', sampled m' l = false) by (intros m'; unfold sampled; now rewrite Hc).
  assert (Hout : forall m', App1.map_layers m' (pre ++ l :: post)
                            = App1.map_layers m' (pre ++ post)).
  { intros m'. unfold App1.map_layers. rewrite !map_step1_fold.
    now rewrite (filter_middle_out has_coords), (filter_middle_out (sampled m')). }
  assert (Hmk : markers (App1.updateMap (pre ++ l :: post) w)
                = fst (App1.map_layers (heatmapMetric w) (pre ++ post))).
  { rewrite <- Hout. unfold App1.updateMap.
    destruct (pre ++ l :: post)%list as [| x xs] eqn:E;
      [now destruct pre |].
    destruct (App1.map_layers (heatmapMetric w) (x :: xs)) as [ms hp].
    destruct (CONFIG.FEATURES_heatMap && (0 <? List.length hp)%nat); reflexivity. }
  split; [apply Hout | split; [| split; [exact Hmk |]]].
  - unfold App1.map_layers. rewrite !map_step1_fold.
    now rewrite (filter_middle_swap has_coords pre post l (without_coords l)),
      (filter_middle_swap (sampled m) pre post l (without_coords l)).
  - intros mk Hin. rewrite Hmk in Hin. unfold App1.map_layers in Hin.
    rewrite map_step1_fold in Hin. cbn [fst app] in Hin.
    apply in_map_iff in Hin. destruct Hin as [x [<- Hx]].
    apply filter_In in Hx. exact (proj1 Hx).
Qed.

(** C10 at a station on the equator between two others. *)
Lemma C10_zero_coordinate_excluded_witness :
  let a := location "n1" (JNum (417 # 10)) (JNum (-862 # 10)) (JNum 21) in
  let e := location "n0" (JNum 0) (JNum (-785 # 10)) (JNum 27) in
  let b := location "n2" (JNum (418 # 10)) (JNum (-863 # 10)) (JNum 19) in
  App1.map_layers "temp" [a; e; b] = App1.map_layers "temp" [a; b].
Proof.
  intros a e b.
  exact (proj1 (C10_zero_coordinate_excluded "temp" [a] [b] e (initial "24" "temp")
                  (or_introl eq_refl))).
Defined.

(** ** Bound and order of the live feed *)

Lemma feed_length (c : list Child) : (List.length (feed c) <= List.length c)%nat.
Proof.
  induction c as [| [| r] c IH]; simpl; lia.
Qed.

Lemma feed_remove_loading (c : list Child) : feed (App2.remove_loading c) = feed c.
Proof.
  induction c as [| [| r] c IH]; simpl; [reflexivity | reflexivity | now rewrite IH].
Qed.

(** The readings among the first [n] children are a prefix of the feed. *)
Lemma feed_firstn (n : nat) (c : list Child) :
  exists k, feed (firstn n c) = firstn k (feed c).
Proof.
  revert n. induction c as [| x c IH]; intros n.
  - exists 0%nat. now destruct n.
  - destruct n as [| n]; [now exists 0%nat |].
    destruct (IH n) as [k Hk]. destruct x as [| r]; simpl.
    + now exists k.
    + exists (S k). simpl. now rewrite Hk.
Qed.

(** The eviction loop keeps the first ten children. *)
Lemma evict_firstn (fuel : nat) (c : list Child) :
  (List.length c <= fuel + 10)%nat -> App2.evict fuel c = firstn 10 c.
Proof.
  revert c. induction fuel as [| fuel IH]; intros c Hlen.
  - cbn [App2.evict]. symmetry. apply firstn_all_le. lia.
  - cbn [App2.evict]. destruct (Nat.ltb_spec 10 (List.length c)) as [Hlong | Hshort].
    + rewrite IH.
      * rewrite removelast_firstn_len, firstn_firstn. f_equal. lia.
      * rewrite removelast_firstn_len, length_firstn. lia.
    + symmetry. apply firstn_all_le. lia.
Qed.

Lemma addToLiveDataFeed_container (r : Reading) (w : World) :
  liveDataContainer (App2.addToLiveDataFeed r w)
  = firstn 10 (Item r :: App2.remove_loading (liveDataContainer w)).
Proof.
  unfold App2.addToLiveDataFeed. cbn [liveDataContainer set_liveDataContainer].
  apply evict_firstn. lia.
Qed.

Section FeedOrder.
Context `{Host}.

Lemma newest_first_firstn (k : nat) (l : list Reading) :
  newest_first l = true -> newest_first (firstn k l) = true.
Proof.
  revert k. induction l as [| a l IH]; intros k Hl.
  - now destruct k.
  - destruct k as [| k]; [reflexivity |].
    destruct l as [| b l]; [now destruct k |].
    cbn [newest_first] in Hl. apply andb_true_iff in Hl. destruct Hl as [Hab Hrest].
    specialize (IH k Hrest).
    destruct k as [| k]; [reflexivity |].
    change (newer_eq a b && newest_first (firstn (S k) (b :: l)) = true).
    now rewrite Hab, IH.
Qed.

(** C8, as the code has it: after a batch update of the first listing and
    after a prepend of the second the feed has at most ten entries, whatever
    comes in. Neither sorts: the feed is newest-first after a batch update
    if the batch is, and after a prepend if it was before and the pushed
    reading is at least as new as its top entry. *)
Theorem C8_feed_bound_and_order :
  (forall B w,
     (List.length (feed (liveDataContainer (App1.updateLiveDataFeed B w))) <= 10)%nat)
  /\ (forall r w,
        (List.length (feed (liveDataContainer (App2.addToLiveDataFeed r w))) <= 10)%nat)
  /\ (forall B w, newest_first B = true ->
        newest_first (feed (liveDataContainer (App1.updateLiveDataFeed B w))) = true)
  /\ (forall r w, newest_first (r :: feed (liveDataContainer w)) = true ->
        newest_first (feed (liveDataContainer (App2.addToLiveDataFeed r w))) = true)
  /\ (forall r w, exists rest,
        feed (liveDataContainer (App2.addToLiveDataFeed r w)) = r :: rest).
Proof.
  split; [| split; [| split; [| split]]].
  - intros B w. destruct B as [| d B]; [simpl; lia |].
    cbn [App1.updateLiveDataFeed liveDataContainer set_liveDataContainer].
    rewrite feed_map_Item, length_firstn. lia.
  - intros r w. rewrite addToLiveDataFeed_container.
    etransitivity; [apply feed_length |]. rewrite length_firstn. lia.
  - intros B w HB. destruct B as [| d B]; [reflexivity |].
    cbn [App1.updateLiveDataFeed liveDataContainer set_liveDataContainer].
    rewrite feed_map_Item. now apply newest_first_firstn.
  - intros r w Hsorted. rewrite addToLiveDataFeed_container.
    destruct (feed_firstn 10 (Item r :: App2.remove_loading (liveDataContainer w)))
      as [k Hk].
    rewrite Hk. apply newest_first_firstn.
    cbn [feed]. now rewrite feed_remove_loading.
  - intros r w. rewrite addToLiveDataFeed_container. cbn [firstn feed]. eauto.
Qed.

End FeedOrder.

(** C8 on a feed of one reading and a push five minutes newer. *)
Lemma C8_feed_bound_and_order_witness :
  let w := App2.addToLiveDataFeed (reading "n1" "2024-01-01T10:00") (initial "24" "temperature") in
  newest_first (H := ExampleHost.host)
    (feed (liveDataContainer (App2.addToLiveDataFeed (reading "n2" "2024-01-01T10:05") w)))
  = true.
Proof.
  intros w.
  exact (proj1 (proj2 (proj2 (proj2 (C8_feed_bound_and_order (H := ExampleHost.host)))))
           (reading "n2" "2024-01-01T10:05") w eq_refl).
Defined.

(** C8 as stated fails: a pushed reading older than the top of the feed is
    put above it all the same. *)
Lemma C8_counterexample :
  let w := App2.addToLiveDataFeed (reading "n1" "2024-01-01T10:05") (initial "24" "temperature") in
  let w' := App2.addToLiveDataFeed (reading "n2" "2024-01-01T10:00") w in
  feed (liveDataContainer w')
  = [reading "n2" "2024-01-01T10:00"; reading "n1" "2024-01-01T10:05"]
  /\ newest_first (H := ExampleHost.host) (feed (liveDataContainer w')) = false.
Proof. split; reflexivity. Qed.

(** ** Series aggregation *)

Lemma get_own_push_at {A : Type} (o : JsObject (list A)) (k k' : string) (x : A) :
  get_own (push_at o k x) k'
  = match get_own o k' with
    | Some v => Some (if (k' =? k)%string then (v ++ [x])%list else v)
    | None => None
    end.
Proof.
  induction o as [| [k0 v] o IH]; [reflexivity |].
  cbn [push_at]. destruct (String.eqb_spec k k0) as [-> | Hk]; cbn [get_own].
  - destruct (String.eqb_spec k' k0); [reflexivity |].
    destruct (get_own o k'); reflexivity.
  - destruct (String.eqb_spec k' k0) as [-> | Hk'].
    + destruct (String.eqb_spec k0 k); [congruence | reflexivity].
    + apply IH.
Qed.

Lemma get_own_app_one {A : Type} (o : JsObject A) (k k' : string) (v : A) :
  get_own (o ++ [(k, v)])%list k'
  = match get_own o k' with
    | Some x => Some x
    | None => if (k' =? k)%string then Some v else None
    end.
Proof.
  induction o as [| [k0 v0] o IH]; [reflexivity |].
  cbn [app get_own]. destruct (k' =? k0)%string; [reflexivity | apply IH].
Qed.

Lemma keys_push_at {A : Type} (o : JsObject (list A)) (k : string) (x : A) :
  map fst (push_at o k x) = map fst o.
Proof.
  induction o as [| [k0 v] o IH]; [reflexivity |].
  cbn [push_at]. destruct (k =? k0)%string; cbn [map fst]; [reflexivity | now rewrite IH].
Qed.

Lemma get_own_None {A : Type} (o : JsObject A) (k : string) :
  get_own o k = None <-> ~ In k (map fst o).
Proof.
  induction o as [| [k0 v] o IH]; cbn [get_own map fst In]; [tauto |].
  destruct (String.eqb_spec k k0) as [-> | Hk].
  - split; [discriminate | intros Hn; elim Hn; now left].
  - rewrite IH. split; [intros Hn [He | Hi]; [congruence | tauto] | tauto].
Qed.

(** One turn of the grouping loop appends the row to the array of its node
    and touches no other array. *)
Lemma group_step_points (nd nd' : JsObject (list TimeSeriesPoint)) (p : TimeSeriesPoint) :
  group_step (Some nd) p = Some nd' ->
  (forall k, points_of nd' k
             = (points_of nd k ++ if (node_id p =? k)%string then [p] else [])%list)
  /\ (forall k, In k (map fst nd') <-> In k (map fst nd) \/ k = node_id p).
Proof.
  unfold group_step. destruct (get_own nd (node_id p)) as [ps |] eqn:E.
  - intros [= <-]. split.
    + intros k. unfold points_of. rewrite get_own_push_at, (String.eqb_sym (node_id p) k).
      destruct (get_own nd k) as [v |] eqn:Ek.
      * destruct (k =? node_id p)%string; [reflexivity | now rewrite app_nil_r].
      * destruct (String.eqb_spec k (node_id p)) as [-> | _]; [congruence | reflexivity].
    + intros k. rewrite keys_push_at. split; [tauto |].
      intros [Hin | ->]; [exact Hin |].
      destruct (in_dec string_dec (node_id p) (map fst nd)) as [Hi | Hn]; [exact Hi |].
      apply get_own_None in Hn. congruence.
  - destruct (inherited (node_id p)); [discriminate |]. intros [= <-]. split.
    + intros k. unfold points_of.
      rewrite get_own_push_at, get_own_app_one, (String.eqb_sym (node_id p) k).
      destruct (get_own nd k) as [v |] eqn:Ek.
      * destruct (String.eqb_spec k (node_id p)) as [-> | _];
          [congruence | now rewrite app_nil_r].
      * destruct (k =? node_id p)%string; reflexivity.
    + intros k. rewrite keys_push_at, map_app, in_app_iff. cbn [map fst In]. intuition.
Qed.

Lemma group_fold_None (pts : list TimeSeriesPoint) : fold_left group_step pts None = None.
Proof. induction pts as [| p pts IH]; [reflexivity | exact IH]. Qed.

Lemma group_fold_points (pts : list TimeSeriesPoint) (nd nd' : JsObject (list TimeSeriesPoint)) :
  fold_left group_step pts (Some nd) = Some nd' ->
  (forall k, points_of nd' k
             = (points_of nd k ++ filter (fun p => (node_id p =? k)%string) pts)%list)
  /\ (forall k, In k (map fst nd') <-> In k (map fst nd) \/ In k (map node_id pts)).
Proof.
  revert nd. induction pts as [| p pts IH]; intros nd Hfold.
  - injection Hfold as <-. split; intros k; [now rewrite app_nil_r | cbn; tauto].
  - cbn [fold_left] in Hfold.
    destruct (group_step (Some nd) p) as [nd1 |] eqn:Estep;
      [| now rewrite group_fold_None in Hfold].
    destruct (group_step_points nd nd1 p Estep) as [Hp1 Hk1].
    destruct (IH nd1 Hfold) as [Hp Hk]. split; intros k.
    + rewrite Hp, Hp1, <- app_assoc. cbn [filter].
      destruct (node_id p =? k)%string; reflexivity.
    + rewrite Hk, Hk1. cbn [map In]. intuition.
Qed.

(** The grouping loop runs to its end unless a [node_id] names a property
    of [Object.prototype]. *)
Lemma group_fold_total (pts : list TimeSeriesPoint) (nd : JsObject (list TimeSeriesPoint)) :
  (forall p, In p pts -> inherited (node_id p) = false) ->
  exists nd', fold_left group_step pts (Some nd) = Some nd'.
Proof.
  revert nd. induction pts as [| p pts IH]; intros nd Hok; [now exists nd |].
  cbn [fold_left]. unfold group_step at 2.
  destruct (get_own nd (node_id p)); [apply IH; intros; apply Hok; now right |].
  rewrite (Hok p (or_introl eq_refl)). apply IH; intros; apply Hok; now right.
Qed.

Lemma insert_index_In (n : N) (k : string) (l : list (N * string)) (x : N * string) :
  In x (insert_index n k l) <-> x = (n, k) \/ In x l.
Proof.
  induction l as [| [m k'] l IH]; cbn [insert_index In].
  - intuition.
  - destruct (n <=? m)%N; cbn [In]; [intuition | rewrite IH; intuition].
Qed.

(** [Object.keys] lists every own key, and nothing else. *)
Lemma Object_keys_In {A : Type} (o : JsObject A) (k : string) :
  In k (Object_keys o) <-> In k (map fst o).
Proof.
  unfold Object_keys. rewrite in_app_iff, filter_In.
  assert (Hidx : In k (map snd (fold_right (fun kv acc =>
                    match array_index (fst kv) with
                    | Some n => insert_index n (fst kv) acc
                    | None => acc
                    end) [] o))
                 <-> In k (map fst o) /\ array_index k <> None).
  { induction o as [| [k0 v] o IH]; cbn [fold_right map fst In]; [tauto |].
    destruct (array_index k0) as [n |] eqn:E.
    - rewrite in_map_iff. split.
      + intros [[m k1] [Hs Hin]]. cbn [snd] in Hs. subst k1.
        apply insert_index_In in Hin. destruct Hin as [[= -> ->] | Hin].
        * split; [now left | congruence].
        * assert (Hk : In k (map snd (fold_right (fun kv acc =>
                    match array_index (fst kv) with
                    | Some n => insert_index n (fst kv) acc
                    | None => acc
                    end) [] o))) by (apply in_map_iff; now exists (m, k)).
          apply IH in Hk. tauto.
      + intros [[-> | Hin] Hsome].
        * exists (n, k). split; [reflexivity | apply insert_index_In; now left].
        * pose proof (proj2 IH (conj Hin Hsome)) as Hk.
          apply in_map_iff in Hk. destruct Hk as [x [Hs Hx]].
          exists x. split; [exact Hs | apply insert_index_In; now right].
    - rewrite IH. split; [tauto |]. intros [[-> | Hin] Hsome]; [congruence | tauto]. }
  rewrite Hidx. destruct (array_index k); split; intuition congruence.
Qed.

Lemma grouped_points (pts : list TimeSeriesPoint) (nd : JsObject (list TimeSeriesPoint))
    (metric : TimeSeriesPoint -> jsval) (k : string) :
  group_by_node pts = Some nd ->
  map metric (points_of nd k) = node_values metric pts k.
Proof.
  intros Hg. destruct (group_fold_points pts [] nd Hg) as [Hp _].
  now rewrite Hp.
Qed.

Lemma grouped_keys (pts : list TimeSeriesPoint) (nd : JsObject (list TimeSeriesPoint))
    (k : string) :
  group_by_node pts = Some nd ->
  In k (Object_keys nd) <-> In k (map node_id pts).
Proof.
  intros Hg. destruct (group_fold_points pts [] nd Hg) as [_ Hk].
  rewrite Object_keys_In, Hk. cbn. tauto.
Qed.

Ltac metric_in := unfold metrics; cbn [In]; tauto.

(** ** Sanity runs of the host-language helpers *)

(** [14.3 / 100] is [0.14300000000000002] and [2.5 / 100] is the double
    of [0.025]: the quotients are rounded to 53 bits. *)
Example divide_by_100_rounds :
  divide_by_100 (143 # 10) = 644014746713981 # 4503599627370496
  /\ divide_by_100 (25 # 10) = 3602879701896397 # 144115188075855872
  /\ divide_by_100 (Number_of (143 # 10)) = divide_by_100 (143 # 10)
  /\ divide_by_100 0 = 0%Q.
Proof. repeat split; vm_compute; reflexivity. Qed.

Example Object_keys_order :
  Object_keys [("b", 1); ("10", 2); ("a", 3); ("2", 4); ("02", 5)]
  = ["2"; "10"; "b"; "a"; "02"].
Proof. reflexivity. Qed.

Example labels_agree :
  let a := ["10:00"; "11:00"; "10:00"; "12:00"; "11:00"] in
  Set_spread [] a = ["10:00"; "11:00"; "12:00"] /\ filter_first a = Set_spread [] a.
Proof. split; reflexivity. Qed.

Example grouping_throws_on_inherited_name :
  group_by_node [point "A" "2024-01-01T10:00" 20; point "constructor" "2024-01-01T10:00" 1]
  = None.
Proof. reflexivity. Qed.

Example evict_twelve :
  let c := map (fun ts => Item (reading "n1" ts))
             ["12"; "11"; "10"; "09"; "08"; "07"; "06"; "05"; "04"; "03"; "02"; "01"] in
  App2.evict (List.length c) c = firstn 10 c.
Proof. reflexivity. Qed.

Example form_urlencode_space : form_urlencode "a b~c" = "a+b%7Ec".
Proof. reflexivity. Qed.

(** * Further properties of the code *)

From Stdlib Require Import Permutation Sorted.

(** ** Labels and node order of the charts *)

Lemma existsb_eqb_In (x : string) (l : list string) :
  existsb (String.eqb x) l = true <-> In x l.
Proof.
  rewrite existsb_exists. split.
  - intros [y [Hy Heq]]. apply String.eqb_eq in Heq. now subst.
  - intros Hin. exists x. split; [exact Hin | apply String.eqb_refl].
Qed.

(** [Set_spread] looks at [seen] only through membership. *)
Lemma Set_spread_ext (a seen seen' : list string) :
  (forall x, In x seen <-> In x seen') -> Set_spread seen a = Set_spread seen' a.
Proof.
  revert seen seen'. induction a as [| x a IH]; intros seen seen' Hsame; [reflexivity |].
  cbn [Set_spread].
  assert (Hx : existsb (String.eqb x) seen = existsb (String.eqb x) seen').
  { apply eq_true_iff_eq. rewrite !existsb_eqb_In. apply Hsame. }
  rewrite Hx. destruct (existsb (String.eqb x) seen').
  - now apply IH.
  - f_equal. apply IH. intros y. cbn [In]. now rewrite Hsame.
Qed.

Lemma Set_spread_In (a seen : list string) (x : string) :
  In x (Set_spread seen a) <-> In x a /\ ~ In x seen.
Proof.
  revert seen. induction a as [| y a IH]; intros seen; cbn [Set_spread In]; [tauto |].
  destruct (existsb (String.eqb y) seen) eqn:E.
  - apply existsb_eqb_In in E. rewrite IH. split; [tauto |].
    intros [[-> | Hin] Hn]; [contradiction | tauto].
  - assert (Hy : ~ In y seen) by (rewrite <- existsb_eqb_In, E; discriminate).
    cbn [In]. rewrite IH. cbn [In]. split.
    + intros [-> | [Hin Hn]]; [tauto | tauto].
    + intros [[-> | Hin] Hn]; [now left |].
      destruct (string_dec y x) as [-> | Hne]; [now left | right; tauto].
Qed.

Lemma Set_spread_NoDup (a seen : list string) : NoDup (Set_spread seen a).
Proof.
  revert seen. induction a as [| y a IH]; intros seen; cbn [Set_spread]; [constructor |].
  destruct (existsb (String.eqb y) seen); [apply IH |].
  constructor; [| apply IH].
  rewrite Set_spread_In. cbn [In]. tauto.
Qed.

Lemma indexOf_app_fresh (pre rest : list string) (v : string) :
  ~ In v pre -> indexOf (pre ++ v :: rest) v = List.length pre.
Proof.
  induction pre as [| x pre IH]; intros Hn; cbn [app indexOf List.length].
  - now rewrite String.eqb_refl.
  - destruct (String.eqb_spec x v) as [-> | _]; [elim Hn; now left |].
    f_equal. apply IH. intros Hin. apply Hn. now right.
Qed.

Lemma indexOf_app_seen (pre rest : list string) (v : string) :
  In v pre -> (indexOf (pre ++ rest) v < List.length pre)%nat.
Proof.
  induction pre as [| x pre IH]; intros Hin; [destruct Hin |].
  cbn [app indexOf List.length]. destruct (String.eqb_spec x v) as [-> | Hne]; [lia |].
  destruct Hin as [-> | Hin]; [congruence |]. specialize (IH Hin). lia.
Qed.

Lemma filter_first_from_spread (pre rest seen : list string) :
  (forall x, In x seen <-> In x pre) ->
  filter_first_from (pre ++ rest) (List.length pre) rest = Set_spread seen rest.
Proof.
  revert pre seen. induction rest as [| v rest IH]; intros pre seen Hsame; [reflexivity |].
  cbn [filter_first_from Set_spread].
  assert (Hstep : (pre ++ v :: rest = (pre ++ [v]) ++ rest)%list)
    by now rewrite <- app_assoc.
  assert (Hlen : S (List.length pre) = List.length (pre ++ [v])%list)
    by (rewrite length_app; cbn; lia).
  destruct (existsb (String.eqb v) seen) eqn:E.
  - apply existsb_eqb_In in E. apply Hsame in E.
    pose proof (indexOf_app_seen pre (v :: rest) v E) as Hlt.
    destruct (Nat.eqb_spec (indexOf (pre ++ v :: rest) v) (List.length pre)); [lia |].
    rewrite Hstep, Hlen. apply IH. intros x.
    rewrite in_app_iff, Hsame. cbn [In]. split; [tauto |].
    intros [Hx | [<- | []]]; assumption.
  - assert (Hn : ~ In v pre).
    { rewrite <- Hsame, <- existsb_eqb_In, E. discriminate. }
    rewrite (indexOf_app_fresh pre rest v Hn), Nat.eqb_refl. f_equal.
    rewrite Hstep, Hlen. apply IH. intros x.
    rewrite in_app_iff. cbn [In]. rewrite Hsame. tauto.
Qed.

(** X1. The two listings remove duplicate labels in the same way:
    [a.filter((v, i, a) => a.indexOf(v) === i)] of the second gives what
    [[...new Set(a)]] of the first gives, the distinct values in order of
    first occurrence. So in either listing the label axis has no repeated
    label, holds exactly the formatted timestamps of the rows and is never
    longer than the input; it is empty only for an empty input. *)
Theorem X1_labels_distinct_first_occurrence `{Host} (a : list string)
    (pts : list TimeSeriesPoint) :
  filter_first a = Set_spread [] a
  /\ NoDup (App1.chart_labels pts)
  /\ NoDup (App2.chart_labels pts)
  /\ (forall l, In l (App1.chart_labels pts)
                <-> exists p, In p pts /\ toLocaleString (p_timestamp p) = l)
  /\ (List.length (App1.chart_labels pts) <= List.length pts)%nat
  /\ (forall l, In l (App2.chart_labels pts)
                <-> exists p, In p pts /\ toLocaleTimeString (p_timestamp p) = l)
  /\ (List.length (App2.chart_labels pts) <= List.length pts)%nat
  /\ (App1.chart_labels pts = [] <-> pts = [])
  /\ (App2.chart_labels pts = [] <-> pts = []).
Proof.
  assert (Hff : forall b, filter_first b = Set_spread [] b).
  { intros b. unfold filter_first.
    apply (filter_first_from_spread [] b []). tauto. }
  assert (Hin : forall (f : TimeSeriesPoint -> string) l,
            In l (Set_spread [] (map f pts)) <-> exists p, In p pts /\ f p = l).
  { intros f l. rewrite Set_spread_In, in_map_iff. cbn [In].
    split; [intros [[p [Hl Hp]] _]; eauto | intros [p [Hp Hl]]; split; [eauto | tauto]]. }
  assert (Hlen : forall (f : TimeSeriesPoint -> string),
            (List.length (Set_spread [] (map f pts)) <= List.length pts)%nat).
  { intros f. rewrite <- (length_map f pts).
    apply NoDup_incl_length; [apply Set_spread_NoDup |].
    intros x Hx. now apply Set_spread_In in Hx. }
  assert (Hnil : forall (f : TimeSeriesPoint -> string),
            Set_spread [] (map f pts) = [] <-> pts = []).
  { intros f. split; [| now intros ->].
    intros Hemp. destruct pts as [| p ps]; [reflexivity |].
    assert (Hp : In (f p) (Set_spread [] (map f (p :: ps)))).
    { apply Hin. exists p. split; [now left | reflexivity]. }
    rewrite Hemp in Hp. destruct Hp. }
  split; [apply Hff |].
  unfold App2.chart_labels. rewrite Hff. unfold App1.chart_labels.
  split; [apply Set_spread_NoDup |].
  split; [apply Set_spread_NoDup |].
  split; [apply Hin |].
  split; [apply Hlen |].
  split; [apply Hin |].
  split; [apply Hlen |].
  split; apply Hnil.
Qed.

(** ** The node partitions *)

(** The own keys of [nodeData] grow in order of first appearance. *)
Lemma group_fold_keys (pts : list TimeSeriesPoint) (nd nd' : JsObject (list TimeSeriesPoint)) :
  fold_left group_step pts (Some nd) = Some nd' ->
  map fst nd' = (map fst nd ++ Set_spread (map fst nd) (map node_id pts))%list.
Proof.
  revert nd. induction pts as [| p pts IH]; intros nd Hfold.
  - injection Hfold as <-. cbn. now rewrite app_nil_r.
  - cbn [fold_left] in Hfold.
    destruct (group_step (Some nd) p) as [nd1 |] eqn:Estep;
      [| now rewrite group_fold_None in Hfold].
    rewrite (IH nd1 Hfold). cbn [map Set_spread].
    unfold group_step in Estep.
    destruct (get_own nd (node_id p)) as [ps |] eqn:E.
    + injection Estep as <-. rewrite keys_push_at.
      assert (Hin : In (node_id p) (map fst nd)).
      { destruct (in_dec string_dec (node_id p) (map fst nd)) as [Hi | Hn]; [exact Hi |].
        apply get_own_None in Hn. congruence. }
      apply existsb_eqb_In in Hin. now rewrite Hin.
    + destruct (inherited (node_id p)); [discriminate |]. injection Estep as <-.
      apply get_own_None in E.
      assert (Hout : existsb (String.eqb (node_id p)) (map fst nd) = false).
      { apply not_true_is_false. now rewrite existsb_eqb_In. }
      rewrite Hout, keys_push_at, map_app, <- app_assoc. cbn [map fst app].
      do 2 f_equal. apply Set_spread_ext. intros x.
      rewrite in_app_iff. cbn [In]. tauto.
Qed.

Lemma grouped_own_keys (pts : list TimeSeriesPoint) (nd : JsObject (list TimeSeriesPoint)) :
  group_by_node pts = Some nd -> map fst nd = node_ids pts.
Proof. intros Hg. exact (group_fold_keys pts [] nd Hg). Qed.

Lemma insert_index_Permutation (n : N) (k : string) (l : list (N * string)) :
  Permutation (insert_index n k l) ((n, k) :: l).
Proof.
  induction l as [| [m k'] l IH]; cbn [insert_index]; [reflexivity |].
  destruct (n <=? m)%N; [reflexivity |].
  rewrite IH. apply perm_swap.
Qed.

Lemma filter_split_Permutation {A : Type} (f : A -> bool) (l : list A) :
  Permutation (filter f l ++ filter (fun x => negb (f x)) l) l.
Proof.
  induction l as [| x l IH]; [reflexivity |].
  cbn [filter]. destruct (f x); cbn [negb app].
  - now apply perm_skip.
  - symmetry. apply Permutation_cons_app. now symmetry.
Qed.

(** [Object.keys] reorders the own keys: none is lost, none is doubled. *)
Lemma Object_keys_Permutation {A : Type} (o : JsObject A) :
  Permutation (Object_keys o) (map fst o).
Proof.
  unfold Object_keys.
  assert (Hidx : Permutation
            (map snd (fold_right (fun kv acc =>
                 match array_index (fst kv) with
                 | Some n => insert_index n (fst kv) acc
                 | None => acc
                 end) [] o))
            (filter (fun k => match array_index k with Some _ => true | None => false end)
                    (map fst o))).
  { induction o as [| [k v] o IH]; [reflexivity |].
    cbn [fold_right map fst filter]. destruct (array_index k) as [n |].
    - rewrite insert_index_Permutation. cbn [map snd]. now apply perm_skip.
    - exact IH. }
  rewrite Hidx.
  etransitivity; [| apply (filter_split_Permutation
     (fun k => match array_index k with Some _ => true | None => false end))].
  apply Permutation_app_head.
  assert (Hnamed : filter (fun k => match array_index k with Some _ => false | None => true end)
                          (map fst o)
                   = filter (fun k => negb match array_index k with
                                           | Some _ => true
                                           | None => false
                                           end) (map fst o)).
  { apply filter_ext. intros k. now destruct (array_index k). }
  now rewrite Hnamed.
Qed.

(** With no key that is an array index the order is the insertion order. *)
Lemma Object_keys_named {A : Type} (o : JsObject A) :
  (forall k, In k (map fst o) -> array_index k = None) -> Object_keys o = map fst o.
Proof.
  intros Hnamed. unfold Object_keys.
  assert (Hidx : fold_right (fun (kv : string * A) acc =>
                 match array_index (fst kv) with
                 | Some n => insert_index n (fst kv) acc
                 | None => acc
                 end) [] o = []).
  { induction o as [| [k v] o IH]; [reflexivity |]. cbn [fold_right fst].
    rewrite (Hnamed k) by now left. apply IH. intros k' Hk'. apply Hnamed. now right. }
  rewrite Hidx. cbn [map app].
  induction (map fst o) as [| k ks IH]; [reflexivity |].
  cbn [filter]. rewrite (Hnamed k) by now left. f_equal. apply IH.
  intros k' Hk'. apply Hnamed. now right.
Qed.

Lemma datasets_for_labels (nd : JsObject (list TimeSeriesPoint))
    (metric : TimeSeriesPoint -> jsval) :
  map label (App1.datasets_for nd metric) = Object_keys nd.
Proof.
  unfold App1.datasets_for. rewrite map_map. cbn [label]. apply map_id.
Qed.

(** The charts of the first listing after an update that returns. *)
Lemma updateCharts1_charts `{Host} (pts : list TimeSeriesPoint) (w w1 : World)
    (nd : JsObject (list TimeSeriesPoint)) :
  pts <> [] -> group_by_node pts = Some nd ->
  App1.updateCharts pts w = Normal w1 ->
  forall name cd, In (name, cd) (charts w1) ->
    exists metric, In metric metrics
      /\ cd = mkChartData (App1.chart_labels pts) (App1.datasets_for nd metric).
Proof.
  intros Hne Hg Hrun name cd Hin. unfold App1.updateCharts in Hrun.
  destruct pts as [| p0 ps]; [now elim Hne |]. rewrite Hg in Hrun.
  injection Hrun as <-. cbn [charts set_charts In] in Hin.
  destruct Hin as [[= _ <-] | [[= _ <-] | [[= _ <-] | [[= _ <-] | [[= _ <-] | []]]]]];
    eexists; (split; [| reflexivity]); metric_in.
Qed.

(** ** Series aggregation: what each dataset holds *)

Lemma append_empty (s : string) : (s ++ "")%string = s.
Proof. induction s as [| c s IH]; cbn; [reflexivity | now rewrite IH]. Qed.

Lemma Object_keys_count (pts : list TimeSeriesPoint) (nd : JsObject (list TimeSeriesPoint)) :
  group_by_node pts = Some nd ->
  List.length (Object_keys nd) = List.length (node_ids pts).
Proof.
  intros Hg. rewrite <- (grouped_own_keys pts nd Hg).
  apply Permutation_length, Object_keys_Permutation.
Qed.

Lemma flat_map_count {A B : Type} (f : A -> list B) (n : nat) (l : list A) :
  (forall x, List.length (f x) = n) ->
  List.length (flat_map f l) = (List.length l * n)%nat.
Proof.
  intros Hf. induction l as [| x l IH]; [reflexivity |].
  cbn [flat_map List.length]. rewrite length_app, Hf, IH. lia.
Qed.

Lemma in_combine_seq {A : Type} (x : A) (l : list A) (start : nat) :
  In x l -> exists i, In (x, i) (combine l (seq start (List.length l))).
Proof.
  revert start. induction l as [| y l IH]; intros start; [intros [] |].
  intros [-> | Hin]; cbn [List.length seq combine In].
  - eexists. left. reflexivity.
  - destruct (IH (S start) Hin) as [i Hi]. exists i. now right.
Qed.

(** The datasets of a chart of the first listing. *)
Lemma datasets_for_plots (pts : list TimeSeriesPoint) (nd : JsObject (list TimeSeriesPoint))
    (metric : TimeSeriesPoint -> jsval) :
  group_by_node pts = Some nd ->
  plots pts [("", metric)] (App1.datasets_for nd metric).
Proof.
  intros Hg. unfold App1.datasets_for. split; [| split].
  - intros d Hd. apply in_map_iff in Hd. destruct Hd as [k [<- Hk]]. cbn [label data].
    exists k, "", metric. rewrite append_empty.
    split; [now apply (grouped_keys pts nd) |].
    split; [now left | split; [reflexivity | now apply grouped_points]].
  - intros k text metric' Hk [[= <- <-] | []]. rewrite append_empty.
    eexists. split; [apply in_map_iff; exists k; split; [reflexivity |] |].
    + now apply (grouped_keys pts nd).
    + cbn [label data]. split; [reflexivity | now apply grouped_points].
  - rewrite length_map, (Object_keys_count pts nd Hg). cbn [List.length]. lia.
Qed.

(** The datasets of the three charts of the second listing. *)
Lemma tempHumidityDatasets_plots (pts : list TimeSeriesPoint)
    (nd : JsObject (list TimeSeriesPoint)) :
  group_by_node pts = Some nd ->
  plots pts [(" - Temp", avg_temp); (" - Humidity", avg_humidity)]
    (App2.tempHumidityDatasets nd).
Proof.
  intros Hg. unfold App2.tempHumidityDatasets. split; [| split].
  - intros d Hd. apply in_flat_map in Hd. destruct Hd as [[k i] [Hk Hd]].
    apply in_combine_l in Hk. apply (grouped_keys pts nd k Hg) in Hk.
    cbn [fst snd In] in Hd. destruct Hd as [<- | [<- | []]]; cbn [label data].
    + exists k, " - Temp", avg_temp.
      split; [exact Hk | split; [now left | split; [reflexivity | now apply grouped_points]]].
    + exists k, " - Humidity", avg_humidity.
      split; [exact Hk |].
      split; [right; now left | split; [reflexivity | now apply grouped_points]].
  - intros k text metric Hk Hs. apply (grouped_keys pts nd k Hg) in Hk.
    destruct (in_combine_seq k (Object_keys nd) 0 Hk) as [i Hi].
    destruct Hs as [[= <- <-] | [[= <- <-] | []]].
    + eexists. split.
      * apply in_flat_map. exists (k, i). split; [exact Hi |]. cbn [fst snd]. left. reflexivity.
      * cbn [label data]. split; [reflexivity | now apply grouped_points].
    + eexists. split.
      * apply in_flat_map. exists (k, i). split; [exact Hi |]. cbn [fst snd].
        right. left. reflexivity.
      * cbn [label data]. split; [reflexivity | now apply grouped_points].
  - rewrite (flat_map_count _ 2) by reflexivity.
    rewrite length_combine, length_seq, Nat.min_id, (Object_keys_count pts nd Hg).
    reflexivity.
Qed.

Lemma soilSunDatasets_plots (pts : list TimeSeriesPoint)
    (nd : JsObject (list TimeSeriesPoint)) :
  group_by_node pts = Some nd ->
  plots pts [(" - Soil Moisture", avg_soil_moisture); (" - Light", avg_lux)]
    (App2.soilSunDatasets nd).
Proof.
  intros Hg. unfold App2.soilSunDatasets. split; [| split].
  - intros d Hd. apply in_flat_map in Hd. destruct Hd as [k [Hk Hd]].
    apply (grouped_keys pts nd k Hg) in Hk.
    cbn [In] in Hd. destruct Hd as [<- | [<- | []]]; cbn [label data].
    + exists k, " - Soil Moisture", avg_soil_moisture.
      split; [exact Hk | split; [now left | split; [reflexivity | now apply grouped_points]]].
    + exists k, " - Light", avg_lux.
      split; [exact Hk |].
      split; [right; now left | split; [reflexivity | now apply grouped_points]].
  - intros k text metric Hk Hs. apply (grouped_keys pts nd k Hg) in Hk.
    destruct Hs as [[= <- <-] | [[= <- <-] | []]].
    + eexists. split.
      * apply in_flat_map. exists k. split; [exact Hk |]. left. reflexivity.
      * cbn [label data]. split; [reflexivity | now apply grouped_points].
    + eexists. split.
      * apply in_flat_map. exists k. split; [exact Hk |]. right. left. reflexivity.
      * cbn [label data]. split; [reflexivity | now apply grouped_points].
  - rewrite (flat_map_count _ 2) by reflexivity.
    now rewrite (Object_keys_count pts nd Hg).
Qed.

Lemma voltageDatasets_plots (pts : list TimeSeriesPoint)
    (nd : JsObject (list TimeSeriesPoint)) :
  group_by_node pts = Some nd ->
  plots pts [(" - Voltage", avg_voltage)] (App2.voltageDatasets nd).
Proof.
  intros Hg. unfold App2.voltageDatasets. split; [| split].
  - intros d Hd. apply in_map_iff in Hd. destruct Hd as [k [<- Hk]]. cbn [label data].
    exists k, " - Voltage", avg_voltage.
    split; [now apply (grouped_keys pts nd) |].
    split; [now left | split; [reflexivity | now apply grouped_points]].
  - intros k text metric Hk [[= <- <-] | []].
    eexists. split; [apply in_map_iff; exists k; split; [reflexivity |] |].
    + now apply (grouped_keys pts nd).
    + cbn [label data]. split; [reflexivity | now apply grouped_points].
  - rewrite length_map, (Object_keys_count pts nd Hg). cbn [List.length]. lia.
Qed.

(** C4, as the code has it. After an update with a non-empty input the
    page has the charts of the listing and no other, and in each chart
    every node of the input has, for each average the chart plots, one
    dataset under its own label that holds the values of that node's input
    rows for that average, in input order and nothing else: one value per
    row of the node, a [null] average staying [null]. There is no other
    dataset. The arrays are not laid out along the label axis: no gap is
    put where a node has no row for a label. *)
Theorem C4_series_values `{Host} (pts : list TimeSeriesPoint) (w : World) :
  pts <> [] ->
  (forall p, In p pts -> inherited (node_id p) = false) ->
  (exists w1, App1.updateCharts pts w = Normal w1
     /\ map fst (charts w1) = map fst series1
     /\ forall name series, In (name, series) series1 ->
          exists cd, In (name, cd) (charts w1)
            /\ labels cd = App1.chart_labels pts
            /\ plots pts series (datasets cd))
  /\ (exists w2, App2.updateCharts pts w = Normal w2
        /\ map fst (charts w2) = map fst series2
        /\ forall name series, In (name, series) series2 ->
             exists cd, In (name, cd) (charts w2)
               /\ labels cd = App2.chart_labels pts
               /\ plots pts series (datasets cd)).
Proof.
  intros Hne Hok.
  destruct (group_fold_total pts [] Hok) as [nd Hg].
  change (group_by_node pts = Some nd) in Hg.
  pose proof (fun metric => datasets_for_plots pts nd metric Hg) as H1.
  pose proof (tempHumidityDatasets_plots pts nd Hg) as H2.
  pose proof (soilSunDatasets_plots pts nd Hg) as H3.
  pose proof (voltageDatasets_plots pts nd Hg) as H4.
  destruct pts as [| p0 ps]; [now elim Hne |].
  split.
  - eexists. unfold App1.updateCharts. rewrite Hg.
    split; [reflexivity | split; [reflexivity |]].
    intros name series Hin. cbn [charts set_charts].
    destruct Hin as [[= <- <-] | [[= <- <-] | [[= <- <-] | [[= <- <-] | [[= <- <-] | []]]]]];
      eexists; (split; [cbn [In]; eauto 6 |]); cbn [labels datasets];
      (split; [reflexivity | apply H1]).
  - eexists. unfold App2.updateCharts. rewrite Hg.
    split; [reflexivity | split; [reflexivity |]].
    intros name series Hin. cbn [charts set_charts].
    destruct Hin as [[= <- <-] | [[= <- <-] | [[= <- <-] | []]]];
      eexists; (split; [cbn [In]; eauto 6 |]); cbn [labels datasets];
      (split; [reflexivity | assumption]).
Qed.

(** C4 on the three rows: in the temperature chart the dataset labelled B
    holds the one value of B, and the chart has two datasets. *)
Lemma C4_series_values_witness :
  exists w1,
    App1.updateCharts (H := ExampleHost.host) three_rows (initial "24" "temp") = Normal w1
    /\ exists cd, In ("temperature", cd) (charts w1)
         /\ (exists d, In d (datasets cd) /\ label d = "B" /\ data d = [JNum 30])
         /\ List.length (datasets cd) = 2%nat.
Proof.
  assert (Hne : three_rows <> []) by discriminate.
  assert (Hok : forall p, In p three_rows -> inherited (node_id p) = false).
  { intros p [<- | [<- | [<- | []]]]; reflexivity. }
  destruct (proj1 (C4_series_values (H := ExampleHost.host) three_rows
                     (initial "24" "temp") Hne Hok)) as [w1 [Hrun [_ Hall]]].
  exists w1. split; [exact Hrun |].
  destruct (Hall "temperature" [("", avg_temp)]) as [cd [Hin [_ [_ [Hall_k Hlen]]]]].
  { cbn. tauto. }
  exists cd. split; [exact Hin | split; [| exact Hlen]].
  destruct (Hall_k "B" "" avg_temp) as [d [Hd [Hl Hv]]].
  { cbn. tauto. }
  { now left. }
  exists d. split; [exact Hd | split; [exact Hl | exact Hv]].
Defined.

(** C4 as stated fails: the label axis has two positions, the array of node
    B has one value, and it sits at the first position, under the label
    10:00 for which B has no row, where the claim wants a null. *)
Lemma C4_counterexample :
  match App1.updateCharts (H := ExampleHost.host) three_rows (initial "24" "temp") with
  | Normal w1 =>
      get_own (charts w1) "temperature"
      = Some (mkChartData
                ["2024-01-01T10:00"; "2024-01-01T11:00"]
                [ mkDataset "A" [JNum 20; JNum 21] "rgba(59, 130, 246, 1)";
                  mkDataset "B" [JNum 30] "rgba(239, 68, 68, 1)" ])
  | Throw _ _ => False
  end
  /\ match App2.updateCharts (H := ExampleHost.host) three_rows (initial "24" "temp") with
     | Normal w2 =>
         exists cd, get_own (charts w2) "tempHumidity" = Some cd
           /\ List.length (labels cd) = 2%nat
           /\ In (mkDataset "B - Temp" [JNum 30] "rgba(59, 130, 246, 1)") (datasets cd)
     | Throw _ _ => False
     end.
Proof.
  split.
  - reflexivity.
  - eexists. split; [reflexivity | split; [reflexivity |]]. cbn. tauto.
Qed.

(** X2. Each chart of the first listing gets one dataset per distinct node
    of the input, labelled with the node id. The datasets stand in the
    order [Object.keys] gives: a reordering of first appearance, and first
    appearance itself when no node id is an array index (a canonical
    decimal number). *)
Theorem X2_one_dataset_per_node `{Host} (pts : list TimeSeriesPoint) (w w1 : World) :
  pts <> [] ->
  App1.updateCharts pts w = Normal w1 ->
  forall name cd, In (name, cd) (charts w1) ->
    Permutation (map label (datasets cd)) (node_ids pts)
    /\ NoDup (map label (datasets cd))
    /\ List.length (datasets cd) = List.length (node_ids pts)
    /\ ((forall p, In p pts -> array_index (node_id p) = None) ->
        map label (datasets cd) = node_ids pts).
Proof.
  intros Hne Hrun name cd Hin.
  destruct (group_by_node pts) as [nd |] eqn:Hg.
  2: { unfold App1.updateCharts in Hrun. destruct pts; [now elim Hne |].
       rewrite Hg in Hrun. discriminate. }
  destruct (updateCharts1_charts pts w w1 nd Hne Hg Hrun name cd Hin) as [metric [_ ->]].
  cbn [datasets]. rewrite datasets_for_labels.
  pose proof (grouped_own_keys pts nd Hg) as Hkeys.
  assert (Hperm : Permutation (Object_keys nd) (node_ids pts)).
  { rewrite <- Hkeys. apply Object_keys_Permutation. }
  split; [exact Hperm | split; [| split]].
  - apply (Permutation_NoDup (l := node_ids pts)); [now symmetry | apply Set_spread_NoDup].
  - rewrite <- (length_map label), datasets_for_labels. now apply Permutation_length.
  - intros Hnamed. rewrite <- Hkeys. apply Object_keys_named.
    intros k Hk. rewrite Hkeys in Hk. unfold node_ids in Hk.
    apply Set_spread_In in Hk. destruct Hk as [Hk _].
    apply in_map_iff in Hk. destruct Hk as [p [<- Hp]]. now apply Hnamed.
Qed.

(** X2 on the three rows: the datasets are those of A and of B. *)
Lemma X2_one_dataset_per_node_witness :
  let w1 := world_of (App1.updateCharts (H := ExampleHost.host) three_rows
                        (initial "24" "temp")) in
  Forall (fun nc => map label (datasets (snd nc)) = ["A"; "B"]) (charts w1).
Proof.
  intros w1. apply Forall_forall. intros [name cd] Hin.
  assert (Hne : three_rows <> []) by discriminate.
  assert (Hrun : App1.updateCharts (H := ExampleHost.host) three_rows (initial "24" "temp")
                 = Normal w1) by reflexivity.
  refine (proj2 (proj2 (proj2 (X2_one_dataset_per_node (H := ExampleHost.host)
            three_rows (initial "24" "temp") w1 Hne Hrun name cd Hin))) _).
  intros p [<- | [<- | [<- | []]]]; reflexivity.
Defined.

Lemma list_sum_cons (x : nat) (l : list nat) : list_sum (x :: l) = (x + list_sum l)%nat.
Proof. reflexivity. Qed.

Lemma list_sum_map_add {A : Type} (f g : A -> nat) (l : list A) :
  list_sum (map (fun x => (f x + g x)%nat) l)
  = (list_sum (map f l) + list_sum (map g l))%nat.
Proof.
  induction l as [| x l IH]; [reflexivity |].
  cbn [map]. rewrite !list_sum_cons, IH. lia.
Qed.

Lemma list_sum_indicator (keys : list string) (x : string) :
  NoDup keys ->
  list_sum (map (fun k => if (x =? k)%string then 1%nat else 0%nat) keys)
  = if in_dec string_dec x keys then 1%nat else 0%nat.
Proof.
  induction keys as [| k keys IH]; intros Hnd; [reflexivity |].
  inversion Hnd as [| k' keys' Hk Hnd']; subst. cbn [map].
  rewrite list_sum_cons, (IH Hnd'). destruct (String.eqb_spec x k) as [-> | Hne].
  - destruct (in_dec string_dec k keys) as [Hin | _]; [contradiction |].
    destruct (in_dec string_dec k (k :: keys)) as [_ | Hn]; [reflexivity |].
    elim Hn. now left.
  - destruct (in_dec string_dec x keys) as [Hin | Hn];
      destruct (in_dec string_dec x (k :: keys)) as [Hin' | Hn']; try reflexivity.
    + elim Hn'. now right.
    + destruct Hin' as [-> | Hin']; [congruence | contradiction].
Qed.

(** Rows spread over distinct keys that cover their nodes are counted once. *)
Lemma partition_count (keys : list string) (pts : list TimeSeriesPoint) :
  NoDup keys -> (forall p, In p pts -> In (node_id p) keys) ->
  list_sum (map (fun k => List.length (filter (fun p => (node_id p =? k)%string) pts)) keys)
  = List.length pts.
Proof.
  intros Hnd. induction pts as [| p pts IH]; intros Hcover.
  - cbn [filter List.length]. induction keys as [| k keys IHk]; [reflexivity |].
    cbn [map]. rewrite list_sum_cons. inversion Hnd; subst. now rewrite IHk.
  - cbn [List.length]. rewrite <- IH by (intros q Hq; apply Hcover; now right).
    erewrite map_ext.
    + rewrite (list_sum_map_add
                 (fun k => if (node_id p =? k)%string then 1%nat else 0%nat)
                 (fun k => List.length (filter (fun q => (node_id q =? k)%string) pts))).
      rewrite (list_sum_indicator keys (node_id p) Hnd).
      destruct (in_dec string_dec (node_id p) keys) as [_ | Hn]; [reflexivity |].
      elim Hn. apply Hcover. now left.
    + intros k. cbn [filter]. now destruct (node_id p =? k)%string.
Qed.

(** X3. In every chart of the first listing the value arrays together hold
    as many values as the input has rows: each row is plotted once per
    metric, none is dropped and none is plotted twice. *)
Theorem X3_every_row_plotted_once `{Host} (pts : list TimeSeriesPoint) (w w1 : World) :
  pts <> [] ->
  App1.updateCharts pts w = Normal w1 ->
  forall name cd, In (name, cd) (charts w1) ->
    list_sum (map (fun d => List.length (data d)) (datasets cd)) = List.length pts.
Proof.
  intros Hne Hrun name cd Hin.
  destruct (group_by_node pts) as [nd |] eqn:Hg.
  2: { unfold App1.updateCharts in Hrun. destruct pts; [now elim Hne |].
       rewrite Hg in Hrun. discriminate. }
  destruct (updateCharts1_charts pts w w1 nd Hne Hg Hrun name cd Hin) as [metric [_ ->]].
  cbn [datasets]. unfold App1.datasets_for. rewrite map_map. cbn [data].
  erewrite map_ext.
  - apply partition_count.
    + apply (Permutation_NoDup (l := map fst nd));
        [symmetry; apply Object_keys_Permutation |].
      rewrite (grouped_own_keys pts nd Hg). apply Set_spread_NoDup.
    + intros p Hp. apply (grouped_keys pts nd _ Hg). now apply in_map.
  - intros k. cbn beta. rewrite (grouped_points pts nd metric k Hg).
    unfold node_values. apply length_map.
Qed.

(** X3 on the three rows: two values for A and one for B in every chart. *)
Lemma X3_every_row_plotted_once_witness :
  let w1 := world_of (App1.updateCharts (H := ExampleHost.host) three_rows
                        (initial "24" "temp")) in
  Forall (fun nc => list_sum (map (fun d => List.length (data d)) (datasets (snd nc))) = 3%nat)
         (charts w1).
Proof.
  intros w1. apply Forall_forall. intros [name cd] Hin.
  assert (Hne : three_rows <> []) by discriminate.
  assert (Hrun : App1.updateCharts (H := ExampleHost.host) three_rows (initial "24" "temp")
                 = Normal w1) by reflexivity.
  exact (X3_every_row_plotted_once (H := ExampleHost.host)
           three_rows (initial "24" "temp") w1 Hne Hrun name cd Hin).
Defined.

Lemma nodeColors_lookup (f : nat -> string) (keys : list string) (s i : nat) :
  NoDup keys -> (i < List.length keys)%nat ->
  get_own (map (fun ki : string * nat => (fst ki, f (snd ki)))
               (combine keys (seq s (List.length keys))))
          (nth i keys "")
  = Some (f (s + i)%nat).
Proof.
  revert s i. induction keys as [| k keys IH]; intros s i Hnd Hi; [cbn in Hi; lia |].
  inversion Hnd as [| k' keys' Hk Hnd']; subst.
  cbn [List.length seq combine map get_own fst snd].
  destruct i as [| i].
  - cbn [nth]. now rewrite String.eqb_refl, Nat.add_0_r.
  - cbn [nth]. cbn [List.length] in Hi.
    destruct (String.eqb_spec (nth i keys "") k) as [Heq | _].
    + elim Hk. rewrite <- Heq. apply nth_In. lia.
    + rewrite IH by (assumption || lia). f_equal. f_equal. lia.
Qed.

(** X4. In every chart of the first listing the dataset at position [i] is
    drawn in colour [i mod 5] of the palette: the colours follow the order
    of the datasets and repeat from the sixth node on. *)
Theorem X4_palette_cycles `{Host} (pts : list TimeSeriesPoint) (w w1 : World) :
  pts <> [] ->
  App1.updateCharts pts w = Normal w1 ->
  forall name cd, In (name, cd) (charts w1) ->
  forall i d0, (i < List.length (datasets cd))%nat ->
    borderColor (nth i (datasets cd) d0) = nth (i mod 5) App1.colorPalette "".
Proof.
  intros Hne Hrun name cd Hin i d0 Hi.
  destruct (group_by_node pts) as [nd |] eqn:Hg.
  2: { unfold App1.updateCharts in Hrun. destruct pts; [now elim Hne |].
       rewrite Hg in Hrun. discriminate. }
  destruct (updateCharts1_charts pts w w1 nd Hne Hg Hrun name cd Hin) as [metric [_ ->]].
  cbn [datasets] in *.
  assert (Hlen : (i < List.length (Object_keys nd))%nat).
  { now rewrite <- (datasets_for_labels nd metric), length_map. }
  assert (Hnd : NoDup (Object_keys nd)).
  { apply (Permutation_NoDup (l := map fst nd));
      [symmetry; apply Object_keys_Permutation |].
    rewrite (grouped_own_keys pts nd Hg). apply Set_spread_NoDup. }
  unfold App1.datasets_for in *.
  rewrite (nth_indep _ d0
             ((fun nodeId => mkDataset nodeId (map metric (points_of nd nodeId))
                 (App1.color_of (App1.nodeColors_of (Object_keys nd)) nodeId)) ""))
    by exact Hi.
  rewrite (map_nth (fun nodeId => mkDataset nodeId (map metric (points_of nd nodeId))
                      (App1.color_of (App1.nodeColors_of (Object_keys nd)) nodeId))).
  cbn [borderColor]. unfold App1.color_of, App1.nodeColors_of.
  now rewrite (nodeColors_lookup
                 (fun n => nth (n mod List.length App1.colorPalette) App1.colorPalette "")
                 (Object_keys nd) 0 i Hnd Hlen).
Qed.

(** X4 on seven nodes: the sixth dataset has the colour of the first. *)
Lemma X4_palette_cycles_witness :
  let w1 := world_of (App1.updateCharts (H := ExampleHost.host) seven_nodes
                        (initial "24" "temp")) in
  Forall (fun nc =>
            borderColor (nth 5 (datasets (snd nc)) (mkDataset "" [] ""))
            = "rgba(59, 130, 246, 1)") (charts w1).
Proof.
  intros w1. apply Forall_forall. intros [name cd] Hin.
  assert (Hne : seven_nodes <> []) by discriminate.
  assert (Hrun : App1.updateCharts (H := ExampleHost.host) seven_nodes (initial "24" "temp")
                 = Normal w1) by reflexivity.
  refine (X4_palette_cycles (H := ExampleHost.host)
            seven_nodes (initial "24" "temp") w1 Hne Hrun name cd Hin 5%nat _ _).
  cbn [charts set_charts In w1 world_of] in Hin. cbn in Hin.
  destruct Hin as [[= _ <-] | [[= _ <-] | [[= _ <-] | [[= _ <-] | [[= _ <-] | []]]]]];
    cbn; lia.
Defined.

(** ** When the chart update throws *)

Lemma group_step_keys_ok (nd nd' : JsObject (list TimeSeriesPoint)) (p : TimeSeriesPoint) :
  (forall k, In k (map fst nd) -> inherited k = false) ->
  group_step (Some nd) p = Some nd' ->
  inherited (node_id p) = false
  /\ (forall k, In k (map fst nd') -> inherited k = false).
Proof.
  intros Hok Hstep.
  destruct (group_step_points nd nd' p Hstep) as [_ Hkeys].
  unfold group_step in Hstep.
  destruct (get_own nd (node_id p)) as [ps |] eqn:E.
  - assert (Hin : In (node_id p) (map fst nd)).
    { destruct (in_dec string_dec (node_id p) (map fst nd)) as [Hi | Hn]; [exact Hi |].
      apply get_own_None in Hn. congruence. }
    split; [now apply Hok |].
    intros k Hk. apply Hkeys in Hk. destruct Hk as [Hk | ->]; now apply Hok.
  - destruct (inherited (node_id p)) eqn:Ei; [discriminate |].
    split; [reflexivity |].
    intros k Hk. apply Hkeys in Hk. destruct Hk as [Hk | ->]; [now apply Hok | exact Ei].
Qed.

Lemma group_fold_throws (pts : list TimeSeriesPoint) (nd : JsObject (list TimeSeriesPoint)) :
  (forall k, In k (map fst nd) -> inherited k = false) ->
  (fold_left group_step pts (Some nd) = None
   <-> exists p, In p pts /\ inherited (node_id p) = true).
Proof.
  revert nd. induction pts as [| p pts IH]; intros nd Hok.
  - cbn. split; [discriminate | intros [p [[] _]]].
  - cbn [fold_left]. destruct (group_step (Some nd) p) as [nd1 |] eqn:Estep.
    + destruct (group_step_keys_ok nd nd1 p Hok Estep) as [Hp Hok1].
      rewrite (IH nd1 Hok1). split.
      * intros [q [Hq Hi]]. exists q. split; [now right | exact Hi].
      * intros [q [[<- | Hq] Hi]]; [congruence | eauto].
    + rewrite group_fold_None. split; [intros _ | reflexivity].
      exists p. split; [now left |].
      unfold group_step in Estep.
      destruct (get_own nd (node_id p)); [discriminate |].
      now destruct (inherited (node_id p)).
Qed.

(** X5. The chart update of either listing throws exactly when some row
    has a [node_id] that names a property of [Object.prototype]
    ([constructor], [toString], ...), wherever the row stands, and then
    nothing of the response is drawn: the world is as before the update. *)
Theorem X5_chart_update_throws `{Host} (pts : list TimeSeriesPoint) (w : World) :
  ((exists p, In p pts /\ inherited (node_id p) = true)
   <-> App1.updateCharts pts w = Throw "TypeError" w)
  /\ ((exists p, In p pts /\ inherited (node_id p) = true)
      <-> App2.updateCharts pts w = Throw "TypeError" w)
  /\ ((forall p, In p pts -> inherited (node_id p) = false)
      <-> exists w1, App1.updateCharts pts w = Normal w1).
Proof.
  assert (Hnone : group_by_node pts = None
                  <-> exists p, In p pts /\ inherited (node_id p) = true).
  { apply group_fold_throws. intros k []. }
  split; [| split].
  - rewrite <- Hnone. unfold App1.updateCharts. split.
    + intros Hg. destruct pts as [| p ps]; [discriminate |]. now rewrite Hg.
    + destruct pts as [| p ps]; [discriminate |].
      destruct (group_by_node (p :: ps)); [discriminate | reflexivity].
  - rewrite <- Hnone. unfold App2.updateCharts. split.
    + intros Hg. destruct pts as [| p ps]; [discriminate |]. now rewrite Hg.
    + destruct pts as [| p ps]; [discriminate |].
      destruct (group_by_node (p :: ps)); [discriminate | reflexivity].
  - split.
    + intros Hok. unfold App1.updateCharts. destruct pts as [| p ps]; [eauto |].
      destruct (group_by_node (p :: ps)) eqn:Hg; [eauto |].
      destruct (proj1 Hnone eq_refl) as [q [Hq Hi]]. rewrite (Hok q Hq) in Hi. discriminate.
    + intros [w1 Hrun] p Hp. destruct (inherited (node_id p)) eqn:Hi; [| reflexivity].
      assert (Hthrow : App1.updateCharts pts w = Throw "TypeError" w).
      { unfold App1.updateCharts. destruct pts as [| p0 ps]; [destruct Hp |].
        replace (group_by_node (p0 :: ps)) with (@None (JsObject (list TimeSeriesPoint)));
          [reflexivity |]. symmetry. apply Hnone. eauto. }
      rewrite Hthrow in Hrun. discriminate.
Qed.

(** ** The map of the first listing *)

Lemma filter_length_le {A : Type} (f g : A -> bool) (l : list A) :
  (forall x, f x = true -> g x = true) ->
  (List.length (filter f l) <= List.length (filter g l))%nat.
Proof.
  intros Himp. induction l as [| x l IH]; [reflexivity |]. cbn [filter].
  destruct (f x) eqn:Ef.
  - rewrite (Himp x Ef). cbn [List.length]. lia.
  - destruct (g x); cbn [List.length]; lia.
Qed.

(** X6. A non-empty locations response rebuilds the markers from scratch:
    they are those of the locations with truthy coordinates, whatever the
    map showed before and whatever metric is selected, so applying the same
    response twice changes nothing the second time. The heat layer is on
    the map afterwards exactly when there is a heat sample. *)
Theorem X6_markers_rebuilt (locations : list NodeLocation) (w : World) :
  locations <> [] ->
  markers (App1.updateMap locations w)
  = map (fun l => mkMarker (lat l) (lon l) l) (filter has_coords locations)
  /\ App1.updateMap locations (App1.updateMap locations w) = App1.updateMap locations w
  /\ (heatOnMap (App1.updateMap locations w) = true
      <-> snd (App1.map_layers (heatmapMetric w) locations) <> []).
Proof.
  intros Hne. destruct locations as [| l ls]; [now elim Hne |].
  unfold App1.updateMap.
  pose proof (map_step1_fold (heatmapMetric w) (l :: ls) ([], [])) as Hfold.
  fold (App1.map_layers (heatmapMetric w) (l :: ls)) in Hfold.
  destruct (App1.map_layers (heatmapMetric w) (l :: ls)) as [ms hp] eqn:E.
  injection Hfold as Hms Hhp. cbn [fst snd app] in Hms, Hhp.
  destruct hp as [| s hp].
  - cbn [List.length Nat.ltb Nat.leb andb]. rewrite andb_false_r.
    cbn [markers set_map heatmapMetric heatOnMap snd]. rewrite E. cbn [List.length].
    rewrite andb_false_r. split; [exact Hms | split; [reflexivity |]].
    split; [discriminate | intros Hx; now elim Hx].
  - cbn [List.length Nat.ltb Nat.leb andb CONFIG.FEATURES_heatMap].
    cbn [markers set_map heatmapMetric heatOnMap snd]. rewrite E.
    cbn [List.length Nat.ltb Nat.leb andb CONFIG.FEATURES_heatMap].
    split; [exact Hms | split; [reflexivity |]].
    split; [intros _; discriminate | reflexivity].
Qed.

(** X6 on two locations, one of them without coordinates. *)
Lemma X6_markers_rebuilt_witness :
  let a := location "n1" (JNum (417 # 10)) (JNum (-862 # 10)) (JNum 21) in
  let b := location "n2" JNull JNull (JNum 19) in
  markers (App1.updateMap [a; b] loaded) = [mkMarker (JNum (417 # 10)) (JNum (-862 # 10)) a].
Proof.
  intros a b.
  refine (proj1 (X6_markers_rebuilt [a; b] loaded _)). discriminate.
Defined.

(** X7. In the first listing every heat sample lies under a marker: it has
    the position of a marker whose popup shows the location the sample was
    taken from. There are never more samples than markers. *)
Theorem X7_samples_under_markers (m : string) (locations : list NodeLocation) :
  (forall s, In s (snd (App1.map_layers m locations)) ->
     exists mk, In mk (fst (App1.map_layers m locations))
       /\ s = (m_lat mk, m_lon mk, loc_avg (m_popup mk) m))
  /\ (List.length (snd (App1.map_layers m locations))
      <= List.length (fst (App1.map_layers m locations)))%nat.
Proof.
  unfold App1.map_layers. rewrite map_step1_fold. cbn [fst snd app]. split.
  - intros s Hs. apply in_map_iff in Hs. destruct Hs as [l [<- Hl]].
    apply filter_In in Hl. destruct Hl as [Hin Hok].
    exists (mkMarker (lat l) (lon l) l). split; [| reflexivity].
    apply in_map_iff. exists l. split; [reflexivity |]. apply filter_In.
    unfold sampled in Hok. apply andb_true_iff in Hok. tauto.
  - rewrite !length_map. apply filter_length_le.
    intros l Hl. unfold sampled in Hl. apply andb_true_iff in Hl. tauto.
Qed.

(** ** The live feed of the second listing *)

Lemma no_placeholder_feed (c : list Child) :
  no_placeholder c = true -> c = map Item (feed c).
Proof.
  induction c as [| [| r] c IH]; cbn; [reflexivity | discriminate |].
  intros Hc. now rewrite <- IH.
Qed.

Lemma remove_loading_clean (c : list Child) :
  no_placeholder c = true -> App2.remove_loading c = c.
Proof.
  induction c as [| [| r] c IH]; cbn; [reflexivity | discriminate |].
  intros Hc. now rewrite IH.
Qed.

Lemma no_placeholder_firstn (n : nat) (c : list Child) :
  no_placeholder c = true -> no_placeholder (firstn n c) = true.
Proof.
  revert n. induction c as [| x c IH]; intros [| n] Hc; try reflexivity.
  cbn in *. apply andb_true_iff in Hc. destruct Hc as [Hx Hc].
  now rewrite Hx, IH.
Qed.

Lemma feed_firstn_clean (n : nat) (c : list Child) :
  no_placeholder c = true -> feed (firstn n c) = firstn n (feed c).
Proof.
  revert n. induction c as [| [| r] c IH]; intros [| n] Hc; try reflexivity;
    try discriminate.
  cbn in *. now rewrite IH.
Qed.

(** One push onto a container that holds only readings, or only the
    placeholder. *)
Lemma push_one (r : Reading) (w : World) :
  liveDataContainer w = [Loading] \/ no_placeholder (liveDataContainer w) = true ->
  no_placeholder (liveDataContainer (App2.addToLiveDataFeed r w)) = true
  /\ feed (liveDataContainer (App2.addToLiveDataFeed r w))
     = firstn 10 (r :: feed (liveDataContainer w)).
Proof.
  intros Hc. rewrite addToLiveDataFeed_container.
  assert (Hclean : no_placeholder (Item r :: App2.remove_loading (liveDataContainer w)) = true
                   /\ feed (App2.remove_loading (liveDataContainer w))
                      = feed (liveDataContainer w)).
  { split; [| apply feed_remove_loading].
    destruct Hc as [-> | Hc]; [reflexivity |]. now rewrite remove_loading_clean. }
  destruct Hclean as [Hclean Hfeed]. split.
  - now apply no_placeholder_firstn.
  - rewrite feed_firstn_clean by exact Hclean. cbn [feed]. now rewrite Hfeed.
Qed.

Lemma firstn_app_firstn {A : Type} (n : nat) (a b : list A) :
  firstn n (a ++ firstn n b) = firstn n (a ++ b).
Proof.
  rewrite !firstn_app, firstn_firstn. do 2 f_equal. lia.
Qed.

Lemma pushes_compose (rs : list Reading) (r : Reading) (w : World) :
  liveDataContainer w = [Loading] \/ no_placeholder (liveDataContainer w) = true ->
  feed (liveDataContainer (push_all (r :: rs) w))
  = firstn 10 (rev (r :: rs) ++ feed (liveDataContainer w))
  /\ no_placeholder (liveDataContainer (push_all (r :: rs) w)) = true.
Proof.
  revert r w. induction rs as [| r' rs IH]; intros r w Hc;
    destruct (push_one r w Hc) as [Hclean Hfeed].
  - cbn [push_all fold_left rev app]. now split.
  - change (push_all (r :: r' :: rs) w)
      with (push_all (r' :: rs) (App2.addToLiveDataFeed r w)).
    destruct (IH r' (App2.addToLiveDataFeed r w) (or_intror Hclean)) as [IHfeed IHclean].
    split; [| exact IHclean].
    rewrite IHfeed, Hfeed, firstn_app_firstn.
    change (rev (r :: r' :: rs)) with (rev (r' :: rs) ++ [r])%list.
    now rewrite <- app_assoc.
Qed.

(** X8. Pushes of the second listing compose: after one or more pushes
    onto a feed that shows only readings, or only its placeholder, the
    feed holds the ten most recent of the pushed and the earlier readings,
    last pushed first, and no placeholder. *)
Theorem X8_pushes_compose (rs : list Reading) (w : World) :
  rs <> [] ->
  liveDataContainer w = [Loading] \/ no_placeholder (liveDataContainer w) = true ->
  feed (liveDataContainer (push_all rs w))
  = firstn 10 (rev rs ++ feed (liveDataContainer w))
  /\ no_placeholder (liveDataContainer (push_all rs w)) = true.
Proof.
  intros Hne Hc. destruct rs as [| r rs]; [now elim Hne |]. now apply pushes_compose.
Qed.

(** X8 on the fresh page and three pushes. *)
Lemma X8_pushes_compose_witness :
  let r1 := reading "n1" "2024-01-01T10:00" in
  let r2 := reading "n2" "2024-01-01T10:01" in
  let r3 := reading "n1" "2024-01-01T10:02" in
  feed (liveDataContainer (push_all [r1; r2; r3] (initial "24" "temperature")))
  = [r3; r2; r1].
Proof.
  intros r1 r2 r3.
  refine (proj1 (X8_pushes_compose [r1; r2; r3] (initial "24" "temperature") _ _)).
  - discriminate.
  - now left.
Defined.

(** ** Events of the page: what a handler leaves alone *)

(** Case analysis on every [match] of the goal. *)
Ltac cases :=
  repeat match goal with
         | |- context [match ?x with _ => _ end] => destruct x eqn:?
         end.

Lemma untouched_refl (w : World) : untouched w w.
Proof. repeat split. Qed.

Lemma untouched_trans (w1 w2 w3 : World) :
  untouched w1 w2 -> untouched w2 w3 -> untouched w1 w3.
Proof.
  unfold untouched. intros (A1 & B1 & C1 & D1 & E1 & F1) (A2 & B2 & C2 & D2 & E2 & F2).
  repeat split; congruence.
Qed.

Lemma fetchAPI_recv_untouched {A : Type} (r : Response A) (w : World) :
  untouched w (snd (App1.fetchAPI_recv r w))
  /\ liveDataContainer (snd (App1.fetchAPI_recv r w)) = liveDataContainer w
  /\ lastLiveDataTimestamp (snd (App1.fetchAPI_recv r w)) = lastLiveDataTimestamp w.
Proof. destruct r; repeat split. Qed.

Lemma fetchLiveData_recv_untouched (r : Response (list Reading)) (w : World) :
  untouched w (App1.fetchLiveData_recv r w).
Proof.
  unfold App1.fetchLiveData_recv, App1.fetchAPI_recv, App1.updateLiveDataFeed.
  destruct r as [[| d B] |]; cases; repeat split.
Qed.

Lemma updateMap_untouched (locations : list NodeLocation) (w : World) :
  untouched w (App1.updateMap locations w)
  /\ liveDataContainer (App1.updateMap locations w) = liveDataContainer w
  /\ lastLiveDataTimestamp (App1.updateMap locations w) = lastLiveDataTimestamp w.
Proof. unfold App1.updateMap. cases; repeat split. Qed.

Lemma updateCharts_untouched `{Host} (pts : list TimeSeriesPoint) (w : World) :
  untouched w (world_of (App1.updateCharts pts w))
  /\ liveDataContainer (world_of (App1.updateCharts pts w)) = liveDataContainer w
  /\ lastLiveDataTimestamp (world_of (App1.updateCharts pts w)) = lastLiveDataTimestamp w.
Proof. unfold App1.updateCharts. cases; repeat split. Qed.

Lemma series_recv_untouched `{Host} (r : Response (list TimeSeriesPoint)) (w : World) :
  untouched w (world_of (App1.fetchTimeSeriesData_recv r w))
  /\ liveDataContainer (world_of (App1.fetchTimeSeriesData_recv r w)) = liveDataContainer w
  /\ lastLiveDataTimestamp (world_of (App1.fetchTimeSeriesData_recv r w))
     = lastLiveDataTimestamp w.
Proof.
  unfold App1.fetchTimeSeriesData_recv. destruct r as [pts |]; cbn [App1.fetchAPI_recv].
  - apply updateCharts_untouched.
  - repeat split.
Qed.

Lemma answer_series_untouched `{Host} (sent : bool) (r : Response (list TimeSeriesPoint))
    (w : World) :
  untouched w (Page1.answer_series sent r w)
  /\ liveDataContainer (Page1.answer_series sent r w) = liveDataContainer w
  /\ lastLiveDataTimestamp (Page1.answer_series sent r w) = lastLiveDataTimestamp w.
Proof.
  unfold Page1.answer_series. destruct sent; [apply series_recv_untouched | repeat split].
Qed.

Lemma timeSeriesEndpoint_selection (w w' : World) :
  selection w' = selection w -> App1.timeSeriesEndpoint w' = App1.timeSeriesEndpoint w.
Proof.
  unfold selection, App1.timeSeriesEndpoint. intros [= Hr Hc Ht]. now rewrite Hr, Hc, Ht.
Qed.

Lemma send_series_fetched (w : World) :
  fetched (App1.fetchTimeSeriesData_send w)
  = (fetched w ++ urls (opt_list (App1.timeSeriesEndpoint w)))%list.
Proof.
  unfold App1.fetchTimeSeriesData_send. destruct (App1.timeSeriesEndpoint w); cbn.
  - reflexivity.
  - now rewrite app_nil_r.
Qed.

(** The requests of a timer callback. *)
Lemma tick_fetched `{Host} (t : App1.Timer) (w : World) :
  fetched (App1.tick t w) = (fetched w ++ urls (opt_list (endpoint_of t w)))%list.
Proof.
  destruct t as [r | r | r | r | r]; cbn [App1.tick endpoint_of].
  - unfold App1.fetchLiveData.
    destruct (fetchLiveData_recv_untouched r (App1.fetchAPI_send "/latest?limit=10" w))
      as (_ & _ & _ & _ & Hf & _).
    now rewrite Hf.
  - unfold App1.fetchNodeStats. destruct r; reflexivity.
  - unfold App1.fetchDecisions. destruct r; reflexivity.
  - unfold App1.fetchNodeLocations. destruct r as [locs |]; [| reflexivity].
    cbn [App1.fetchAPI_recv].
    destruct (updateMap_untouched locs (App1.fetchAPI_send "/nodes/locations" w))
      as ((_ & _ & _ & _ & Hf & _) & _).
    now rewrite Hf.
  - unfold App1.fetchTimeSeriesData. destruct (App1.timeSeriesEndpoint w) as [ep |] eqn:E.
    + destruct (series_recv_untouched r (App1.fetchAPI_send ep w))
        as ((_ & _ & _ & _ & Hf & _) & _).
      now rewrite Hf.
    + cbn. now rewrite app_nil_r.
Qed.

Lemma accepted_inputs `{Host} (w : World) :
  Page1.accepted w = true ->
  startTime w <> "" /\ endTime w <> "" /\ Date_ge (startTime w) (endTime w) = false.
Proof.
  unfold Page1.accepted. intros Hacc. apply negb_true_iff in Hacc.
  apply orb_false_iff in Hacc. destruct Hacc as [Hacc Hge].
  apply orb_false_iff in Hacc. destruct Hacc as [Hs He].
  apply String.eqb_neq in Hs. apply String.eqb_neq in He. tauto.
Qed.

(** The click on "apply", by cases. *)
Lemma applyCustomRange_cases `{Host} (w : World) :
  (Page1.accepted w = true
   /\ App1.applyCustomRange_click w
      = App1.fetchTimeSeriesData_send
          (set_isCustomRange true
             (set_customTimeRange (Some (startTime w), Some (endTime w)) w))
   /\ App1.timeSeriesEndpoint
        (set_isCustomRange true
           (set_customTimeRange (Some (startTime w), Some (endTime w)) w))
      = Some ("/timeseries?start=" ++ encodeURIComponent (startTime w ++ ":00")
                ++ "&end=" ++ encodeURIComponent (endTime w ++ ":00")))
  \/ (Page1.accepted w = false
      /\ exists msg, App1.applyCustomRange_click w = alert msg w).
Proof.
  unfold Page1.accepted, App1.applyCustomRange_click.
  destruct (String.eqb_spec (startTime w) "") as [Hs | Hs];
    [right; split; [reflexivity | eexists; reflexivity] |].
  destruct (String.eqb_spec (endTime w) "") as [He | He];
    [right; split; [reflexivity | eexists; reflexivity] |].
  cbn [orb]. destruct (Date_ge (startTime w) (endTime w));
    [right; split; [reflexivity | eexists; reflexivity] |].
  left. split; [reflexivity | split; [reflexivity |]].
  unfold App1.timeSeriesEndpoint.
  cbn [customTimeRange isCustomRange set_isCustomRange set_customTimeRange truthy_str andb].
  now rewrite (eqb_empty_false _ Hs), (eqb_empty_false _ He).
Qed.

(** The requests of any handler. *)
Lemma step_fetched `{Host} (e : Page1.Event) (w : World) :
  fetched (Page1.step e w) = (fetched w ++ requests_of e w)%list.
Proof.
  destruct e as [t | parses r | | value r | s e' | r | value r | ne ns r];
    cbn [Page1.step requests_of].
  - apply tick_fetched.
  - destruct parses; [| cbn; now rewrite app_nil_r].
    destruct (answer_series_untouched (Page1.is_some (App1.timeSeriesEndpoint w)) r
                (App1.onmessage (Parsed tt) w)) as ((_ & _ & _ & _ & Hf & _) & _).
    rewrite Hf. unfold App1.onmessage, App1.updateConnectionStatus.
    cbn [fetched set_isConnected]. apply send_series_fetched.
  - cbn. now rewrite app_nil_r.
  - destruct (answer_series_untouched (negb (value =? "custom")%string) r
                (App1.timeRange_change value w)) as ((_ & _ & _ & _ & Hf & _) & _).
    rewrite Hf. unfold App1.timeRange_change.
    destruct (String.eqb_spec value "custom") as [-> | Hne].
    + cbn. now rewrite app_nil_r.
    + rewrite send_series_fetched. unfold App1.timeSeriesEndpoint.
      cbn [customTimeRange isCustomRange timeRange set_isCustomRange set_timeRange
           andb fetched].
      destruct (customTimeRange w) as [cs ce]. cbn [andb].
      now rewrite (proj2 (String.eqb_neq value "custom") Hne).
  - cbn. now rewrite app_nil_r.
  - destruct (answer_series_untouched (Page1.accepted w) r (App1.applyCustomRange_click w))
      as ((_ & _ & _ & _ & Hf & _) & _).
    rewrite Hf.
    destruct (applyCustomRange_cases w) as [(Hacc & Hrun & Hep) | (Hacc & msg & Hrun)];
      rewrite Hacc, Hrun.
    + rewrite send_series_fetched, Hep. reflexivity.
    + cbn. now rewrite app_nil_r.
  - unfold App1.fetchNodeLocations. destruct r as [locs |]; [| reflexivity].
    cbn [App1.fetchAPI_recv].
    destruct (updateMap_untouched locs
                (App1.fetchAPI_send "/nodes/locations" (set_heatmapMetric value w)))
      as ((_ & _ & _ & _ & Hf & _) & _).
    now rewrite Hf.
  - unfold App1.downloadCSV_send.
    destruct (App1.export_params ne ns w) as [params |]; [| cbn; now rewrite app_nil_r].
    destruct r; cbn [App1.downloadCSV_recv fetched alert fetch];
      destruct (URLSearchParams_toString params =? "")%string; reflexivity.
Qed.

(** X9. Every handler of the first listing sends at most one request, and
    which one depends only on the event and on the page before it, never
    on the response: a failed request is not retried, and a response
    triggers no further request. *)
Theorem X9_one_request_no_retry `{Host} (e : Page1.Event) (w : World) :
  fetched (Page1.step e w) = (fetched w ++ requests_of e w)%list
  /\ (List.length (requests_of e w) <= 1)%nat.
Proof.
  split; [apply step_fetched |].
  destruct e as [t | parses r | | value r | s e' | r | value r | ne ns r];
    cbn [requests_of].
  - destruct t; cbn [endpoint_of]; try (cbn; lia).
    destruct (App1.timeSeriesEndpoint w); cbn; lia.
  - destruct parses; [destruct (App1.timeSeriesEndpoint w) |]; cbn; lia.
  - cbn; lia.
  - destruct (value =? "custom")%string; cbn; lia.
  - cbn; lia.
  - destruct (Page1.accepted w); cbn; lia.
  - cbn; lia.
  - destruct (App1.export_params ne ns w); cbn; lia.
Qed.

(** ** What holds in every state the page reaches *)

Lemma page_inv_frame `{Host} (w w' : World) :
  liveDataContainer w' = liveDataContainer w ->
  lastLiveDataTimestamp w' = lastLiveDataTimestamp w ->
  customTimeRange w' = customTimeRange w ->
  page_inv w -> page_inv w'.
Proof.
  unfold page_inv, remembers_top, range_ok. intros -> -> ->. tauto.
Qed.

Lemma untouched_range (w w' : World) :
  untouched w w' -> customTimeRange w' = customTimeRange w.
Proof. intros (Hsel & _). unfold selection in Hsel. congruence. Qed.

Lemma fetchLiveData_bound (r : Response (list Reading)) (w : World) :
  (List.length (feed (liveDataContainer w)) <= 10)%nat ->
  (List.length (feed (liveDataContainer (App1.fetchLiveData r w))) <= 10)%nat.
Proof.
  intros Hlen. destruct r as [[| d0 B] |]; [cbn; lia | | exact Hlen].
  destruct (lastLiveDataTimestamp w) as [t |] eqn:E.
  - destruct (string_dec t (timestamp d0)) as [-> | Hne].
    + destruct (fetchLiveData_same d0 B w E) as [Hc _]. now rewrite Hc.
    + assert (Hd : lastLiveDataTimestamp w <> Some (timestamp d0)) by congruence.
      destruct (fetchLiveData_changed d0 B w Hd) as [Hc _].
      rewrite Hc, feed_map_Item, length_firstn. lia.
  - assert (Hd : lastLiveDataTimestamp w <> Some (timestamp d0)) by congruence.
    destruct (fetchLiveData_changed d0 B w Hd) as [Hc _].
    rewrite Hc, feed_map_Item, length_firstn. lia.
Qed.

Lemma tick_inv `{Host} (t : App1.Timer) (w : World) :
  page_inv w -> page_inv (App1.tick t w).
Proof.
  intros Hinv. destruct t as [r | r | r | r | r]; cbn [App1.tick].
  - destruct Hinv as (Htop & Hlen & Hrange). split; [| split].
    + now apply remembers_top_fetchLiveData.
    + now apply fetchLiveData_bound.
    + unfold range_ok, App1.fetchLiveData.
      rewrite (untouched_range _ _
                 (fetchLiveData_recv_untouched r (App1.fetchAPI_send "/latest?limit=10" w))).
      exact Hrange.
  - revert Hinv. apply page_inv_frame; unfold App1.fetchNodeStats; destruct r; reflexivity.
  - revert Hinv. apply page_inv_frame; unfold App1.fetchDecisions; destruct r; reflexivity.
  - unfold App1.fetchNodeLocations. destruct r as [locs |]; cbn [App1.fetchAPI_recv].
    + destruct (updateMap_untouched locs (App1.fetchAPI_send "/nodes/locations" w))
        as (Hu & Hc & Hl).
      revert Hinv. apply page_inv_frame; [exact Hc | exact Hl |].
      now rewrite (untouched_range _ _ Hu).
    + revert Hinv. apply page_inv_frame; reflexivity.
  - unfold App1.fetchTimeSeriesData. destruct (App1.timeSeriesEndpoint w) as [ep |];
      [| exact Hinv].
    destruct (series_recv_untouched r (App1.fetchAPI_send ep w)) as (Hu & Hc & Hl).
    revert Hinv. apply page_inv_frame; [exact Hc | exact Hl |].
    now rewrite (untouched_range _ _ Hu).
Qed.

Lemma answer_series_inv `{Host} (sent : bool) (r : Response (list TimeSeriesPoint))
    (w : World) :
  page_inv w -> page_inv (Page1.answer_series sent r w).
Proof.
  destruct (answer_series_untouched sent r w) as (Hu & Hc & Hl).
  apply page_inv_frame; [exact Hc | exact Hl | exact (untouched_range _ _ Hu)].
Qed.

Lemma step_inv `{Host} (e : Page1.Event) (w : World) :
  page_inv w -> page_inv (Page1.step e w).
Proof.
  intros Hinv.
  destruct e as [t | parses r | | value r | s e' | r | value r | ne ns r];
    cbn [Page1.step].
  - now apply tick_inv.
  - destruct parses; [| exact Hinv]. apply answer_series_inv.
    revert Hinv. unfold App1.onmessage, App1.fetchTimeSeriesData_send.
    apply page_inv_frame; destruct (App1.timeSeriesEndpoint w); reflexivity.
  - revert Hinv. apply page_inv_frame; reflexivity.
  - apply answer_series_inv. revert Hinv.
    unfold App1.timeRange_change, App1.fetchTimeSeriesData_send.
    apply page_inv_frame; cases; reflexivity.
  - revert Hinv. apply page_inv_frame; reflexivity.
  - apply answer_series_inv.
    destruct (applyCustomRange_cases w) as [(Hacc & Hrun & Hep) | (Hacc & msg & Hrun)];
      rewrite Hrun.
    + unfold App1.fetchTimeSeriesData_send. rewrite Hep.
      destruct Hinv as (Htop & Hlen & _). split; [exact Htop | split; [exact Hlen |]].
      unfold range_ok.
      cbn [customTimeRange App1.fetchAPI_send fetch set_isCustomRange set_customTimeRange].
      now apply accepted_inputs.
    + revert Hinv. apply page_inv_frame; reflexivity.
  - unfold App1.fetchNodeLocations. destruct r as [locs |]; cbn [App1.fetchAPI_recv].
    + destruct (updateMap_untouched locs
                  (App1.fetchAPI_send "/nodes/locations" (set_heatmapMetric value w)))
        as (Hu & Hc & Hl).
      revert Hinv. apply page_inv_frame; [exact Hc | exact Hl |].
      now rewrite (untouched_range _ _ Hu).
    + revert Hinv. apply page_inv_frame; reflexivity.
  - revert Hinv. unfold App1.downloadCSV_send.
    apply page_inv_frame; destruct (App1.export_params ne ns w); destruct r; reflexivity.
Qed.

(** The start-up round is the five callbacks one after the other, and then
    the connection flag if nothing threw. *)
Lemma fetchAllData_as_ticks `{Host} (rs : App1.Responses) (w : World) :
  let w5 := Page1.run [ Page1.Tick (App1.liveData (App1.res_live rs));
                        Page1.Tick (App1.nodeStats (App1.res_stats rs));
                        Page1.Tick (App1.decisions (App1.res_decisions rs));
                        Page1.Tick (App1.map_ (App1.res_locations rs));
                        Page1.Tick (App1.charts_ (App1.res_series rs)) ] w in
  App1.fetchAllData rs w = Normal (set_isConnected true w5)
  \/ App1.fetchAllData rs w = Throw "TypeError" w5.
Proof.
  unfold Page1.run. cbn [fold_left Page1.step App1.tick]. unfold App1.fetchAllData.
  set (w4 := App1.fetchNodeLocations _ _).
  assert (Hthrow : forall e w', App1.fetchTimeSeriesData (App1.res_series rs) w4 = Throw e w'
                                -> e = "TypeError").
  { intros e w'. unfold App1.fetchTimeSeriesData, App1.fetchTimeSeriesData_recv,
      App1.updateCharts. cases; congruence. }
  destruct (App1.fetchTimeSeriesData (App1.res_series rs) w4) as [w5 | e w5] eqn:E.
  - now left.
  - right. now rewrite (Hthrow e w5 eq_refl).
Qed.

Lemma run_inv `{Host} (events : list Page1.Event) (w : World) :
  page_inv w -> page_inv (Page1.run events w).
Proof.
  revert w. induction events as [| e events IH]; intros w Hinv; [exact Hinv |].
  apply IH. now apply step_inv.
Qed.

Lemma dispatch_inv `{Host} (e : Page1.Event) (p : Page1.Page) :
  page_inv (Page1.world p) -> page_inv (Page1.world (Page1.dispatch e p)).
Proof.
  intros Hinv. unfold Page1.dispatch. destruct (Page1.enabled e p).
  - now apply step_inv.
  - destruct e; try exact Hinv; revert Hinv; apply page_inv_frame; reflexivity.
Qed.

Lemma init_inv `{Host} (rs : App1.Responses) (hours metric : string) :
  page_inv (Page1.world (Page1.init rs (Page1.blank hours metric))).
Proof.
  assert (H0 : page_inv (Page1.initCharts (initial hours metric))).
  { split; [exact I | split; [cbn; lia | exact I]]. }
  unfold Page1.init. cbn [Page1.world Page1.blank].
  pose proof (run_inv [ Page1.Tick (App1.liveData (App1.res_live rs));
                        Page1.Tick (App1.nodeStats (App1.res_stats rs));
                        Page1.Tick (App1.decisions (App1.res_decisions rs));
                        Page1.Tick (App1.map_ (App1.res_locations rs));
                        Page1.Tick (App1.charts_ (App1.res_series rs)) ] _ H0) as H5.
  destruct (fetchAllData_as_ticks rs (Page1.initCharts (initial hours metric)))
    as [Hrun | Hrun]; rewrite Hrun.
  - cbn. revert H5. apply page_inv_frame; reflexivity.
  - exact H5.
Qed.

Lemma Date_ge_false_lt `{Host} (s e : string) (x y : Z) :
  Date_ge s e = false -> Date_getTime s = Some x -> Date_getTime e = Some y -> x < y.
Proof.
  unfold Date_ge. intros Hge Hs He. rewrite Hs, He in Hge. now apply Z.leb_gt in Hge.
Qed.

Lemma unparsed_range_stored `{Host} (s e : string) (r : Response (list TimeSeriesPoint))
    (w : World) :
  s <> "" -> e <> "" -> Date_getTime s = None \/ Date_getTime e = None ->
  customTimeRange (Page1.run [Page1.EditRange s e; Page1.ApplyRange r] w)
  = (Some s, Some e).
Proof.
  intros Hs He Hnone. unfold Page1.run. cbn [fold_left Page1.step].
  set (w1 := set_range_inputs s e w).
  assert (Hge : Date_ge s e = false).
  { unfold Date_ge. destruct Hnone as [-> | ->]; [reflexivity |].
    now destruct (Date_getTime s). }
  assert (Hclick : customTimeRange (App1.applyCustomRange_click w1) = (Some s, Some e)).
  { unfold App1.applyCustomRange_click, w1. cbn [startTime endTime set_range_inputs].
    apply String.eqb_neq in Hs. apply String.eqb_neq in He. rewrite Hs, He, Hge.
    cbn [orb]. unfold App1.fetchTimeSeriesData_send. cases; reflexivity. }
  rewrite <- Hclick.
  destruct (answer_series_untouched (Page1.accepted w1) r (App1.applyCustomRange_click w1))
    as ((Hsel & _) & _).
  unfold selection in Hsel. now injection Hsel.
Qed.

(** X10. In every state the page of the first listing reaches from
    start-up, whatever the responses and the events: the live feed shows at
    most ten readings; the remembered timestamp is the one on top of the
    feed whenever the feed shows a reading; and the stored custom range is
    unset, or has a non-empty start and a non-empty end that the test
    [new Date(start) >= new Date(end)] of the listener did not refuse, so
    that the start is strictly before the end whenever both parse as
    dates. A bound that does not parse as a date passes that test: in any
    such state where the button has its listener, applying two non-empty
    values of which one does not parse stores them as the range. *)
Theorem X10_reachable_states `{Host} (rs : App1.Responses) (hours metric : string)
    (events : list Page1.Event) :
  let p := Page1.run_page events (Page1.init rs (Page1.blank hours metric)) in
  page_inv (Page1.world p)
  /\ (forall s e x y, customTimeRange (Page1.world p) = (Some s, Some e) ->
        s <> "" /\ e <> ""
        /\ (Date_getTime s = Some x -> Date_getTime e = Some y -> x < y))
  /\ (forall s e r, Page1.listens "applyCustomRange" "click" p = true ->
        s <> "" -> e <> "" ->
        Date_getTime s = None \/ Date_getTime e = None ->
        customTimeRange
          (Page1.world (Page1.run_page [Page1.EditRange s e; Page1.ApplyRange r] p))
        = (Some s, Some e)).
Proof.
  intros p.
  assert (Hinv : page_inv (Page1.world p)).
  { unfold p, Page1.run_page.
    generalize (init_inv rs hours metric).
    generalize (Page1.init rs (Page1.blank hours metric)).
    induction events as [| e events IH]; intros p0 Hinv; [exact Hinv |].
    cbn [fold_left]. apply IH. now apply dispatch_inv. }
  split; [exact Hinv | split].
  - intros s e x y Hrange. destruct Hinv as (_ & _ & Hok).
    unfold range_ok in Hok. rewrite Hrange in Hok. destruct Hok as (Hs & He & Hge).
    split; [exact Hs | split; [exact He |]]. now apply Date_ge_false_lt.
  - intros s e r Hlistens Hs He Hnone.
    rewrite <- (unparsed_range_stored s e r (Page1.world p) Hs He Hnone).
    unfold Page1.run_page, Page1.run. cbn [fold_left].
    unfold Page1.dispatch at 2. cbn [Page1.enabled].
    unfold Page1.dispatch, Page1.enabled, Page1.listens in *.
    cbn [Page1.with_world Page1.listeners Page1.world]. now rewrite Hlistens.
Qed.

(** On the example host the range from "zzz" to "aaa" is stored. *)
Example unparsed_range_run :
  customTimeRange (Page1.run (H := ExampleHost.host)
                     [Page1.EditRange "zzz" "aaa"; Page1.ApplyRange Failed] loaded)
  = (Some "zzz", Some "aaa").
Proof. vm_compute. reflexivity. Qed.

(** ** The time window of the requests *)

Lemma timeSeriesEndpoint_window (w : World) :
  App1.timeSeriesEndpoint w = window_of (selection w).
Proof.
  unfold App1.timeSeriesEndpoint, window_of, selection.
  now destruct (customTimeRange w).
Qed.

Lemma tick_selection `{Host} (t : App1.Timer) (w : World) :
  selection (App1.tick t w) = selection w.
Proof.
  destruct t as [r | r | r | r | r]; cbn [App1.tick].
  - unfold App1.fetchLiveData.
    now destruct (fetchLiveData_recv_untouched r (App1.fetchAPI_send "/latest?limit=10" w))
      as (Hs & _).
  - unfold App1.fetchNodeStats. destruct r; reflexivity.
  - unfold App1.fetchDecisions. destruct r; reflexivity.
  - unfold App1.fetchNodeLocations. destruct r as [locs |]; [| reflexivity].
    cbn [App1.fetchAPI_recv].
    now destruct (updateMap_untouched locs (App1.fetchAPI_send "/nodes/locations" w))
      as ((Hs & _) & _).
  - unfold App1.fetchTimeSeriesData. destruct (App1.timeSeriesEndpoint w) as [ep |];
      [| reflexivity].
    now destruct (series_recv_untouched r (App1.fetchAPI_send ep w)) as ((Hs & _) & _).
Qed.

Lemma answer_series_selection `{Host} (sent : bool) (r : Response (list TimeSeriesPoint))
    (w : World) :
  selection (Page1.answer_series sent r w) = selection w.
Proof. now destruct (answer_series_untouched sent r w) as ((Hs & _) & _). Qed.

Lemma send_series_selection (w : World) :
  selection (App1.fetchTimeSeriesData_send w) = selection w.
Proof. unfold App1.fetchTimeSeriesData_send. now destruct (App1.timeSeriesEndpoint w). Qed.

(** The selection after each event. *)
Lemma step_selection `{Host} (e : Page1.Event) (w : World) :
  selection (Page1.step e w)
  = match e with
    | Page1.SelectRange value _ =>
        (customTimeRange w, (value =? "custom")%string, value)
    | Page1.ApplyRange _ =>
        if Page1.accepted w
        then ((Some (startTime w), Some (endTime w)), true, timeRange w)
        else selection w
    | _ => selection w
    end.
Proof.
  destruct e as [t | parses r | | value r | s e' | r | value r | ne ns r];
    cbn [Page1.step].
  - apply tick_selection.
  - destruct parses; [| reflexivity]. rewrite answer_series_selection.
    unfold App1.onmessage, App1.updateConnectionStatus.
    now rewrite <- (send_series_selection w).
  - reflexivity.
  - rewrite answer_series_selection. unfold App1.timeRange_change.
    destruct (value =? "custom")%string; [reflexivity |].
    now rewrite send_series_selection.
  - reflexivity.
  - rewrite answer_series_selection.
    destruct (applyCustomRange_cases w) as [(Hacc & Hrun & _) | (Hacc & msg & Hrun)];
      rewrite Hacc, Hrun; [now rewrite send_series_selection | reflexivity].
  - unfold App1.fetchNodeLocations. destruct r as [locs |]; [| reflexivity].
    cbn [App1.fetchAPI_recv].
    now destruct (updateMap_untouched locs
                    (App1.fetchAPI_send "/nodes/locations" (set_heatmapMetric value w)))
      as ((Hs & _) & _).
  - unfold App1.downloadCSV_send.
    destruct (App1.export_params ne ns w); destruct r; reflexivity.
Qed.

(** The export has no range exactly when the charts ask for nothing. *)
Lemma export_none_iff `{Host} (now_end now_start : Z) (w : World) :
  App1.timeSeriesEndpoint w = None <-> App1.export_params now_end now_start w = Some [].
Proof.
  unfold App1.timeSeriesEndpoint, App1.export_params.
  destruct (customTimeRange w) as [cs ce].
  destruct (isCustomRange w && truthy_str cs && truthy_str ce);
    [split; discriminate |].
  destruct (timeRange w =? "custom")%string; cbn [negb]; [tauto |].
  split; [discriminate |]. cases; discriminate.
Qed.

Lemma quiet_requests `{Host} (e : Page1.Event) (w : World) :
  App1.timeSeriesEndpoint w = None -> leaves_range e = true ->
  filter is_series_url (requests_of e w) = [].
Proof.
  intros Hnone Hquiet.
  destruct e as [t | parses r | | value r | s e' | r | value r | ne ns r];
    try discriminate; cbn [requests_of].
  - destruct t; cbn [endpoint_of]; try reflexivity. now rewrite Hnone.
  - destruct parses; [now rewrite Hnone | reflexivity].
  - reflexivity.
  - reflexivity.
  - reflexivity.
  - now rewrite (proj1 (export_none_iff ne ns w) Hnone).
Qed.

Lemma quiet_run `{Host} (events : list Page1.Event) (w : World) :
  App1.timeSeriesEndpoint w = None -> forallb leaves_range events = true ->
  App1.timeSeriesEndpoint (Page1.run events w) = None
  /\ filter is_series_url (fetched (Page1.run events w)) = filter is_series_url (fetched w).
Proof.
  revert w. induction events as [| e events IH]; intros w Hnone Hquiet; [now split |].
  cbn [forallb] in Hquiet. apply andb_true_iff in Hquiet. destruct Hquiet as [He Hrest].
  assert (Hsel : selection (Page1.step e w) = selection w).
  { rewrite step_selection. destruct e; try reflexivity; discriminate. }
  assert (Hnone' : App1.timeSeriesEndpoint (Page1.step e w) = None).
  { now rewrite (timeSeriesEndpoint_selection _ _ Hsel). }
  destruct (IH (Page1.step e w) Hnone' Hrest) as [Hend Hlog].
  change (Page1.run (e :: events) w) with (Page1.run events (Page1.step e w)).
  split; [exact Hend |].
  rewrite Hlog, step_fetched, filter_app, (quiet_requests e w Hnone He).
  apply app_nil_r.
Qed.

(** X11. Once "custom" is chosen on a page where no range has been
    applied, no time-series request leaves until a preset is chosen or a
    range is applied: not from the chart timer, not from push messages, not
    from any other event in between. *)
Theorem X11_custom_suspends_chart_requests `{Host} (w : World)
    (r : Response (list TimeSeriesPoint)) (events : list Page1.Event) :
  customTimeRange w = (None, None) ->
  forallb leaves_range events = true ->
  let w0 := Page1.step (Page1.SelectRange "custom" r) w in
  App1.timeSeriesEndpoint (Page1.run events w0) = None
  /\ filter is_series_url (fetched (Page1.run events w0)) = filter is_series_url (fetched w).
Proof.
  intros Hrange Hquiet w0.
  assert (Hnone : App1.timeSeriesEndpoint w0 = None).
  { unfold w0. rewrite timeSeriesEndpoint_window, step_selection, Hrange. reflexivity. }
  destruct (quiet_run events w0 Hnone Hquiet) as [Hend Hlog].
  split; [exact Hend |]. rewrite Hlog. unfold w0.
  rewrite step_fetched. cbn [requests_of]. cbn. now rewrite app_nil_r.
Qed.

(** X11 on the loaded page: after "custom", a chart tick, a parsed push
    message, a live-data tick and a download send no time-series request. *)
Lemma X11_custom_suspends_chart_requests_witness :
  let events := [ Page1.Tick (App1.charts_ Failed); Page1.Message true Failed;
                  Page1.Tick (App1.liveData Failed);
                  Page1.Download 1704153600000 1704153600000 (Ok tt) ] in
  let w0 := Page1.step (H := ExampleHost.host) (Page1.SelectRange "custom" Failed) loaded in
  filter is_series_url (fetched (Page1.run (H := ExampleHost.host) events w0))
  = filter is_series_url (fetched loaded).
Proof.
  intros events w0.
  exact (proj2 (X11_custom_suspends_chart_requests (H := ExampleHost.host) loaded Failed
                  events eq_refl eq_refl)).
Defined.

(** X12. Choosing a preset suspends an applied custom range without
    clearing it: the next chart requests ask for the preset hours, and as
    soon as "custom" is chosen again they ask for the range applied
    before, with no new click on "apply" and whatever the two inputs show
    by then. *)
Theorem X12_applied_range_survives_preset `{Host} (w : World) (s e s' e' v : string)
    (r1 r2 r3 : Response (list TimeSeriesPoint)) :
  s <> "" -> e <> "" -> Date_ge s e = false -> v <> "custom" ->
  let custom := "/timeseries?start=" ++ encodeURIComponent (s ++ ":00")
                  ++ "&end=" ++ encodeURIComponent (e ++ ":00") in
  let w1 := Page1.run [Page1.EditRange s e; Page1.ApplyRange r1] w in
  let w2 := Page1.step (Page1.SelectRange v r2) w1 in
  let w3 := Page1.run [Page1.EditRange s' e'; Page1.SelectRange "custom" r3] w2 in
  App1.timeSeriesEndpoint w1 = Some custom
  /\ App1.timeSeriesEndpoint w2 = Some ("/timeseries?hours=" ++ v)
  /\ customTimeRange w2 = (Some s, Some e)
  /\ App1.timeSeriesEndpoint w3 = Some custom
  /\ fetched w3 = (fetched w ++ urls [custom; ("/timeseries?hours=" ++ v)%string])%list.
Proof.
  intros Hs He Hge Hv custom w1 w2 w3.
  assert (Hacc : Page1.accepted (set_range_inputs s e w) = true).
  { unfold Page1.accepted. cbn [startTime endTime set_range_inputs].
    now rewrite (eqb_empty_false _ Hs), (eqb_empty_false _ He), Hge. }
  assert (Hsel1 : selection w1 = ((Some s, Some e), true, timeRange w)).
  { unfold w1, Page1.run. cbn [fold_left]. rewrite step_selection.
    cbn [Page1.step]. now rewrite Hacc. }
  assert (Hsel2 : selection w2 = ((Some s, Some e), false, v)).
  { unfold w2. rewrite step_selection.
    assert (Hr : customTimeRange w1 = (Some s, Some e))
      by (unfold selection in Hsel1; congruence).
    now rewrite Hr, (proj2 (String.eqb_neq v "custom") Hv). }
  assert (Hsel3 : selection w3 = ((Some s, Some e), true, "custom")).
  { unfold w3, Page1.run. cbn [fold_left]. rewrite step_selection.
    cbn [Page1.step customTimeRange set_range_inputs].
    assert (Hr : customTimeRange w2 = (Some s, Some e))
      by (unfold selection in Hsel2; congruence).
    now rewrite Hr. }
  assert (Hwin : forall hours custom_on,
             window_of ((Some s, Some e), custom_on, hours)
             = if custom_on then Some custom
               else if (hours =? "custom")%string then None
                    else Some ("/timeseries?hours=" ++ hours)).
  { intros hours custom_on. unfold window_of.
    cbn [truthy_str str_plus]. rewrite (eqb_empty_false _ Hs), (eqb_empty_false _ He).
    now destruct custom_on. }
  split; [| split; [| split; [| split]]].
  - now rewrite timeSeriesEndpoint_window, Hsel1, Hwin.
  - rewrite timeSeriesEndpoint_window, Hsel2, Hwin.
    now rewrite (proj2 (String.eqb_neq v "custom") Hv).
  - unfold selection in Hsel2. congruence.
  - now rewrite timeSeriesEndpoint_window, Hsel3, Hwin.
  - assert (Hf1 : fetched w1 = (fetched w ++ urls [custom])%list).
    { unfold w1, Page1.run. cbn [fold_left].
      change (Page1.step (Page1.EditRange s e) w) with (set_range_inputs s e w).
      rewrite step_fetched. cbn [requests_of]. now rewrite Hacc. }
    assert (Hf2 : fetched w2
                  = (fetched w1 ++ urls [("/timeseries?hours=" ++ v)%string])%list).
    { unfold w2. rewrite step_fetched. cbn [requests_of].
      now rewrite (proj2 (String.eqb_neq v "custom") Hv). }
    unfold w3, Page1.run. cbn [fold_left].
    change (Page1.step (Page1.EditRange s' e') w2) with (set_range_inputs s' e' w2).
    rewrite step_fetched. cbn [requests_of String.eqb Ascii.eqb Bool.eqb].
    cbn [fetched set_range_inputs]. rewrite app_nil_r, Hf2, Hf1, <- app_assoc.
    reflexivity.
Qed.

(** X12 with the range 09:00 to 10:00 and the preset of 24 hours. *)
Lemma X12_applied_range_survives_preset_witness :
  let w3 := Page1.run (H := ExampleHost.host)
              [ Page1.EditRange "" ""; Page1.SelectRange "custom" Failed ]
              (Page1.step (H := ExampleHost.host) (Page1.SelectRange "24" Failed)
                 (Page1.run (H := ExampleHost.host)
                    [ Page1.EditRange "2024-01-01T09:00" "2024-01-01T10:00";
                      Page1.ApplyRange Failed ] loaded)) in
  App1.timeSeriesEndpoint w3
  = Some "/timeseries?start=2024-01-01T09%3A00%3A00&end=2024-01-01T10%3A00%3A00".
Proof.
  intros w3.
  assert (Hs : "2024-01-01T09:00" <> "") by discriminate.
  assert (He : "2024-01-01T10:00" <> "") by discriminate.
  assert (Hge : Date_ge (H := ExampleHost.host) "2024-01-01T09:00" "2024-01-01T10:00" = false)
    by (vm_compute; reflexivity).
  assert (Hv : "24" <> "custom") by discriminate.
  pose proof (proj1 (proj2 (proj2 (proj2
      (X12_applied_range_survives_preset (H := ExampleHost.host) loaded
         "2024-01-01T09:00" "2024-01-01T10:00" "" "" "24" Failed Failed Failed
         Hs He Hge Hv))))) as Hw.
  etransitivity; [exact Hw |]. vm_compute. reflexivity.
Defined.

(** ** The range of the export *)

(** X13. The export and the charts read the same window: while an applied
    custom range is in force both send its start and end with the seconds
    added, and the export carries no range exactly when the charts would
    send no request at all ("custom" chosen, nothing applied). *)
Theorem X13_export_follows_charts `{Host} (now_end now_start : Z) (w : World) :
  (App1.timeSeriesEndpoint w = None
   <-> App1.export_params now_end now_start w = Some [])
  /\ (forall s e, customTimeRange w = (Some s, Some e) -> isCustomRange w = true ->
        s <> "" -> e <> "" ->
        App1.timeSeriesEndpoint w
        = Some ("/timeseries?start=" ++ encodeURIComponent (s ++ ":00")
                  ++ "&end=" ++ encodeURIComponent (e ++ ":00"))
        /\ App1.export_params now_end now_start w
           = Some [("start", s ++ ":00"); ("end", e ++ ":00")]).
Proof.
  split; [apply export_none_iff |].
  intros s e Hr Hc Hs He. unfold App1.timeSeriesEndpoint, App1.export_params.
  rewrite Hr, Hc. cbn [truthy_str andb].
  rewrite (eqb_empty_false _ Hs), (eqb_empty_false _ He). now split.
Qed.

(** X13 after the range 09:00 to 10:00 has been applied on the loaded page. *)
Lemma X13_export_follows_charts_witness :
  let w := Page1.run (H := ExampleHost.host)
             [ Page1.EditRange "2024-01-01T09:00" "2024-01-01T10:00";
               Page1.ApplyRange Failed ] loaded in
  App1.export_params (H := ExampleHost.host) 0 0 w
  = Some [("start", "2024-01-01T09:00:00"); ("end", "2024-01-01T10:00:00")].
Proof.
  intros w.
  assert (Hs : "2024-01-01T09:00" <> "") by discriminate.
  assert (He : "2024-01-01T10:00" <> "") by discriminate.
  assert (Hr : customTimeRange w = (Some "2024-01-01T09:00", Some "2024-01-01T10:00"))
    by (vm_compute; reflexivity).
  assert (Hc : isCustomRange w = true) by (vm_compute; reflexivity).
  exact (proj2 (proj2 (X13_export_follows_charts (H := ExampleHost.host) 0 0 w)
                  "2024-01-01T09:00" "2024-01-01T10:00" Hr Hc Hs He)).
Defined.

(** X14. With a preset of a whole number of hours selected, the export
    asks for exactly the last [h] hours: from [h] times 3 600 000 ms before
    the clock reading to the clock reading, both as ISO instants. When the
    value of the select is not a number, [downloadCSV] throws before its
    [try]: no request leaves and nothing is shown to the user. *)
Theorem X14_preset_export_window `{Host} (now : Z) (h : Z) (w : World) :
  isCustomRange w && truthy_str (fst (customTimeRange w))
    && truthy_str (snd (customTimeRange w)) = false ->
  timeRange w <> "custom" ->
  (ToNumber (timeRange w) = Some (inject_Z h) ->
   Z.abs (now - h * 3600000) <= 8640000000000000 ->
   App1.export_params now now w
   = Some [ ("start", Date_toISOString (now - h * 3600000));
            ("end", Date_toISOString now) ])
  /\ (ToNumber (timeRange w) = None ->
      App1.downloadCSV_send now now w = Throw "RangeError" w).
Proof.
  intros Hoff Hpreset.
  assert (Hneq : (timeRange w =? "custom")%string = false) by now apply String.eqb_neq.
  split.
  - intros Hnum Hfit. unfold App1.export_params.
    destruct (customTimeRange w) as [cs ce]. cbn [fst snd] in Hoff.
    rewrite Hoff, Hneq, Hnum. cbn [negb].
    assert (Hq : (inject_Z now - inject_Z h * 60 * 60 * 1000 == inject_Z (now - h * 3600000))%Q).
    { unfold Qeq, Qminus, Qplus, Qmult, Qopp, inject_Z. cbn [Qnum Qden]. lia. }
    assert (Hclip : App1.TimeClip (inject_Z now - inject_Z h * 60 * 60 * 1000)%Q
                    = Some (now - h * 3600000)).
    { unfold App1.TimeClip.
      replace (Qden (inject_Z now - inject_Z h * 60 * 60 * 1000)%Q) with 1%positive
        by reflexivity.
      replace (Qnum (inject_Z now - inject_Z h * 60 * 60 * 1000)%Q)
        with (now - h * 3600000).
      - rewrite Z.quot_1_r. now rewrite (proj2 (Z.leb_le _ _) Hfit).
      - unfold Qminus, Qplus, Qmult, Qopp, inject_Z. cbn [Qnum Qden]. lia. }
    now rewrite Hclip.
  - intros Hnan. unfold App1.downloadCSV_send, App1.export_params.
    destruct (customTimeRange w) as [cs ce]. cbn [fst snd] in Hoff.
    now rewrite Hoff, Hneq, Hnan.
Qed.

(** X14 on the scenario of the specification: 24 hours before
    2024-01-02T00:00:00Z. *)
Lemma X14_preset_export_window_witness :
  App1.export_params (H := ExampleHost.host) 1704153600000 1704153600000 (initial "24" "temp")
  = Some [ ("start", "2024-01-01T00:00:00.000Z"); ("end", "2024-01-02T00:00:00.000Z") ].
Proof.
  assert (Hp : timeRange (initial "24" "temp") <> "custom") by discriminate.
  assert (Hfit : Z.abs (1704153600000 - 24 * 3600000) <= 8640000000000000)
    by (vm_compute; discriminate).
  pose proof (proj1 (X14_preset_export_window (H := ExampleHost.host) 1704153600000 24
                       (initial "24" "temp") eq_refl Hp) eq_refl Hfit) as Hw.
  etransitivity; [exact Hw |]. vm_compute. reflexivity.
Defined.

(** ** The start-up round *)

Lemma live_frame (r : Response (list Reading)) (w : World) :
  let w' := App1.fetchLiveData r w in
  nodeStatsContainer w' = nodeStatsContainer w /\ decisionsContainer w' = decisionsContainer w
  /\ markers w' = markers w /\ heatLayer w' = heatLayer w /\ charts w' = charts w
  /\ heatmapMetric w' = heatmapMetric w /\ selection w' = selection w.
Proof.
  unfold App1.fetchLiveData, App1.fetchLiveData_recv, App1.fetchAPI_recv,
    App1.updateLiveDataFeed.
  destruct r as [[| d B] |]; cases; repeat split.
Qed.

Lemma stats_frame (r : Response (list NodeSummary)) (w : World) :
  let w' := App1.fetchNodeStats r w in
  liveDataContainer w' = liveDataContainer w
  /\ lastLiveDataTimestamp w' = lastLiveDataTimestamp w
  /\ decisionsContainer w' = decisionsContainer w
  /\ markers w' = markers w /\ heatLayer w' = heatLayer w /\ charts w' = charts w
  /\ heatmapMetric w' = heatmapMetric w /\ selection w' = selection w.
Proof. unfold App1.fetchNodeStats. destruct r; repeat split. Qed.

Lemma decisions_frame (r : Response (list Decision)) (w : World) :
  let w' := App1.fetchDecisions r w in
  liveDataContainer w' = liveDataContainer w
  /\ lastLiveDataTimestamp w' = lastLiveDataTimestamp w
  /\ nodeStatsContainer w' = nodeStatsContainer w
  /\ markers w' = markers w /\ heatLayer w' = heatLayer w /\ charts w' = charts w
  /\ heatmapMetric w' = heatmapMetric w /\ selection w' = selection w.
Proof. unfold App1.fetchDecisions. destruct r; repeat split. Qed.

Lemma locations_frame (r : Response (list NodeLocation)) (w : World) :
  let w' := App1.fetchNodeLocations r w in
  liveDataContainer w' = liveDataContainer w
  /\ lastLiveDataTimestamp w' = lastLiveDataTimestamp w
  /\ nodeStatsContainer w' = nodeStatsContainer w
  /\ decisionsContainer w' = decisionsContainer w /\ charts w' = charts w
  /\ selection w' = selection w.
Proof.
  unfold App1.fetchNodeLocations, App1.fetchAPI_recv, App1.updateMap.
  destruct r as [[| l ls] |]; cases; repeat split.
Qed.

Lemma series_frame `{Host} (r : Response (list TimeSeriesPoint)) (w : World) :
  let w' := world_of (App1.fetchTimeSeriesData r w) in
  liveDataContainer w' = liveDataContainer w
  /\ lastLiveDataTimestamp w' = lastLiveDataTimestamp w
  /\ nodeStatsContainer w' = nodeStatsContainer w
  /\ decisionsContainer w' = decisionsContainer w
  /\ markers w' = markers w /\ heatLayer w' = heatLayer w.
Proof.
  unfold App1.fetchTimeSeriesData, App1.fetchTimeSeriesData_recv, App1.fetchAPI_recv,
    App1.updateCharts.
  destruct (App1.timeSeriesEndpoint w); [| repeat split].
  destruct r as [[| p ps] |]; cases; repeat split.
Qed.

(** What a locations round trip draws is read off the response, the
    selected metric and the heat layer held before. *)
Lemma locations_own (r : Response (list NodeLocation)) (w w0 : World) :
  heatmapMetric w0 = heatmapMetric w -> markers w0 = markers w ->
  heatLayer w0 = heatLayer w ->
  markers (App1.fetchNodeLocations r w0) = markers (App1.fetchNodeLocations r w)
  /\ heatLayer (App1.fetchNodeLocations r w0) = heatLayer (App1.fetchNodeLocations r w).
Proof.
  intros Hm Hmk Hh.
  unfold App1.fetchNodeLocations, App1.fetchAPI_recv, App1.updateMap.
  destruct r as [[| l ls] |]; cbn [heatmapMetric App1.fetchAPI_send fetch];
    try (split; assumption).
  rewrite Hm. destruct (App1.map_layers (heatmapMetric w) (l :: ls)) as [ms hp].
  destruct (CONFIG.FEATURES_heatMap && (0 <? List.length hp)%nat);
    cbn [markers heatLayer set_map]; split; try reflexivity. exact Hh.
Qed.

(** What a chart round trip draws is read off the response, the selection
    and the charts held before. *)
Lemma series_own `{Host} (r : Response (list TimeSeriesPoint)) (w w0 : World) :
  selection w0 = selection w -> charts w0 = charts w ->
  charts (world_of (App1.fetchTimeSeriesData r w0))
  = charts (world_of (App1.fetchTimeSeriesData r w)).
Proof.
  intros Hsel Hc. unfold App1.fetchTimeSeriesData.
  rewrite (timeSeriesEndpoint_selection _ _ Hsel).
  destruct (App1.timeSeriesEndpoint w) as [ep |]; [| exact Hc].
  unfold App1.fetchTimeSeriesData_recv, App1.fetchAPI_recv, App1.updateCharts.
  destruct r as [[| p ps] |]; cbn [world_of charts App1.fetchAPI_send fetch
                                   App1.updateConnectionStatus set_isConnected];
    try exact Hc.
  destruct (group_by_node (p :: ps)); [reflexivity | exact Hc].
Qed.

(** X15. In the start-up round every resource is drawn from its own
    response alone: the feed, the node statistics, the decisions, the map
    and the charts after the round are what the round trip of that resource
    gives on its own, whatever the other four responses are, failures and
    the chart exception included. All requests leave, in the order of the
    source, whatever comes back. *)
Theorem X15_startup_isolation `{Host} (rs : App1.Responses) (w : World) :
  let w' := world_of (App1.fetchAllData rs w) in
  fetched w'
  = (fetched w
     ++ urls (["/latest?limit=10"; "/nodes"; "/decisions"; "/nodes/locations"]
              ++ opt_list (App1.timeSeriesEndpoint w)))%list
  /\ liveDataContainer w' = liveDataContainer (App1.fetchLiveData (App1.res_live rs) w)
  /\ lastLiveDataTimestamp w'
     = lastLiveDataTimestamp (App1.fetchLiveData (App1.res_live rs) w)
  /\ nodeStatsContainer w' = nodeStatsContainer (App1.fetchNodeStats (App1.res_stats rs) w)
  /\ decisionsContainer w'
     = decisionsContainer (App1.fetchDecisions (App1.res_decisions rs) w)
  /\ markers w' = markers (App1.fetchNodeLocations (App1.res_locations rs) w)
  /\ heatLayer w' = heatLayer (App1.fetchNodeLocations (App1.res_locations rs) w)
  /\ charts w' = charts (world_of (App1.fetchTimeSeriesData (App1.res_series rs) w)).
Proof.
  intros w'.
  set (w1 := App1.fetchLiveData (App1.res_live rs) w).
  set (w2 := App1.fetchNodeStats (App1.res_stats rs) w1).
  set (w3 := App1.fetchDecisions (App1.res_decisions rs) w2).
  set (w4 := App1.fetchNodeLocations (App1.res_locations rs) w3).
  set (w5 := world_of (App1.fetchTimeSeriesData (App1.res_series rs) w4)).
  assert (Hw' : w' = w5 \/ w' = set_isConnected true w5).
  { unfold w', App1.fetchAllData. fold w1 w2 w3 w4. unfold w5.
    destruct (App1.fetchTimeSeriesData (App1.res_series rs) w4); [now right | now left]. }
  destruct (live_frame (App1.res_live rs) w) as (N1 & D1 & M1 & L1 & C1 & Mt1 & S1).
  destruct (stats_frame (App1.res_stats rs) w1) as (F2 & T2 & D2 & M2 & L2 & C2 & Mt2 & S2).
  destruct (decisions_frame (App1.res_decisions rs) w2)
    as (F3 & T3 & N3 & M3 & L3 & C3 & Mt3 & S3).
  destruct (locations_frame (App1.res_locations rs) w3) as (F4 & T4 & N4 & D4 & C4 & S4).
  destruct (series_frame (App1.res_series rs) w4) as (F5 & T5 & N5 & D5 & M5 & L5).
  fold w1 in N1, D1, M1, L1, C1, Mt1, S1. fold w2 in F2, T2, D2, M2, L2, C2, Mt2, S2.
  fold w3 in F3, T3, N3, M3, L3, C3, Mt3, S3. fold w4 in F4, T4, N4, D4, C4, S4.
  fold w5 in F5, T5, N5, D5, M5, L5.
  assert (Hlog : fetched w5
    = (fetched w
       ++ urls (["/latest?limit=10"; "/nodes"; "/decisions"; "/nodes/locations"]
                ++ opt_list (App1.timeSeriesEndpoint w)))%list).
  { pose proof (tick_fetched (App1.charts_ (App1.res_series rs)) w4) as H5.
    pose proof (tick_fetched (App1.map_ (App1.res_locations rs)) w3) as H4.
    pose proof (tick_fetched (App1.decisions (App1.res_decisions rs)) w2) as H3.
    pose proof (tick_fetched (App1.nodeStats (App1.res_stats rs)) w1) as H2.
    pose proof (tick_fetched (App1.liveData (App1.res_live rs)) w) as H1.
    cbn [App1.tick endpoint_of opt_list] in H1, H2, H3, H4, H5.
    fold w1 in H1. fold w2 in H2. fold w3 in H3. fold w4 in H4. fold w5 in H5.
    rewrite H5, H4, H3, H2, H1.
    assert (Hep : App1.timeSeriesEndpoint w4 = App1.timeSeriesEndpoint w).
    { apply timeSeriesEndpoint_selection. congruence. }
    rewrite Hep. unfold urls. rewrite map_app. cbn [map app].
    now rewrite <- !app_assoc. }
  assert (Hmap : markers w4 = markers (App1.fetchNodeLocations (App1.res_locations rs) w)
                 /\ heatLayer w4
                    = heatLayer (App1.fetchNodeLocations (App1.res_locations rs) w)).
  { apply locations_own; congruence. }
  assert (Hch : charts w5
                = charts (world_of (App1.fetchTimeSeriesData (App1.res_series rs) w))).
  { apply series_own; congruence. }
  assert (Hst : nodeStatsContainer w2
                = nodeStatsContainer (App1.fetchNodeStats (App1.res_stats rs) w)).
  { unfold w2, App1.fetchNodeStats. destruct (App1.res_stats rs); [reflexivity |].
    cbn. exact N1. }
  assert (Hde : decisionsContainer w3
                = decisionsContainer (App1.fetchDecisions (App1.res_decisions rs) w)).
  { unfold w3, App1.fetchDecisions. destruct (App1.res_decisions rs); [reflexivity |].
    cbn. congruence. }
  destruct Hmap as [Hmk Hhl].
  destruct Hw' as [-> | ->];
    cbn [fetched liveDataContainer lastLiveDataTimestamp nodeStatsContainer
         decisionsContainer markers heatLayer charts set_isConnected];
    repeat split; congruence.
Qed.

(** ** Start-up *)

Lemma series_ok_normal `{Host} (rs : App1.Responses) (w : World) :
  series_ok rs = true -> exists w', App1.fetchAllData rs w = Normal w'.
Proof.
  intros Hok. unfold App1.fetchAllData, App1.fetchTimeSeriesData,
    App1.fetchTimeSeriesData_recv.
  set (w4 := App1.fetchNodeLocations _ _).
  destruct (App1.timeSeriesEndpoint w4) as [ep |]; [| eauto].
  unfold series_ok in Hok. destruct (App1.res_series rs) as [pts |];
    cbn [App1.fetchAPI_recv]; [| eauto].
  unfold App1.updateCharts. destruct pts as [| p ps]; [eauto |].
  destruct (group_fold_total (p :: ps) []) as [nd Hg].
  { intros q Hq. rewrite forallb_forall in Hok. specialize (Hok q Hq).
    now apply negb_true_iff in Hok. }
  change (group_by_node (p :: ps) = Some nd) in Hg. rewrite Hg. eauto.
Qed.

Lemma tick_stays_disconnected `{Host} (t : App1.Timer) (w : World) :
  isConnected w = false -> isConnected (App1.tick t w) = false.
Proof.
  intros Hw. rewrite tick_isConnected, Hw. now destruct (failed t && requests t w).
Qed.

Lemma series_bad_throws `{Host} (rs : App1.Responses) (w : World) :
  series_ok rs = false -> App1.timeSeriesEndpoint w <> None -> isConnected w = false ->
  exists w', App1.fetchAllData rs w = Throw "TypeError" w' /\ isConnected w' = false.
Proof.
  intros Hbad Hep Hdis. unfold App1.fetchAllData.
  set (w4 := App1.fetchNodeLocations _ _).
  assert (Hsel : selection w4 = selection w).
  { unfold w4.
    destruct (locations_frame (App1.res_locations rs)
                (App1.fetchDecisions (App1.res_decisions rs)
                   (App1.fetchNodeStats (App1.res_stats rs)
                      (App1.fetchLiveData (App1.res_live rs) w))))
      as (_ & _ & _ & _ & _ & S4).
    destruct (decisions_frame (App1.res_decisions rs)
                (App1.fetchNodeStats (App1.res_stats rs)
                   (App1.fetchLiveData (App1.res_live rs) w)))
      as (_ & _ & _ & _ & _ & _ & _ & S3).
    destruct (stats_frame (App1.res_stats rs) (App1.fetchLiveData (App1.res_live rs) w))
      as (_ & _ & _ & _ & _ & _ & _ & S2).
    destruct (live_frame (App1.res_live rs) w) as (_ & _ & _ & _ & _ & _ & S1).
    congruence. }
  unfold App1.fetchTimeSeriesData. rewrite (timeSeriesEndpoint_selection _ _ Hsel).
  destruct (App1.timeSeriesEndpoint w) as [ep |]; [| now elim Hep].
  unfold series_ok in Hbad. destruct (App1.res_series rs) as [pts |]; [| discriminate].
  unfold App1.fetchTimeSeriesData_recv. cbn [App1.fetchAPI_recv].
  assert (Hthrow : exists p, In p pts /\ inherited (node_id p) = true).
  { apply not_true_iff_false in Hbad. rewrite forallb_forall in Hbad.
    destruct (existsb (fun p => inherited (node_id p)) pts) eqn:E.
    - apply existsb_exists in E. exact E.
    - elim Hbad. intros q Hq. apply negb_true_iff.
      destruct (inherited (node_id q)) eqn:Eq; [| reflexivity].
      assert (Hex : existsb (fun p => inherited (node_id p)) pts = true)
        by (apply existsb_exists; eauto).
      congruence. }
  assert (Hnone : group_by_node pts = None).
  { apply group_fold_throws; [intros k [] | exact Hthrow]. }
  unfold App1.updateCharts. destruct pts as [| p ps]; [now destruct Hthrow as [q [[] _]] |].
  rewrite Hnone. eexists. split; [reflexivity |].
  cbn [isConnected App1.fetchAPI_send fetch].
  change w4 with
    (App1.tick (App1.map_ (App1.res_locations rs))
       (App1.tick (App1.decisions (App1.res_decisions rs))
          (App1.tick (App1.nodeStats (App1.res_stats rs))
             (App1.tick (App1.liveData (App1.res_live rs)) w)))).
  now repeat apply tick_stays_disconnected.
Qed.

(** X16. Start-up registers everything as soon as the start-up round
    returns, and it returns whenever no chart row can make [updateCharts]
    throw, even if all five requests failed: one stream is open, the five
    timers run with the configured periods, the four listeners are in
    place, every event finds its handler, and the page shows Connected. *)
Theorem X16_startup_registers `{Host} (rs : App1.Responses) (hours metric : string) :
  series_ok rs = true \/ hours = "custom" ->
  let p := Page1.init rs (Page1.blank hours metric) in
  Page1.intervals p
  = [ ("fetchLiveData", 5000); ("fetchNodeStats", 10000); ("fetchDecisions", 8000);
      ("fetchNodeLocations", 15000); ("fetchTimeSeriesData", 30000) ]
  /\ Page1.eventSource p = Some (CONFIG.API_BASE_URL ++ "/api/stream")
  /\ Page1.openStreams p = 1%nat
  /\ Page1.listeners p
     = [ ("timeRange", "change"); ("applyCustomRange", "click");
         ("downloadCsvBtn", "click"); ("heatmapMetric", "change") ]
  /\ isConnected (Page1.world p) = true
  /\ (forall e, Page1.enabled e p = true).
Proof.
  intros Hok p.
  assert (Hrun : exists w', App1.fetchAllData rs (Page1.initCharts (initial hours metric))
                            = Normal (set_isConnected true w')).
  { destruct (fetchAllData_as_ticks rs (Page1.initCharts (initial hours metric)))
      as [Hn | Ht]; [eauto |].
    exfalso. destruct Hok as [Hok | ->].
    - destruct (series_ok_normal rs (Page1.initCharts (initial hours metric)) Hok)
        as [w' Hw']. congruence.
    - unfold App1.fetchAllData in Ht.
      set (w4 := App1.fetchNodeLocations _ _) in Ht.
      assert (Hnone : App1.timeSeriesEndpoint w4 = None).
      { unfold w4.
        destruct (locations_frame (App1.res_locations rs)
                    (App1.fetchDecisions (App1.res_decisions rs)
                       (App1.fetchNodeStats (App1.res_stats rs)
                          (App1.fetchLiveData (App1.res_live rs)
                             (Page1.initCharts (initial "custom" metric))))))
          as (_ & _ & _ & _ & _ & S4).
        destruct (decisions_frame (App1.res_decisions rs)
                    (App1.fetchNodeStats (App1.res_stats rs)
                       (App1.fetchLiveData (App1.res_live rs)
                          (Page1.initCharts (initial "custom" metric)))))
          as (_ & _ & _ & _ & _ & _ & _ & S3).
        destruct (stats_frame (App1.res_stats rs)
                    (App1.fetchLiveData (App1.res_live rs)
                       (Page1.initCharts (initial "custom" metric))))
          as (_ & _ & _ & _ & _ & _ & _ & S2).
        destruct (live_frame (App1.res_live rs) (Page1.initCharts (initial "custom" metric)))
          as (_ & _ & _ & _ & _ & _ & S1).
        rewrite timeSeriesEndpoint_window, S4, S3, S2, S1. reflexivity. }
      unfold App1.fetchTimeSeriesData in Ht. rewrite Hnone in Ht. discriminate. }
  destruct Hrun as [w' Hrun]. unfold p, Page1.init. cbn [Page1.world Page1.blank].
  rewrite Hrun. cbn.
  repeat split. intros e. destruct e as [t | | | | | | |]; try reflexivity.
  now destruct t.
Qed.

(** X16 with every start-up request failing. *)
Lemma X16_startup_registers_witness :
  let p := Page1.init (H := ExampleHost.host)
             (App1.mkResponses Failed Failed Failed Failed Failed)
             (Page1.blank "24" "temp") in
  isConnected (Page1.world p) = true /\ List.length (Page1.intervals p) = 5%nat.
Proof.
  intros p.
  pose proof (X16_startup_registers (H := ExampleHost.host)
                (App1.mkResponses Failed Failed Failed Failed Failed) "24" "temp"
                (or_introl eq_refl)) as (Hi & _ & _ & _ & Hc & _).
  split; [exact Hc |]. fold p in Hi. now rewrite Hi.
Defined.

Lemma dead_dispatch `{Host} (e : Page1.Event) (p : Page1.Page) :
  Page1.intervals p = [] -> Page1.listeners p = [] -> Page1.eventSource p = None ->
  Page1.intervals (Page1.dispatch e p) = []
  /\ Page1.listeners (Page1.dispatch e p) = []
  /\ Page1.eventSource (Page1.dispatch e p) = None
  /\ shown (Page1.world (Page1.dispatch e p)) = shown (Page1.world p).
Proof.
  intros Hi Hl He. unfold Page1.dispatch, Page1.enabled, Page1.calls, Page1.listens.
  rewrite Hi, Hl, He.
  destruct e; cbn [existsb Page1.is_some Page1.step Page1.with_world Page1.intervals
                   Page1.listeners Page1.eventSource Page1.world];
    repeat split; assumption.
Qed.

(** X17. If a chart row of the start-up response has a [node_id] that
    names a property of [Object.prototype], and a preset is selected,
    start-up ends in the exception: no timer, no stream and no listener is
    ever registered. From then on no event sends a request or changes what
    the page shows, and the page shows Disconnected. *)
Theorem X17_startup_exception_freezes_page `{Host} (rs : App1.Responses)
    (hours metric : string) (events : list Page1.Event) :
  series_ok rs = false -> hours <> "custom" ->
  let p := Page1.init rs (Page1.blank hours metric) in
  let p' := Page1.run_page events p in
  Page1.intervals p' = [] /\ Page1.listeners p' = [] /\ Page1.eventSource p' = None
  /\ shown (Page1.world p') = shown (Page1.world p)
  /\ isConnected (Page1.world p') = false.
Proof.
  intros Hbad Hpreset p p'.
  assert (Hep : App1.timeSeriesEndpoint (Page1.initCharts (initial hours metric)) <> None).
  { rewrite timeSeriesEndpoint_window. cbn.
    now rewrite (proj2 (String.eqb_neq hours "custom") Hpreset). }
  destruct (series_bad_throws rs (Page1.initCharts (initial hours metric)) Hbad Hep eq_refl)
    as [w' [Hthrow Hdis]].
  assert (Hp : Page1.intervals p = [] /\ Page1.listeners p = []
               /\ Page1.eventSource p = None /\ Page1.world p = w').
  { unfold p, Page1.init. cbn [Page1.world Page1.blank]. rewrite Hthrow. now repeat split. }
  destruct Hp as (Hi & Hl & He & Hw).
  assert (Hall : forall q, Page1.intervals q = [] -> Page1.listeners q = [] ->
                   Page1.eventSource q = None ->
                   let q' := Page1.run_page events q in
                   Page1.intervals q' = [] /\ Page1.listeners q' = []
                   /\ Page1.eventSource q' = None
                   /\ shown (Page1.world q') = shown (Page1.world q)).
  { clear. induction events as [| e events IH]; intros q Hi Hl He; [now repeat split |].
    destruct (dead_dispatch e q Hi Hl He) as (Hi' & Hl' & He' & Hs').
    destruct (IH (Page1.dispatch e q) Hi' Hl' He') as (Hi2 & Hl2 & He2 & Hs2).
    cbn zeta in *. unfold Page1.run_page in *. cbn [fold_left].
    repeat split; try assumption. congruence. }
  destruct (Hall p Hi Hl He) as (Hi' & Hl' & He' & Hs').
  fold p' in Hi', Hl', He', Hs'.
  repeat split; try assumption.
  assert (Hc : isConnected (Page1.world p') = isConnected (Page1.world p)).
  { unfold shown in Hs'. congruence. }
  rewrite Hc, Hw. exact Hdis.
Qed.

(** X17 with a start-up row of node [toString], then a chart tick and a
    download: nothing is requested after start-up. *)
Lemma X17_startup_exception_freezes_page_witness :
  let rs := App1.mkResponses (Ok []) (Ok []) (Ok []) (Ok [])
              (Ok [point "toString" "2024-01-01T10:00" 20]) in
  let p := Page1.init (H := ExampleHost.host) rs (Page1.blank "24" "temp") in
  let p' := Page1.run_page (H := ExampleHost.host)
              [ Page1.Tick (App1.charts_ (Ok [])); Page1.Download 0 0 (Ok tt) ] p in
  fetched (Page1.world p') = fetched (Page1.world p).
Proof.
  intros rs p p'.
  assert (Hp : "24" <> "custom") by discriminate.
  pose proof (X17_startup_exception_freezes_page (H := ExampleHost.host) rs "24" "temp"
                [ Page1.Tick (App1.charts_ (Ok [])); Page1.Download 0 0 (Ok tt) ]
                eq_refl Hp) as (_ & _ & _ & Hs & _).
  fold p p' in Hs. unfold shown in Hs. congruence.
Defined.

(** ** Push messages in the two listings *)

(** X18. What a push message that parses refreshes. In the first listing
    it asks for the time series of the current window and never touches the
    live feed; in the second it puts its reading on top of the feed and asks
    for the node statistics and the decisions, but not for the time series.
    Both set Connected. *)
Theorem X18_push_message_refreshes (d : Reading) (w : World) :
  (forall (A : Type) (body : SseBody A),
     liveDataContainer (App1.onmessage body w) = liveDataContainer w)
  /\ (forall (A : Type) (payload : A),
        fetched (App1.onmessage (Parsed payload) w)
        = (fetched w ++ urls (opt_list (App1.timeSeriesEndpoint w)))%list
        /\ isConnected (App1.onmessage (Parsed payload) w) = true)
  /\ (exists w', App2.onmessage (Parsed d) w = Normal w'
        /\ fetched w' = (fetched w ++ urls ["/nodes"; "/decisions"])%list
        /\ (exists rest, feed (liveDataContainer w') = d :: rest)
        /\ charts w' = charts w
        /\ isConnected w' = true).
Proof.
  split; [| split].
  - intros A body. destruct body as [payload |]; [| reflexivity].
    unfold App1.onmessage, App1.fetchTimeSeriesData_send.
    now destruct (App1.timeSeriesEndpoint w).
  - intros A payload. split; [| reflexivity].
    unfold App1.onmessage, App1.updateConnectionStatus. cbn [fetched set_isConnected].
    apply send_series_fetched.
  - eexists. split; [reflexivity |].
    cbn [fetched charts isConnected liveDataContainer App2.updateConnectionStatus
         set_isConnected App2.handleRealtimeUpdate App2.fetchAPI_send fetch
         App2.addToLiveDataFeed set_liveDataContainer].
    split; [| split; [| split; reflexivity]].
    + unfold urls. cbn [map]. now rewrite <- app_assoc.
    + rewrite (evict_firstn _ _ (Nat.le_add_r _ 10)).
      cbn [firstn feed]. eauto.
Qed.

(** ** Polls and pushes on the feed of the second listing *)

(** X19. In the second listing a polled batch replaces everything the
    pushes had put on the feed and is shown whole, however long it is; the
    limit of ten is applied by the next push, which keeps the pushed reading
    and the first nine of the batch. *)
Theorem X19_poll_overwrites_pushes (B : list Reading) (d : Reading) (w : World) :
  B <> [] ->
  let w1 := App2.fetchLiveData (Ok B) w in
  feed (liveDataContainer w1) = B
  /\ feed (liveDataContainer (App2.addToLiveDataFeed d w1)) = firstn 10 (d :: B).
Proof.
  intros Hne w1.
  assert (Hc : liveDataContainer w1 = map Item B).
  { unfold w1, App2.fetchLiveData. cbn [App2.fetchAPI_recv].
    destruct B as [| b B]; [now elim Hne | reflexivity]. }
  assert (Hclean : no_placeholder (map Item B) = true).
  { clear. induction B as [| b B IH]; [reflexivity | exact IH]. }
  split; [rewrite Hc; apply feed_map_Item |].
  destruct (push_one d w1) as [_ Hfeed]; [right; now rewrite Hc |].
  now rewrite Hfeed, Hc, feed_map_Item.
Qed.

(** X19 on a batch of eleven readings. *)
Lemma X19_poll_overwrites_pushes_witness :
  let B := map (reading "n1") ["11"; "10"; "09"; "08"; "07"; "06"; "05"; "04"; "03"; "02"; "01"] in
  let w1 := App2.fetchLiveData (Ok B) (initial "24" "temperature") in
  List.length (feed (liveDataContainer w1)) = 11%nat.
Proof.
  intros B w1.
  assert (Hne : B <> []) by discriminate.
  pose proof (proj1 (X19_poll_overwrites_pushes B (reading "n2" "12")
                       (initial "24" "temperature") Hne)) as Hw.
  fold w1 in Hw. now rewrite Hw.
Defined.

(** ** Empty responses in the first listing *)

(** X20. An empty array that follows a response with content is drawn
    differently by the renderers of the first listing: it empties the live
    feed, but the map keeps the markers of the earlier response and the
    charts keep its datasets, so locations and series that have gone stay
    on the page. *)
Theorem X20_empty_after_content `{Host} (B : list Reading) (locations : list NodeLocation)
    (pts : list TimeSeriesPoint) (w : World) :
  locations <> [] ->
  feed (liveDataContainer (App1.fetchLiveData (Ok []) (App1.fetchLiveData (Ok B) w))) = []
  /\ markers (App1.fetchNodeLocations (Ok []) (App1.fetchNodeLocations (Ok locations) w))
     = map (fun l => mkMarker (lat l) (lon l) l) (filter has_coords locations)
  /\ heatOnMap (App1.fetchNodeLocations (Ok []) (App1.fetchNodeLocations (Ok locations) w))
     = heatOnMap (App1.fetchNodeLocations (Ok locations) w)
  /\ charts (world_of (App1.fetchTimeSeriesData (Ok [])
                         (world_of (App1.fetchTimeSeriesData (Ok pts) w))))
     = charts (world_of (App1.fetchTimeSeriesData (Ok pts) w)).
Proof.
  intros Hne. split; [reflexivity | split; [| split]].
  - change (markers (App1.fetchNodeLocations (Ok locations) w)
            = map (fun l => mkMarker (lat l) (lon l) l) (filter has_coords locations)).
    unfold App1.fetchNodeLocations. cbn [App1.fetchAPI_recv].
    destruct locations as [| l ls]; [now elim Hne |].
    unfold App1.updateMap.
    pose proof (map_step1_fold (heatmapMetric (App1.fetchAPI_send "/nodes/locations" w))
                  (l :: ls) ([], [])) as Hfold.
    fold (App1.map_layers (heatmapMetric (App1.fetchAPI_send "/nodes/locations" w)) (l :: ls))
      in Hfold.
    destruct (App1.map_layers (heatmapMetric (App1.fetchAPI_send "/nodes/locations" w))
                (l :: ls)) as [ms hp].
    injection Hfold as Hms _. cbn [fst app] in Hms.
    destruct (CONFIG.FEATURES_heatMap && (0 <? List.length hp)%nat); exact Hms.
  - reflexivity.
  - set (w1 := world_of (App1.fetchTimeSeriesData (Ok pts) w)).
    unfold App1.fetchTimeSeriesData. now destruct (App1.timeSeriesEndpoint w1).
Qed.

(** X20 on the loaded page: its marker stays after an empty response. *)
Lemma X20_empty_after_content_witness :
  let a := location "n1" (JNum (417 # 10)) (JNum (-862 # 10)) (JNum 21) in
  markers (App1.fetchNodeLocations (Ok []) (App1.fetchNodeLocations (Ok [a]) loaded))
  = [mkMarker (JNum (417 # 10)) (JNum (-862 # 10)) a].
Proof.
  intros a.
  assert (Hne : [a] <> []) by discriminate.
  exact (proj1 (proj2 (X20_empty_after_content (H := ExampleHost.host) [] [a] [] loaded Hne))).
Defined.

(** ** Decision cards *)

Lemma replace_all_no_underscore (s : string) : underscores (replace_all_underscores s) = 0%nat.
Proof.
  induction s as [| c s IH]; [reflexivity |]. cbn [replace_all_underscores underscores].
  rewrite IH. destruct (Ascii.eqb_spec c "_"); [reflexivity |].
  now rewrite (proj2 (Ascii.eqb_neq c "_")).
Qed.

Lemma replace_first_count (s : string) :
  underscores (replace_first_underscore s) = Nat.pred (underscores s).
Proof.
  induction s as [| c s IH]; [reflexivity |].
  cbn [replace_first_underscore underscores].
  destruct (Ascii.eqb_spec c "_") as [-> | Hc].
  - reflexivity.
  - cbn [underscores]. rewrite (proj2 (Ascii.eqb_neq c "_") Hc). exact IH.
Qed.

Lemma replace_agree (s : string) :
  (underscores s <= 1)%nat -> replace_first_underscore s = replace_all_underscores s.
Proof.
  induction s as [| c s IH]; intros Hle; [reflexivity |].
  cbn [replace_first_underscore replace_all_underscores underscores] in *.
  destruct (Ascii.eqb_spec c "_") as [-> | Hc].
  - f_equal. assert (H0 : underscores s = 0%nat) by lia. clear - H0.
    induction s as [| c s IH]; [reflexivity |]. cbn [underscores replace_all_underscores] in *.
    destruct (Ascii.eqb c "_"); [discriminate |]. f_equal. now apply IH.
  - f_equal. apply IH. lia.
Qed.

(** X21. The action text of a decision card. The first listing replaces
    every underscore by a space: the text shown has none and has the length
    of the action. The second replaces the first underscore only, so the two
    show the same text exactly when the action has at most one underscore.
    A card whose action is "none" has no action line in the first listing
    and the line "Action: none" in the second; it is the only card without
    the warning or alert style. *)
Theorem X21_action_text (d : Decision) :
  underscores (replace_all_underscores (action d)) = 0%nat
  /\ String.length (replace_all_underscores (action d)) = String.length (action d)
  /\ (replace_first_underscore (action d) = replace_all_underscores (action d)
      <-> (underscores (action d) <= 1)%nat)
  /\ (actionLine1 d = None <-> action d = "none")
  /\ (action d = "none" -> actionLine2 d = Some "Action: none")
  /\ (cardClass d = "decision-card" <-> action d = "none").
Proof.
  split; [apply replace_all_no_underscore | split; [| split; [| split; [| split]]]].
  - induction (action d) as [| c s IH]; [reflexivity |]. cbn. now rewrite IH.
  - split; [| apply replace_agree].
    intros Heq. apply (f_equal underscores) in Heq.
    rewrite replace_first_count, replace_all_no_underscore in Heq. lia.
  - unfold actionLine1. destruct (String.eqb_spec (action d) "none") as [-> | Hn];
      cbn [negb]; split; try reflexivity; try discriminate. intros Hx. now elim Hn.
  - intros Hd. unfold actionLine2. now rewrite Hd.
  - unfold cardClass. destruct (String.eqb_spec (action d) "none") as [-> | Hn];
      cbn [negb]; [tauto |].
    split; [| intros Hx; now elim Hn].
    destruct (includes (action d) "warning" || includes (action d) "battery");
      discriminate.
Qed.

(** ** How failures surface *)

Lemma answer_series_isConnected `{Host} (sent : bool) (r : Response (list TimeSeriesPoint))
    (w : World) :
  isConnected (Page1.answer_series sent r w)
  = if sent && match r with Failed => true | Ok _ => false end then false
    else isConnected w.
Proof.
  unfold Page1.answer_series. destruct sent; [| reflexivity].
  unfold App1.fetchTimeSeriesData_recv. destruct r as [pts |]; cbn [App1.fetchAPI_recv andb].
  - apply updateCharts_isConnected.
  - reflexivity.
Qed.

Lemma step_isConnected `{Host} (e : Page1.Event) (w : World) :
  isConnected (Page1.step e w)
  = match verdict e w with Some b => b | None => isConnected w end.
Proof.
  destruct e as [t | parses r | | value r | s e' | r | value r | ne ns r];
    cbn [Page1.step verdict].
  - rewrite tick_isConnected. now destruct (failed t && requests t w).
  - destruct parses; [| reflexivity]. rewrite answer_series_isConnected.
    now destruct (Page1.is_some (App1.timeSeriesEndpoint w)), r.
  - reflexivity.
  - rewrite answer_series_isConnected.
    assert (Hc : isConnected (App1.timeRange_change value w) = isConnected w).
    { unfold App1.timeRange_change, App1.fetchTimeSeriesData_send. cases; reflexivity. }
    rewrite Hc. now destruct (negb (value =? "custom")%string), r.
  - reflexivity.
  - rewrite answer_series_isConnected.
    assert (Hc : isConnected (App1.applyCustomRange_click w) = isConnected w).
    { unfold App1.applyCustomRange_click, App1.fetchTimeSeriesData_send.
      cases; reflexivity. }
    rewrite Hc. now destruct (Page1.accepted w), r.
  - unfold App1.fetchNodeLocations. destruct r as [locs |]; cbn [App1.fetchAPI_recv andb].
    + now rewrite updateMap_isConnected.
    + reflexivity.
  - unfold App1.downloadCSV_send.
    destruct (App1.export_params ne ns w); destruct r; reflexivity.
Qed.

Lemma step_alerts `{Host} (e : Page1.Event) (w : World) :
  alerts (Page1.step e w) = (alerts w ++ alerts_of e w)%list.
Proof.
  assert (Hans : forall sent r w0, alerts (Page1.answer_series sent r w0) = alerts w0).
  { intros sent r w0.
    now destruct (answer_series_untouched sent r w0) as ((_ & _ & _ & _ & _ & Ha) & _). }
  destruct e as [t | parses r | | value r | s e' | r | value r | ne ns r];
    cbn [Page1.step alerts_of]; rewrite ?app_nil_r.
  - destruct t as [r | r | r | r | r]; cbn [App1.tick].
    + unfold App1.fetchLiveData.
      now destruct (fetchLiveData_recv_untouched r (App1.fetchAPI_send "/latest?limit=10" w))
        as (_ & _ & _ & _ & _ & Ha).
    + unfold App1.fetchNodeStats. destruct r; reflexivity.
    + unfold App1.fetchDecisions. destruct r; reflexivity.
    + unfold App1.fetchNodeLocations. destruct r as [locs |]; [| reflexivity].
      cbn [App1.fetchAPI_recv].
      now destruct (updateMap_untouched locs (App1.fetchAPI_send "/nodes/locations" w))
        as ((_ & _ & _ & _ & _ & Ha) & _).
    + unfold App1.fetchTimeSeriesData. destruct (App1.timeSeriesEndpoint w) as [ep |];
        [| reflexivity].
      now destruct (series_recv_untouched r (App1.fetchAPI_send ep w))
        as ((_ & _ & _ & _ & _ & Ha) & _).
  - destruct parses; [| reflexivity]. rewrite Hans.
    unfold App1.onmessage, App1.fetchTimeSeriesData_send. cases; reflexivity.
  - reflexivity.
  - rewrite Hans. unfold App1.timeRange_change, App1.fetchTimeSeriesData_send.
    cases; reflexivity.
  - reflexivity.
  - rewrite Hans. unfold App1.applyCustomRange_click, App1.fetchTimeSeriesData_send.
    destruct ((startTime w =? "")%string || (endTime w =? "")%string); [reflexivity |].
    destruct (Date_ge (startTime w) (endTime w)); [reflexivity |].
    cases; cbn; now rewrite app_nil_r.
  - unfold App1.fetchNodeLocations. destruct r as [locs |]; [| reflexivity].
    cbn [App1.fetchAPI_recv].
    now destruct (updateMap_untouched locs
                    (App1.fetchAPI_send "/nodes/locations" (set_heatmapMetric value w)))
      as ((_ & _ & _ & _ & _ & Ha) & _).
  - unfold App1.downloadCSV_send.
    destruct (App1.export_params ne ns w); destruct r; cbn; now rewrite ?app_nil_r.
Qed.

(** X22. How the first listing surfaces failures. The connection flag
    after an event is false if a request the handler sent through
    [fetchAPI] failed or the stream reported an error, true if the handler
    parsed a push message and the chart refresh it started did not fail,
    and unchanged otherwise: it never depends on earlier events than the
    last one that speaks. Only a refused custom range and a failed download
    raise an alert; a failed download does not touch the flag and a failed
    data request never alerts. *)
Theorem X22_failures_surface `{Host} (w : World) :
  (forall e, isConnected (Page1.step e w)
             = match verdict e w with Some b => b | None => isConnected w end)
  /\ (forall e, alerts (Page1.step e w) = (alerts w ++ alerts_of e w)%list)
  /\ (forall now_end now_start r,
        isConnected (Page1.step (Page1.Download now_end now_start r) w) = isConnected w)
  /\ (forall t, alerts (Page1.step (Page1.Tick t) w) = alerts w).
Proof.
  split; [intros e; apply step_isConnected | split; [intros e; apply step_alerts | split]].
  - intros ne ns r. now rewrite step_isConnected.
  - intros t. rewrite step_alerts. cbn [alerts_of]. apply app_nil_r.
Qed.

(** ** Node ids that are numbers *)

Lemma insert_index_sorted (n : N) (k : string) (l : list (N * string)) :
  StronglySorted (fun a b => (fst a <= fst b)%N) l ->
  StronglySorted (fun a b => (fst a <= fst b)%N) (insert_index n k l).
Proof.
  induction l as [| [m k'] l IH]; intros Hs; cbn [insert_index].
  - repeat constructor.
  - inversion Hs as [| x y Hrest Hall]; subst.
    destruct (N.leb_spec n m) as [Hle | Hgt].
    + constructor; [exact Hs |]. constructor; [exact Hle |].
      rewrite Forall_forall in *. intros x Hx. specialize (Hall x Hx). cbn [fst] in *. lia.
    + constructor; [now apply IH |].
      rewrite Forall_forall in *. intros x Hx. apply insert_index_In in Hx.
      destruct Hx as [-> | Hx]; [cbn [fst]; lia | now apply Hall].
Qed.

Lemma Object_keys_indices {A : Type} (o : JsObject A) :
  (forall k, In k (map fst o) -> array_index k <> None) ->
  StronglySorted index_le (Object_keys o).
Proof.
  intros Hidx. unfold Object_keys.
  set (idx := fold_right _ [] o).
  assert (Hnamed : filter (fun k => match array_index k with Some _ => false | None => true end)
                          (map fst o) = []).
  { clear idx. induction (map fst o) as [| k ks IH]; [reflexivity |]. cbn [filter].
    destruct (array_index k) eqn:E; [| now elim (Hidx k (or_introl eq_refl))].
    apply IH. intros k' Hk'. apply Hidx. now right. }
  rewrite Hnamed, app_nil_r.
  assert (Hinv : StronglySorted (fun a b => (fst a <= fst b)%N) idx
                 /\ Forall (fun x => array_index (snd x) = Some (fst x)) idx).
  { subst idx. clear. induction o as [| [k v] o IH]; cbn [fold_right fst].
    - split; constructor.
    - destruct IH as [Hs Hf]. destruct (array_index k) as [n |] eqn:E; [| now split].
      split; [now apply insert_index_sorted |].
      rewrite Forall_forall in *. intros x Hx. apply insert_index_In in Hx.
      destruct Hx as [-> | Hx]; [exact E | now apply Hf]. }
  destruct Hinv as [Hs Hf]. clear Hnamed. induction idx as [| [n k] idx IH];
    cbn [map snd]; [constructor |].
  inversion Hs as [| x y Hrest Hall]; subst. inversion Hf as [| x y Hk Hf']; subst.
  constructor; [now apply IH |].
  rewrite Forall_forall in *. intros k' Hk'. apply in_map_iff in Hk'.
  destruct Hk' as [[m k''] [<- Hin]]. unfold index_le.
  pose proof (Hf' _ Hin) as Hk''. pose proof (Hall _ Hin) as Hle.
  cbn [snd fst] in *. now rewrite Hk, Hk''.
Qed.

(** X23. When every node id of the input is an array index (a canonical
    decimal number below 2^32 - 1), the datasets of each chart of the first
    listing stand in ascending numeric order of the ids, not in order of
    first appearance: this is the order the colours are given in. *)
Theorem X23_numeric_ids_sorted `{Host} (pts : list TimeSeriesPoint) (w w1 : World) :
  pts <> [] ->
  (forall p, In p pts -> array_index (node_id p) <> None) ->
  App1.updateCharts pts w = Normal w1 ->
  forall name cd, In (name, cd) (charts w1) ->
    StronglySorted index_le (map label (datasets cd)).
Proof.
  intros Hne Hidx Hrun name cd Hin.
  destruct (group_by_node pts) as [nd |] eqn:Hg.
  2: { unfold App1.updateCharts in Hrun. destruct pts; [now elim Hne |].
       rewrite Hg in Hrun. discriminate. }
  destruct (updateCharts1_charts pts w w1 nd Hne Hg Hrun name cd Hin) as [metric [_ ->]].
  cbn [datasets]. rewrite datasets_for_labels. apply Object_keys_indices.
  intros k Hk. apply Object_keys_In in Hk. apply (grouped_keys pts nd k Hg) in Hk.
  apply in_map_iff in Hk. destruct Hk as [p [<- Hp]]. now apply Hidx.
Qed.

(** X23 on rows of the nodes 10, 9 and 2, in that order. *)
Lemma X23_numeric_ids_sorted_witness :
  let pts := [ point "10" "2024-01-01T10:00" 20; point "9" "2024-01-01T10:00" 21;
               point "2" "2024-01-01T10:00" 22 ] in
  let w1 := world_of (App1.updateCharts (H := ExampleHost.host) pts (initial "24" "temp")) in
  Forall (fun nc => StronglySorted index_le (map label (datasets (snd nc)))) (charts w1).
Proof.
  intros pts w1. apply Forall_forall. intros [name cd] Hin.
  assert (Hne : pts <> []) by discriminate.
  assert (Hrun : App1.updateCharts (H := ExampleHost.host) pts (initial "24" "temp")
                 = Normal w1) by reflexivity.
  refine (X23_numeric_ids_sorted (H := ExampleHost.host) pts (initial "24" "temp") w1
            Hne _ Hrun name cd Hin).
  intros p [<- | [<- | [<- | []]]]; discriminate.
Defined.
